(** * term-image: the kitty and iTerm2 render styles

    A shallow embedding of [term_image/image/kitty.py] and
    [term_image/image/iterm2.py]: the control-data record and the chunked
    transmission of the kitty graphics protocol, the line-wise renderer,
    and the capability detection of both protocols.

    A Python [bytes] object is rendered as a [string] (a sequence of 8-bit
    characters), a [str] as the [string] that is its UTF-8 encoding; Python
    [int] is [Z]; [Optional[X]] is [option X]; a raised exception is a
    constructor of [outcome]. *)

From stdpp Require Import base gmap strings.
From Stdlib Require Import ZArith List String Ascii Bool Lia DecimalString.
From Equations Require Import Equations.
Import ListNotations.

Local Open Scope string_scope.
Local Open Scope Z_scope.

(* Let [simpl] compute the concatenation of string literals. *)
Local Arguments String.append !_ _ : simpl nomatch.

(** ** The character tables of the interpreter

    What [str.lower], [str.casefold], [int] and the class [\w] of [re] know
    about the characters: the Unicode character database of CPython 3.11
    (Unicode 14.0), as ranges of code points. *)

Module Ucd.

(** The characters outside ASCII for which [str.isalnum] holds, as
    ranges of code points: the characters that [\w] matches there. *)
Definition alnum : list (N * N) :=
  [ (170, 170); (178, 179); (181, 181); (185, 186); (188, 190); (192, 214);
    (216, 246); (248, 705); (710, 721); (736, 740); (748, 748); (750, 750);
    (880, 884); (886, 887); (890, 893); (895, 895); (902, 902); (904, 906);
    (908, 908); (910, 929); (931, 1013); (1015, 1153); (1162, 1327); (1329,
    1366); (1369, 1369); (1376, 1416); (1488, 1514); (1519, 1522); (1568, 1610);
    (1632, 1641); (1646, 1647); (1649, 1747); (1749, 1749); (1765, 1766); (1774,
    1788); (1791, 1791); (1808, 1808); (1810, 1839); (1869, 1957); (1969, 1969);
    (1984, 2026); (2036, 2037); (2042, 2042); (2048, 2069); (2074, 2074); (2084,
    2084); (2088, 2088); (2112, 2136); (2144, 2154); (2160, 2183); (2185, 2190);
    (2208, 2249); (2308, 2361); (2365, 2365); (2384, 2384); (2392, 2401); (2406,
    2415); (2417, 2432); (2437, 2444); (2447, 2448); (2451, 2472); (2474, 2480);
    (2482, 2482); (2486, 2489); (2493, 2493); (2510, 2510); (2524, 2525); (2527,
    2529); (2534, 2545); (2548, 2553); (2556, 2556); (2565, 2570); (2575, 2576);
    (2579, 2600); (2602, 2608); (2610, 2611); (2613, 2614); (2616, 2617); (2649,
    2652); (2654, 2654); (2662, 2671); (2674, 2676); (2693, 2701); (2703, 2705);
    (2707, 2728); (2730, 2736); (2738, 2739); (2741, 2745); (2749, 2749); (2768,
    2768); (2784, 2785); (2790, 2799); (2809, 2809); (2821, 2828); (2831, 2832);
    (2835, 2856); (2858, 2864); (2866, 2867); (2869, 2873); (2877, 2877); (2908,
    2909); (2911, 2913); (2918, 2927); (2929, 2935); (2947, 2947); (2949, 2954);
    (2958, 2960); (2962, 2965); (2969, 2970); (2972, 2972); (2974, 2975); (2979,
    2980); (2984, 2986); (2990, 3001); (3024, 3024); (3046, 3058); (3077, 3084);
    (3086, 3088); (3090, 3112); (3114, 3129); (3133, 3133); (3160, 3162); (3165,
    3165); (3168, 3169); (3174, 3183); (3192, 3198); (3200, 3200); (3205, 3212);
    (3214, 3216); (3218, 3240); (3242, 3251); (3253, 3257); (3261, 3261); (3293,
    3294); (3296, 3297); (3302, 3311); (3313, 3314); (3332, 3340); (3342, 3344);
    (3346, 3386); (3389, 3389); (3406, 3406); (3412, 3414); (3416, 3425); (3430,
    3448); (3450, 3455); (3461, 3478); (3482, 3505); (3507, 3515); (3517, 3517);
    (3520, 3526); (3558, 3567); (3585, 3632); (3634, 3635); (3648, 3654); (3664,
    3673); (3713, 3714); (3716, 3716); (3718, 3722); (3724, 3747); (3749, 3749);
    (3751, 3760); (3762, 3763); (3773, 3773); (3776, 3780); (3782, 3782); (3792,
    3801); (3804, 3807); (3840, 3840); (3872, 3891); (3904, 3911); (3913, 3948);
    (3976, 3980); (4096, 4138); (4159, 4169); (4176, 4181); (4186, 4189); (4193,
    4193); (4197, 4198); (4206, 4208); (4213, 4225); (4238, 4238); (4240, 4249);
    (4256, 4293); (4295, 4295); (4301, 4301); (4304, 4346); (4348, 4680); (4682,
    4685); (4688, 4694); (4696, 4696); (4698, 4701); (4704, 4744); (4746, 4749);
    (4752, 4784); (4786, 4789); (4792, 4798); (4800, 4800); (4802, 4805); (4808,
    4822); (4824, 4880); (4882, 4885); (4888, 4954); (4969, 4988); (4992, 5007);
    (5024, 5109); (5112, 5117); (5121, 5740); (5743, 5759); (5761, 5786); (5792,
    5866); (5870, 5880); (5888, 5905); (5919, 5937); (5952, 5969); (5984, 5996);
    (5998, 6000); (6016, 6067); (6103, 6103); (6108, 6108); (6112, 6121); (6128,
    6137); (6160, 6169); (6176, 6264); (6272, 6276); (6279, 6312); (6314, 6314);
    (6320, 6389); (6400, 6430); (6470, 6509); (6512, 6516); (6528, 6571); (6576,
    6601); (6608, 6618); (6656, 6678); (6688, 6740); (6784, 6793); (6800, 6809);
    (6823, 6823); (6917, 6963); (6981, 6988); (6992, 7001); (7043, 7072); (7086,
    7141); (7168, 7203); (7232, 7241); (7245, 7293); (7296, 7304); (7312, 7354);
    (7357, 7359); (7401, 7404); (7406, 7411); (7413, 7414); (7418, 7418); (7424,
    7615); (7680, 7957); (7960, 7965); (7968, 8005); (8008, 8013); (8016, 8023);
    (8025, 8025); (8027, 8027); (8029, 8029); (8031, 8061); (8064, 8116); (8118,
    8124); (8126, 8126); (8130, 8132); (8134, 8140); (8144, 8147); (8150, 8155);
    (8160, 8172); (8178, 8180); (8182, 8188); (8304, 8305); (8308, 8313); (8319,
    8329); (8336, 8348); (8450, 8450); (8455, 8455); (8458, 8467); (8469, 8469);
    (8473, 8477); (8484, 8484); (8486, 8486); (8488, 8488); (8490, 8493); (8495,
    8505); (8508, 8511); (8517, 8521); (8526, 8526); (8528, 8585); (9312, 9371);
    (9450, 9471); (10102, 10131); (11264, 11492); (11499, 11502); (11506,
    11507); (11517, 11517); (11520, 11557); (11559, 11559); (11565, 11565);
    (11568, 11623); (11631, 11631); (11648, 11670); (11680, 11686); (11688,
    11694); (11696, 11702); (11704, 11710); (11712, 11718); (11720, 11726);
    (11728, 11734); (11736, 11742); (11823, 11823); (12293, 12295); (12321,
    12329); (12337, 12341); (12344, 12348); (12353, 12438); (12445, 12447);
    (12449, 12538); (12540, 12543); (12549, 12591); (12593, 12686); (12690,
    12693); (12704, 12735); (12784, 12799); (12832, 12841); (12872, 12879);
    (12881, 12895); (12928, 12937); (12977, 12991); (13312, 19903); (19968,
    42124); (42192, 42237); (42240, 42508); (42512, 42539); (42560, 42606);
    (42623, 42653); (42656, 42735); (42775, 42783); (42786, 42888); (42891,
    42954); (42960, 42961); (42963, 42963); (42965, 42969); (42994, 43009);
    (43011, 43013); (43015, 43018); (43020, 43042); (43056, 43061); (43072,
    43123); (43138, 43187); (43216, 43225); (43250, 43255); (43259, 43259);
    (43261, 43262); (43264, 43301); (43312, 43334); (43360, 43388); (43396,
    43442); (43471, 43481); (43488, 43492); (43494, 43518); (43520, 43560);
    (43584, 43586); (43588, 43595); (43600, 43609); (43616, 43638); (43642,
    43642); (43646, 43695); (43697, 43697); (43701, 43702); (43705, 43709);
    (43712, 43712); (43714, 43714); (43739, 43741); (43744, 43754); (43762,
    43764); (43777, 43782); (43785, 43790); (43793, 43798); (43808, 43814);
    (43816, 43822); (43824, 43866); (43868, 43881); (43888, 44002); (44016,
    44025); (44032, 55203); (55216, 55238); (55243, 55291); (63744, 64109);
    (64112, 64217); (64256, 64262); (64275, 64279); (64285, 64285); (64287,
    64296); (64298, 64310); (64312, 64316); (64318, 64318); (64320, 64321);
    (64323, 64324); (64326, 64433); (64467, 64829); (64848, 64911); (64914,
    64967); (65008, 65019); (65136, 65140); (65142, 65276); (65296, 65305);
    (65313, 65338); (65345, 65370); (65382, 65470); (65474, 65479); (65482,
    65487); (65490, 65495); (65498, 65500); (65536, 65547); (65549, 65574);
    (65576, 65594); (65596, 65597); (65599, 65613); (65616, 65629); (65664,
    65786); (65799, 65843); (65856, 65912); (65930, 65931); (66176, 66204);
    (66208, 66256); (66273, 66299); (66304, 66339); (66349, 66378); (66384,
    66421); (66432, 66461); (66464, 66499); (66504, 66511); (66513, 66517);
    (66560, 66717); (66720, 66729); (66736, 66771); (66776, 66811); (66816,
    66855); (66864, 66915); (66928, 66938); (66940, 66954); (66956, 66962);
    (66964, 66965); (66967, 66977); (66979, 66993); (66995, 67001); (67003,
    67004); (67072, 67382); (67392, 67413); (67424, 67431); (67456, 67461);
    (67463, 67504); (67506, 67514); (67584, 67589); (67592, 67592); (67594,
    67637); (67639, 67640); (67644, 67644); (67647, 67669); (67672, 67702);
    (67705, 67742); (67751, 67759); (67808, 67826); (67828, 67829); (67835,
    67867); (67872, 67897); (67968, 68023); (68028, 68047); (68050, 68096);
    (68112, 68115); (68117, 68119); (68121, 68149); (68160, 68168); (68192,
    68222); (68224, 68255); (68288, 68295); (68297, 68324); (68331, 68335);
    (68352, 68405); (68416, 68437); (68440, 68466); (68472, 68497); (68521,
    68527); (68608, 68680); (68736, 68786); (68800, 68850); (68858, 68899);
    (68912, 68921); (69216, 69246); (69248, 69289); (69296, 69297); (69376,
    69415); (69424, 69445); (69457, 69460); (69488, 69505); (69552, 69579);
    (69600, 69622); (69635, 69687); (69714, 69743); (69745, 69746); (69749,
    69749); (69763, 69807); (69840, 69864); (69872, 69881); (69891, 69926);
    (69942, 69951); (69956, 69956); (69959, 69959); (69968, 70002); (70006,
    70006); (70019, 70066); (70081, 70084); (70096, 70106); (70108, 70108);
    (70113, 70132); (70144, 70161); (70163, 70187); (70272, 70278); (70280,
    70280); (70282, 70285); (70287, 70301); (70303, 70312); (70320, 70366);
    (70384, 70393); (70405, 70412); (70415, 70416); (70419, 70440); (70442,
    70448); (70450, 70451); (70453, 70457); (70461, 70461); (70480, 70480);
    (70493, 70497); (70656, 70708); (70727, 70730); (70736, 70745); (70751,
    70753); (70784, 70831); (70852, 70853); (70855, 70855); (70864, 70873);
    (71040, 71086); (71128, 71131); (71168, 71215); (71236, 71236); (71248,
    71257); (71296, 71338); (71352, 71352); (71360, 71369); (71424, 71450);
    (71472, 71483); (71488, 71494); (71680, 71723); (71840, 71922); (71935,
    71942); (71945, 71945); (71948, 71955); (71957, 71958); (71960, 71983);
    (71999, 71999); (72001, 72001); (72016, 72025); (72096, 72103); (72106,
    72144); (72161, 72161); (72163, 72163); (72192, 72192); (72203, 72242);
    (72250, 72250); (72272, 72272); (72284, 72329); (72349, 72349); (72368,
    72440); (72704, 72712); (72714, 72750); (72768, 72768); (72784, 72812);
    (72818, 72847); (72960, 72966); (72968, 72969); (72971, 73008); (73030,
    73030); (73040, 73049); (73056, 73061); (73063, 73064); (73066, 73097);
    (73112, 73112); (73120, 73129); (73440, 73458); (73648, 73648); (73664,
    73684); (73728, 74649); (74752, 74862); (74880, 75075); (77712, 77808);
    (77824, 78894); (82944, 83526); (92160, 92728); (92736, 92766); (92768,
    92777); (92784, 92862); (92864, 92873); (92880, 92909); (92928, 92975);
    (92992, 92995); (93008, 93017); (93019, 93025); (93027, 93047); (93053,
    93071); (93760, 93846); (93952, 94026); (94032, 94032); (94099, 94111);
    (94176, 94177); (94179, 94179); (94208, 100343); (100352, 101589); (101632,
    101640); (110576, 110579); (110581, 110587); (110589, 110590); (110592,
    110882); (110928, 110930); (110948, 110951); (110960, 111355); (113664,
    113770); (113776, 113788); (113792, 113800); (113808, 113817); (119520,
    119539); (119648, 119672); (119808, 119892); (119894, 119964); (119966,
    119967); (119970, 119970); (119973, 119974); (119977, 119980); (119982,
    119993); (119995, 119995); (119997, 120003); (120005, 120069); (120071,
    120074); (120077, 120084); (120086, 120092); (120094, 120121); (120123,
    120126); (120128, 120132); (120134, 120134); (120138, 120144); (120146,
    120485); (120488, 120512); (120514, 120538); (120540, 120570); (120572,
    120596); (120598, 120628); (120630, 120654); (120656, 120686); (120688,
    120712); (120714, 120744); (120746, 120770); (120772, 120779); (120782,
    120831); (122624, 122654); (123136, 123180); (123191, 123197); (123200,
    123209); (123214, 123214); (123536, 123565); (123584, 123627); (123632,
    123641); (124896, 124902); (124904, 124907); (124909, 124910); (124912,
    124926); (124928, 125124); (125127, 125135); (125184, 125251); (125259,
    125259); (125264, 125273); (126065, 126123); (126125, 126127); (126129,
    126132); (126209, 126253); (126255, 126269); (126464, 126467); (126469,
    126495); (126497, 126498); (126500, 126500); (126503, 126503); (126505,
    126514); (126516, 126519); (126521, 126521); (126523, 126523); (126530,
    126530); (126535, 126535); (126537, 126537); (126539, 126539); (126541,
    126543); (126545, 126546); (126548, 126548); (126551, 126551); (126553,
    126553); (126555, 126555); (126557, 126557); (126559, 126559); (126561,
    126562); (126564, 126564); (126567, 126570); (126572, 126578); (126580,
    126583); (126585, 126588); (126590, 126590); (126592, 126601); (126603,
    126619); (126625, 126627); (126629, 126633); (126635, 126651); (127232,
    127244); (130032, 130041); (131072, 173791); (173824, 177976); (177984,
    178205); (178208, 183969); (183984, 191456); (194560, 195101); (196608,
    201546) ]%N.

(** The characters from 127 on for which [str.isspace] holds. *)
Definition space : list (N * N) :=
  [ (133, 133); (160, 160); (5760, 5760); (8192, 8202); (8232, 8233); (8239,
    8239); (8287, 8287); (12288, 12288) ]%N.

(** The digit zero of every run of decimal digits from 127 on; the nine
    code points after each are its digits one to nine. *)
Definition decimal_zero : list N :=
  [ 1632; 1776; 1984; 2406; 2534; 2662; 2790; 2918; 3046; 3174; 3302; 3430;
    3558; 3664; 3792; 3872; 4160; 4240; 6112; 6160; 6470; 6608; 6784; 6800;
    6992; 7088; 7232; 7248; 42528; 43216; 43264; 43472; 43504; 43600; 44016;
    65296; 66720; 68912; 69734; 69872; 69942; 70096; 70384; 70736; 70864; 71248;
    71360; 71472; 71904; 72016; 72784; 73040; 73120; 92768; 92864; 93008;
    120782; 120792; 120802; 120812; 120822; 123200; 123632; 125264; 130032 ]%N.

(** The case-ignorable characters. *)
Definition case_ignorable : list (N * N) :=
  [ (39, 39); (46, 46); (58, 58); (94, 94); (96, 96); (168, 168); (173, 173);
    (175, 175); (180, 180); (183, 184); (688, 879); (884, 885); (890, 890);
    (900, 901); (903, 903); (1155, 1161); (1369, 1369); (1375, 1375); (1425,
    1469); (1471, 1471); (1473, 1474); (1476, 1477); (1479, 1479); (1524, 1524);
    (1536, 1541); (1552, 1562); (1564, 1564); (1600, 1600); (1611, 1631); (1648,
    1648); (1750, 1757); (1759, 1768); (1770, 1773); (1807, 1807); (1809, 1809);
    (1840, 1866); (1958, 1968); (2027, 2037); (2042, 2042); (2045, 2045); (2070,
    2093); (2137, 2139); (2184, 2184); (2192, 2193); (2200, 2207); (2249, 2306);
    (2362, 2362); (2364, 2364); (2369, 2376); (2381, 2381); (2385, 2391); (2402,
    2403); (2417, 2417); (2433, 2433); (2492, 2492); (2497, 2500); (2509, 2509);
    (2530, 2531); (2558, 2558); (2561, 2562); (2620, 2620); (2625, 2626); (2631,
    2632); (2635, 2637); (2641, 2641); (2672, 2673); (2677, 2677); (2689, 2690);
    (2748, 2748); (2753, 2757); (2759, 2760); (2765, 2765); (2786, 2787); (2810,
    2815); (2817, 2817); (2876, 2876); (2879, 2879); (2881, 2884); (2893, 2893);
    (2901, 2902); (2914, 2915); (2946, 2946); (3008, 3008); (3021, 3021); (3072,
    3072); (3076, 3076); (3132, 3132); (3134, 3136); (3142, 3144); (3146, 3149);
    (3157, 3158); (3170, 3171); (3201, 3201); (3260, 3260); (3263, 3263); (3270,
    3270); (3276, 3277); (3298, 3299); (3328, 3329); (3387, 3388); (3393, 3396);
    (3405, 3405); (3426, 3427); (3457, 3457); (3530, 3530); (3538, 3540); (3542,
    3542); (3633, 3633); (3636, 3642); (3654, 3662); (3761, 3761); (3764, 3772);
    (3782, 3782); (3784, 3789); (3864, 3865); (3893, 3893); (3895, 3895); (3897,
    3897); (3953, 3966); (3968, 3972); (3974, 3975); (3981, 3991); (3993, 4028);
    (4038, 4038); (4141, 4144); (4146, 4151); (4153, 4154); (4157, 4158); (4184,
    4185); (4190, 4192); (4209, 4212); (4226, 4226); (4229, 4230); (4237, 4237);
    (4253, 4253); (4348, 4348); (4957, 4959); (5906, 5908); (5938, 5939); (5970,
    5971); (6002, 6003); (6068, 6069); (6071, 6077); (6086, 6086); (6089, 6099);
    (6103, 6103); (6109, 6109); (6155, 6159); (6211, 6211); (6277, 6278); (6313,
    6313); (6432, 6434); (6439, 6440); (6450, 6450); (6457, 6459); (6679, 6680);
    (6683, 6683); (6742, 6742); (6744, 6750); (6752, 6752); (6754, 6754); (6757,
    6764); (6771, 6780); (6783, 6783); (6823, 6823); (6832, 6862); (6912, 6915);
    (6964, 6964); (6966, 6970); (6972, 6972); (6978, 6978); (7019, 7027); (7040,
    7041); (7074, 7077); (7080, 7081); (7083, 7085); (7142, 7142); (7144, 7145);
    (7149, 7149); (7151, 7153); (7212, 7219); (7222, 7223); (7288, 7293); (7376,
    7378); (7380, 7392); (7394, 7400); (7405, 7405); (7412, 7412); (7416, 7417);
    (7468, 7530); (7544, 7544); (7579, 7679); (8125, 8125); (8127, 8129); (8141,
    8143); (8157, 8159); (8173, 8175); (8189, 8190); (8203, 8207); (8216, 8217);
    (8228, 8228); (8231, 8231); (8234, 8238); (8288, 8292); (8294, 8303); (8305,
    8305); (8319, 8319); (8336, 8348); (8400, 8432); (11388, 11389); (11503,
    11505); (11631, 11631); (11647, 11647); (11744, 11775); (11823, 11823);
    (12293, 12293); (12330, 12333); (12337, 12341); (12347, 12347); (12441,
    12446); (12540, 12542); (40981, 40981); (42232, 42237); (42508, 42508);
    (42607, 42610); (42612, 42621); (42623, 42623); (42652, 42655); (42736,
    42737); (42752, 42785); (42864, 42864); (42888, 42890); (42994, 42996);
    (43000, 43001); (43010, 43010); (43014, 43014); (43019, 43019); (43045,
    43046); (43052, 43052); (43204, 43205); (43232, 43249); (43263, 43263);
    (43302, 43309); (43335, 43345); (43392, 43394); (43443, 43443); (43446,
    43449); (43452, 43453); (43471, 43471); (43493, 43494); (43561, 43566);
    (43569, 43570); (43573, 43574); (43587, 43587); (43596, 43596); (43632,
    43632); (43644, 43644); (43696, 43696); (43698, 43700); (43703, 43704);
    (43710, 43711); (43713, 43713); (43741, 43741); (43756, 43757); (43763,
    43764); (43766, 43766); (43867, 43871); (43881, 43883); (44005, 44005);
    (44008, 44008); (44013, 44013); (64286, 64286); (64434, 64450); (65024,
    65039); (65043, 65043); (65056, 65071); (65106, 65106); (65109, 65109);
    (65279, 65279); (65287, 65287); (65294, 65294); (65306, 65306); (65342,
    65342); (65344, 65344); (65392, 65392); (65438, 65439); (65507, 65507);
    (65529, 65531); (66045, 66045); (66272, 66272); (66422, 66426); (67456,
    67461); (67463, 67504); (67506, 67514); (68097, 68099); (68101, 68102);
    (68108, 68111); (68152, 68154); (68159, 68159); (68325, 68326); (68900,
    68903); (69291, 69292); (69446, 69456); (69506, 69509); (69633, 69633);
    (69688, 69702); (69744, 69744); (69747, 69748); (69759, 69761); (69811,
    69814); (69817, 69818); (69821, 69821); (69826, 69826); (69837, 69837);
    (69888, 69890); (69927, 69931); (69933, 69940); (70003, 70003); (70016,
    70017); (70070, 70078); (70089, 70092); (70095, 70095); (70191, 70193);
    (70196, 70196); (70198, 70199); (70206, 70206); (70367, 70367); (70371,
    70378); (70400, 70401); (70459, 70460); (70464, 70464); (70502, 70508);
    (70512, 70516); (70712, 70719); (70722, 70724); (70726, 70726); (70750,
    70750); (70835, 70840); (70842, 70842); (70847, 70848); (70850, 70851);
    (71090, 71093); (71100, 71101); (71103, 71104); (71132, 71133); (71219,
    71226); (71229, 71229); (71231, 71232); (71339, 71339); (71341, 71341);
    (71344, 71349); (71351, 71351); (71453, 71455); (71458, 71461); (71463,
    71467); (71727, 71735); (71737, 71738); (71995, 71996); (71998, 71998);
    (72003, 72003); (72148, 72151); (72154, 72155); (72160, 72160); (72193,
    72202); (72243, 72248); (72251, 72254); (72263, 72263); (72273, 72278);
    (72281, 72283); (72330, 72342); (72344, 72345); (72752, 72758); (72760,
    72765); (72767, 72767); (72850, 72871); (72874, 72880); (72882, 72883);
    (72885, 72886); (73009, 73014); (73018, 73018); (73020, 73021); (73023,
    73029); (73031, 73031); (73104, 73105); (73109, 73109); (73111, 73111);
    (73459, 73460); (78896, 78904); (92912, 92916); (92976, 92982); (92992,
    92995); (94031, 94031); (94095, 94111); (94176, 94177); (94179, 94180);
    (110576, 110579); (110581, 110587); (110589, 110590); (113821, 113822);
    (113824, 113827); (118528, 118573); (118576, 118598); (119143, 119145);
    (119155, 119170); (119173, 119179); (119210, 119213); (119362, 119364);
    (121344, 121398); (121403, 121452); (121461, 121461); (121476, 121476);
    (121499, 121503); (121505, 121519); (122880, 122886); (122888, 122904);
    (122907, 122913); (122915, 122916); (122918, 122922); (123184, 123197);
    (123566, 123566); (123628, 123631); (125136, 125142); (125252, 125259);
    (127995, 127999); (917505, 917505); (917536, 917631); (917760, 917999) ]%N.

(** The cased characters that are not case-ignorable. *)
Definition cased : list (N * N) :=
  [ (65, 90); (97, 122); (170, 170); (181, 181); (186, 186); (192, 214); (216,
    246); (248, 442); (444, 447); (452, 659); (661, 687); (880, 883); (886,
    887); (891, 893); (895, 895); (902, 902); (904, 906); (908, 908); (910,
    929); (931, 1013); (1015, 1153); (1162, 1327); (1329, 1366); (1376, 1416);
    (4256, 4293); (4295, 4295); (4301, 4301); (4304, 4346); (4349, 4351); (5024,
    5109); (5112, 5117); (7296, 7304); (7312, 7354); (7357, 7359); (7424, 7467);
    (7531, 7543); (7545, 7578); (7680, 7957); (7960, 7965); (7968, 8005); (8008,
    8013); (8016, 8023); (8025, 8025); (8027, 8027); (8029, 8029); (8031, 8061);
    (8064, 8116); (8118, 8124); (8126, 8126); (8130, 8132); (8134, 8140); (8144,
    8147); (8150, 8155); (8160, 8172); (8178, 8180); (8182, 8188); (8450, 8450);
    (8455, 8455); (8458, 8467); (8469, 8469); (8473, 8477); (8484, 8484); (8486,
    8486); (8488, 8488); (8490, 8493); (8495, 8500); (8505, 8505); (8508, 8511);
    (8517, 8521); (8526, 8526); (8544, 8575); (8579, 8580); (9398, 9449);
    (11264, 11387); (11390, 11492); (11499, 11502); (11506, 11507); (11520,
    11557); (11559, 11559); (11565, 11565); (42560, 42605); (42624, 42651);
    (42786, 42863); (42865, 42887); (42891, 42894); (42896, 42954); (42960,
    42961); (42963, 42963); (42965, 42969); (42997, 42998); (43002, 43002);
    (43824, 43866); (43872, 43880); (43888, 43967); (64256, 64262); (64275,
    64279); (65313, 65338); (65345, 65370); (66560, 66639); (66736, 66771);
    (66776, 66811); (66928, 66938); (66940, 66954); (66956, 66962); (66964,
    66965); (66967, 66977); (66979, 66993); (66995, 67001); (67003, 67004);
    (68736, 68786); (68800, 68850); (71840, 71903); (93760, 93823); (119808,
    119892); (119894, 119964); (119966, 119967); (119970, 119970); (119973,
    119974); (119977, 119980); (119982, 119993); (119995, 119995); (119997,
    120003); (120005, 120069); (120071, 120074); (120077, 120084); (120086,
    120092); (120094, 120121); (120123, 120126); (120128, 120132); (120134,
    120134); (120138, 120144); (120146, 120485); (120488, 120512); (120514,
    120538); (120540, 120570); (120572, 120596); (120598, 120628); (120630,
    120654); (120656, 120686); (120688, 120712); (120714, 120744); (120746,
    120770); (120772, 120779); (122624, 122633); (122635, 122654); (125184,
    125251); (127280, 127305); (127312, 127337); (127344, 127369) ]%N.

(** The lower-case mapping, in runs [(first, last, step, target)]: the
    code point [first + k * step <= last] maps to [target + k * step]. Other
    characters are their own lower case, but for U+0130, which maps to two. *)
Definition lower : list (N * N * N * N) :=
  [ (65, 90, 1, 97); (192, 214, 1, 224); (216, 222, 1, 248); (256, 302, 2, 257);
    (306, 310, 2, 307); (313, 327, 2, 314); (330, 374, 2, 331); (376, 376, 1,
    255); (377, 381, 2, 378); (385, 385, 1, 595); (386, 388, 2, 387); (390, 390,
    1, 596); (391, 391, 1, 392); (393, 394, 1, 598); (395, 395, 1, 396); (398,
    398, 1, 477); (399, 399, 1, 601); (400, 400, 1, 603); (401, 401, 1, 402);
    (403, 403, 1, 608); (404, 404, 1, 611); (406, 406, 1, 617); (407, 407, 1,
    616); (408, 408, 1, 409); (412, 412, 1, 623); (413, 413, 1, 626); (415, 415,
    1, 629); (416, 420, 2, 417); (422, 422, 1, 640); (423, 423, 1, 424); (425,
    425, 1, 643); (428, 428, 1, 429); (430, 430, 1, 648); (431, 431, 1, 432);
    (433, 434, 1, 650); (435, 437, 2, 436); (439, 439, 1, 658); (440, 440, 1,
    441); (444, 444, 1, 445); (452, 452, 1, 454); (453, 453, 1, 454); (455, 455,
    1, 457); (456, 456, 1, 457); (458, 458, 1, 460); (459, 475, 2, 460); (478,
    494, 2, 479); (497, 497, 1, 499); (498, 500, 2, 499); (502, 502, 1, 405);
    (503, 503, 1, 447); (504, 542, 2, 505); (544, 544, 1, 414); (546, 562, 2,
    547); (570, 570, 1, 11365); (571, 571, 1, 572); (573, 573, 1, 410); (574,
    574, 1, 11366); (577, 577, 1, 578); (579, 579, 1, 384); (580, 580, 1, 649);
    (581, 581, 1, 652); (582, 590, 2, 583); (880, 882, 2, 881); (886, 886, 1,
    887); (895, 895, 1, 1011); (902, 902, 1, 940); (904, 906, 1, 941); (908,
    908, 1, 972); (910, 911, 1, 973); (913, 929, 1, 945); (931, 939, 1, 963);
    (975, 975, 1, 983); (984, 1006, 2, 985); (1012, 1012, 1, 952); (1015, 1015,
    1, 1016); (1017, 1017, 1, 1010); (1018, 1018, 1, 1019); (1021, 1023, 1,
    891); (1024, 1039, 1, 1104); (1040, 1071, 1, 1072); (1120, 1152, 2, 1121);
    (1162, 1214, 2, 1163); (1216, 1216, 1, 1231); (1217, 1229, 2, 1218); (1232,
    1326, 2, 1233); (1329, 1366, 1, 1377); (4256, 4293, 1, 11520); (4295, 4295,
    1, 11559); (4301, 4301, 1, 11565); (5024, 5103, 1, 43888); (5104, 5109, 1,
    5112); (7312, 7354, 1, 4304); (7357, 7359, 1, 4349); (7680, 7828, 2, 7681);
    (7838, 7838, 1, 223); (7840, 7934, 2, 7841); (7944, 7951, 1, 7936); (7960,
    7965, 1, 7952); (7976, 7983, 1, 7968); (7992, 7999, 1, 7984); (8008, 8013,
    1, 8000); (8025, 8031, 2, 8017); (8040, 8047, 1, 8032); (8072, 8079, 1,
    8064); (8088, 8095, 1, 8080); (8104, 8111, 1, 8096); (8120, 8121, 1, 8112);
    (8122, 8123, 1, 8048); (8124, 8124, 1, 8115); (8136, 8139, 1, 8050); (8140,
    8140, 1, 8131); (8152, 8153, 1, 8144); (8154, 8155, 1, 8054); (8168, 8169,
    1, 8160); (8170, 8171, 1, 8058); (8172, 8172, 1, 8165); (8184, 8185, 1,
    8056); (8186, 8187, 1, 8060); (8188, 8188, 1, 8179); (8486, 8486, 1, 969);
    (8490, 8490, 1, 107); (8491, 8491, 1, 229); (8498, 8498, 1, 8526); (8544,
    8559, 1, 8560); (8579, 8579, 1, 8580); (9398, 9423, 1, 9424); (11264, 11311,
    1, 11312); (11360, 11360, 1, 11361); (11362, 11362, 1, 619); (11363, 11363,
    1, 7549); (11364, 11364, 1, 637); (11367, 11371, 2, 11368); (11373, 11373,
    1, 593); (11374, 11374, 1, 625); (11375, 11375, 1, 592); (11376, 11376, 1,
    594); (11378, 11378, 1, 11379); (11381, 11381, 1, 11382); (11390, 11391, 1,
    575); (11392, 11490, 2, 11393); (11499, 11501, 2, 11500); (11506, 11506, 1,
    11507); (42560, 42604, 2, 42561); (42624, 42650, 2, 42625); (42786, 42798,
    2, 42787); (42802, 42862, 2, 42803); (42873, 42875, 2, 42874); (42877,
    42877, 1, 7545); (42878, 42886, 2, 42879); (42891, 42891, 1, 42892); (42893,
    42893, 1, 613); (42896, 42898, 2, 42897); (42902, 42920, 2, 42903); (42922,
    42922, 1, 614); (42923, 42923, 1, 604); (42924, 42924, 1, 609); (42925,
    42925, 1, 620); (42926, 42926, 1, 618); (42928, 42928, 1, 670); (42929,
    42929, 1, 647); (42930, 42930, 1, 669); (42931, 42931, 1, 43859); (42932,
    42946, 2, 42933); (42948, 42948, 1, 42900); (42949, 42949, 1, 642); (42950,
    42950, 1, 7566); (42951, 42953, 2, 42952); (42960, 42960, 1, 42961); (42966,
    42968, 2, 42967); (42997, 42997, 1, 42998); (65313, 65338, 1, 65345);
    (66560, 66599, 1, 66600); (66736, 66771, 1, 66776); (66928, 66938, 1,
    66967); (66940, 66954, 1, 66979); (66956, 66962, 1, 66995); (66964, 66965,
    1, 67003); (68736, 68786, 1, 68800); (71840, 71871, 1, 71872); (93760,
    93791, 1, 93792); (125184, 125217, 1, 125218) ]%N.

(** The case folding of single characters to single characters, in runs
    as in [lower]. *)
Definition casefold : list (N * N * N * N) :=
  [ (65, 90, 1, 97); (181, 181, 1, 956); (192, 214, 1, 224); (216, 222, 1, 248);
    (256, 302, 2, 257); (306, 310, 2, 307); (313, 327, 2, 314); (330, 374, 2,
    331); (376, 376, 1, 255); (377, 381, 2, 378); (383, 383, 1, 115); (385, 385,
    1, 595); (386, 388, 2, 387); (390, 390, 1, 596); (391, 391, 1, 392); (393,
    394, 1, 598); (395, 395, 1, 396); (398, 398, 1, 477); (399, 399, 1, 601);
    (400, 400, 1, 603); (401, 401, 1, 402); (403, 403, 1, 608); (404, 404, 1,
    611); (406, 406, 1, 617); (407, 407, 1, 616); (408, 408, 1, 409); (412, 412,
    1, 623); (413, 413, 1, 626); (415, 415, 1, 629); (416, 420, 2, 417); (422,
    422, 1, 640); (423, 423, 1, 424); (425, 425, 1, 643); (428, 428, 1, 429);
    (430, 430, 1, 648); (431, 431, 1, 432); (433, 434, 1, 650); (435, 437, 2,
    436); (439, 439, 1, 658); (440, 440, 1, 441); (444, 444, 1, 445); (452, 452,
    1, 454); (453, 453, 1, 454); (455, 455, 1, 457); (456, 456, 1, 457); (458,
    458, 1, 460); (459, 475, 2, 460); (478, 494, 2, 479); (497, 497, 1, 499);
    (498, 500, 2, 499); (502, 502, 1, 405); (503, 503, 1, 447); (504, 542, 2,
    505); (544, 544, 1, 414); (546, 562, 2, 547); (570, 570, 1, 11365); (571,
    571, 1, 572); (573, 573, 1, 410); (574, 574, 1, 11366); (577, 577, 1, 578);
    (579, 579, 1, 384); (580, 580, 1, 649); (581, 581, 1, 652); (582, 590, 2,
    583); (837, 837, 1, 953); (880, 882, 2, 881); (886, 886, 1, 887); (895, 895,
    1, 1011); (902, 902, 1, 940); (904, 906, 1, 941); (908, 908, 1, 972); (910,
    911, 1, 973); (913, 929, 1, 945); (931, 939, 1, 963); (962, 962, 1, 963);
    (975, 975, 1, 983); (976, 976, 1, 946); (977, 977, 1, 952); (981, 981, 1,
    966); (982, 982, 1, 960); (984, 1006, 2, 985); (1008, 1008, 1, 954); (1009,
    1009, 1, 961); (1012, 1012, 1, 952); (1013, 1013, 1, 949); (1015, 1015, 1,
    1016); (1017, 1017, 1, 1010); (1018, 1018, 1, 1019); (1021, 1023, 1, 891);
    (1024, 1039, 1, 1104); (1040, 1071, 1, 1072); (1120, 1152, 2, 1121); (1162,
    1214, 2, 1163); (1216, 1216, 1, 1231); (1217, 1229, 2, 1218); (1232, 1326,
    2, 1233); (1329, 1366, 1, 1377); (4256, 4293, 1, 11520); (4295, 4295, 1,
    11559); (4301, 4301, 1, 11565); (5112, 5117, 1, 5104); (7296, 7296, 1,
    1074); (7297, 7297, 1, 1076); (7298, 7298, 1, 1086); (7299, 7300, 1, 1089);
    (7301, 7301, 1, 1090); (7302, 7302, 1, 1098); (7303, 7303, 1, 1123); (7304,
    7304, 1, 42571); (7312, 7354, 1, 4304); (7357, 7359, 1, 4349); (7680, 7828,
    2, 7681); (7835, 7835, 1, 7777); (7840, 7934, 2, 7841); (7944, 7951, 1,
    7936); (7960, 7965, 1, 7952); (7976, 7983, 1, 7968); (7992, 7999, 1, 7984);
    (8008, 8013, 1, 8000); (8025, 8031, 2, 8017); (8040, 8047, 1, 8032); (8120,
    8121, 1, 8112); (8122, 8123, 1, 8048); (8126, 8126, 1, 953); (8136, 8139, 1,
    8050); (8152, 8153, 1, 8144); (8154, 8155, 1, 8054); (8168, 8169, 1, 8160);
    (8170, 8171, 1, 8058); (8172, 8172, 1, 8165); (8184, 8185, 1, 8056); (8186,
    8187, 1, 8060); (8486, 8486, 1, 969); (8490, 8490, 1, 107); (8491, 8491, 1,
    229); (8498, 8498, 1, 8526); (8544, 8559, 1, 8560); (8579, 8579, 1, 8580);
    (9398, 9423, 1, 9424); (11264, 11311, 1, 11312); (11360, 11360, 1, 11361);
    (11362, 11362, 1, 619); (11363, 11363, 1, 7549); (11364, 11364, 1, 637);
    (11367, 11371, 2, 11368); (11373, 11373, 1, 593); (11374, 11374, 1, 625);
    (11375, 11375, 1, 592); (11376, 11376, 1, 594); (11378, 11378, 1, 11379);
    (11381, 11381, 1, 11382); (11390, 11391, 1, 575); (11392, 11490, 2, 11393);
    (11499, 11501, 2, 11500); (11506, 11506, 1, 11507); (42560, 42604, 2,
    42561); (42624, 42650, 2, 42625); (42786, 42798, 2, 42787); (42802, 42862,
    2, 42803); (42873, 42875, 2, 42874); (42877, 42877, 1, 7545); (42878, 42886,
    2, 42879); (42891, 42891, 1, 42892); (42893, 42893, 1, 613); (42896, 42898,
    2, 42897); (42902, 42920, 2, 42903); (42922, 42922, 1, 614); (42923, 42923,
    1, 604); (42924, 42924, 1, 609); (42925, 42925, 1, 620); (42926, 42926, 1,
    618); (42928, 42928, 1, 670); (42929, 42929, 1, 647); (42930, 42930, 1,
    669); (42931, 42931, 1, 43859); (42932, 42946, 2, 42933); (42948, 42948, 1,
    42900); (42949, 42949, 1, 642); (42950, 42950, 1, 7566); (42951, 42953, 2,
    42952); (42960, 42960, 1, 42961); (42966, 42968, 2, 42967); (42997, 42997,
    1, 42998); (43888, 43967, 1, 5024); (65313, 65338, 1, 65345); (66560, 66599,
    1, 66600); (66736, 66771, 1, 66776); (66928, 66938, 1, 66967); (66940,
    66954, 1, 66979); (66956, 66962, 1, 66995); (66964, 66965, 1, 67003);
    (68736, 68786, 1, 68800); (71840, 71871, 1, 71872); (93760, 93791, 1,
    93792); (125184, 125217, 1, 125218) ]%N.

(** The characters whose case folding is more than one character. *)
Definition casefold_full : list (N * list N) :=
  [ (223, [115; 115]); (304, [105; 775]); (329, [700; 110]); (496, [106; 780]);
    (912, [953; 776; 769]); (944, [965; 776; 769]); (1415, [1381; 1410]); (7830,
    [104; 817]); (7831, [116; 776]); (7832, [119; 778]); (7833, [121; 778]);
    (7834, [97; 702]); (7838, [115; 115]); (8016, [965; 787]); (8018, [965; 787;
    768]); (8020, [965; 787; 769]); (8022, [965; 787; 834]); (8064, [7936;
    953]); (8065, [7937; 953]); (8066, [7938; 953]); (8067, [7939; 953]); (8068,
    [7940; 953]); (8069, [7941; 953]); (8070, [7942; 953]); (8071, [7943; 953]);
    (8072, [7936; 953]); (8073, [7937; 953]); (8074, [7938; 953]); (8075, [7939;
    953]); (8076, [7940; 953]); (8077, [7941; 953]); (8078, [7942; 953]); (8079,
    [7943; 953]); (8080, [7968; 953]); (8081, [7969; 953]); (8082, [7970; 953]);
    (8083, [7971; 953]); (8084, [7972; 953]); (8085, [7973; 953]); (8086, [7974;
    953]); (8087, [7975; 953]); (8088, [7968; 953]); (8089, [7969; 953]); (8090,
    [7970; 953]); (8091, [7971; 953]); (8092, [7972; 953]); (8093, [7973; 953]);
    (8094, [7974; 953]); (8095, [7975; 953]); (8096, [8032; 953]); (8097, [8033;
    953]); (8098, [8034; 953]); (8099, [8035; 953]); (8100, [8036; 953]); (8101,
    [8037; 953]); (8102, [8038; 953]); (8103, [8039; 953]); (8104, [8032; 953]);
    (8105, [8033; 953]); (8106, [8034; 953]); (8107, [8035; 953]); (8108, [8036;
    953]); (8109, [8037; 953]); (8110, [8038; 953]); (8111, [8039; 953]); (8114,
    [8048; 953]); (8115, [945; 953]); (8116, [940; 953]); (8118, [945; 834]);
    (8119, [945; 834; 953]); (8124, [945; 953]); (8130, [8052; 953]); (8131,
    [951; 953]); (8132, [942; 953]); (8134, [951; 834]); (8135, [951; 834;
    953]); (8140, [951; 953]); (8146, [953; 776; 768]); (8147, [953; 776; 769]);
    (8150, [953; 834]); (8151, [953; 776; 834]); (8162, [965; 776; 768]); (8163,
    [965; 776; 769]); (8164, [961; 787]); (8166, [965; 834]); (8167, [965; 776;
    834]); (8178, [8060; 953]); (8179, [969; 953]); (8180, [974; 953]); (8182,
    [969; 834]); (8183, [969; 834; 953]); (8188, [969; 953]); (64256, [102;
    102]); (64257, [102; 105]); (64258, [102; 108]); (64259, [102; 102; 105]);
    (64260, [102; 102; 108]); (64261, [115; 116]); (64262, [115; 116]); (64275,
    [1396; 1398]); (64276, [1396; 1381]); (64277, [1396; 1387]); (64278, [1406;
    1398]); (64279, [1396; 1389]) ]%N.

End Ucd.

(** ** Python primitives used by the two modules *)

Module Py.

Definition bytes := string.

Inductive exn :=
| ValueError
| TypeError
| ZeroDivisionError
| UnicodeDecodeError.  (* a subclass of [ValueError] *)

(** [except ValueError]: what the handler catches. *)
Definition is_ValueError (e : exn) : bool :=
  match e with
  | ValueError | UnicodeDecodeError => true
  | _ => false
  end.

(** The result of running a piece of Python: a value, or an exception
    that propagates to the caller. *)
Inductive outcome (A : Type) :=
| Return (a : A)
| Raise (e : exn).
Arguments Return {A} a.
Arguments Raise {A} e.

Definition bind {A B} (m : outcome A) (k : A -> outcome B) : outcome B :=
  match m with
  | Return a => k a
  | Raise e => Raise e
  end.

Definition ESC : ascii := "027"%char.
Definition LF : ascii := "010"%char.

Definition chr (c : ascii) : string := String c EmptyString.

(** [s[:n]] and [s[n:]] for [n >= 0]. *)
Fixpoint str_take (n : nat) (s : string) : string :=
  match n, s with
  | S n', String c s' => String c (str_take n' s')
  | _, _ => EmptyString
  end.

Fixpoint str_drop (n : nat) (s : string) : string :=
  match n, s with
  | S n', String _ s' => str_drop n' s'
  | _, _ => s
  end.

Definition len (s : string) : Z := Z.of_nat (String.length s).

(** [bool(s)] for a string or bytes object. *)
Definition truthy (s : string) : bool :=
  match s with
  | EmptyString => false
  | String _ _ => true
  end.

(** [io.StringIO.read(size)] and [io.BytesIO.read(size)]: the next [size]
    characters of the stream (all of them when [size] is negative), and
    the stream that is left. *)
Definition read (size : Z) (stream : string) : string * string :=
  if size <? 0 then (stream, EmptyString)
  else (str_take (Z.to_nat size) stream, str_drop (Z.to_nat size) stream).

(** Reading splits the stream: nothing is lost or invented (used for the
    termination of the reading loops). *)
Lemma read_length (size : Z) (stream : string) :
  (String.length (fst (read size stream))
   + String.length (snd (read size stream)))%nat = String.length stream.
Proof.
  unfold read. destruct (size <? 0); simpl; [lia|].
  generalize (Z.to_nat size) as n. intros n. revert stream.
  induction n as [|n IH]; intros [|y p]; simpl; try lia.
  specialize (IH p). lia.
Qed.

(** [s * n]: nothing for [n <= 0]. *)
Fixpoint repeat_nat (s : string) (n : nat) : string :=
  match n with
  | O => EmptyString
  | S n' => s ++ repeat_nat s n'
  end.

Definition repeat (s : string) (n : Z) : string := repeat_nat s (Z.to_nat n).

(** [sep.join(l)] *)
Fixpoint join (sep : string) (l : list string) : string :=
  match l with
  | [] => EmptyString
  | [x] => x
  | x :: tl => x ++ sep ++ join sep tl
  end.

(** ["".join(l)] *)
Fixpoint concat (l : list string) : string :=
  match l with
  | [] => EmptyString
  | x :: tl => x ++ concat tl
  end.

Definition endswith (s suffix : string) : bool :=
  let n := String.length s in
  let m := String.length suffix in
  (m <=? n)%nat && String.eqb (str_drop (n - m) s) suffix.

(** [s.rpartition(sep)[0]] for a one-character [sep]: what precedes the
    last occurrence of [sep], the empty string when there is none. *)
Fixpoint before_last (sep : ascii) (s : string) : option string :=
  match s with
  | EmptyString => None
  | String c s' =>
      match before_last sep s' with
      | Some h => Some (String c h)
      | None => if Ascii.eqb c sep then Some EmptyString else None
      end
  end.

Definition rpartition0 (sep : ascii) (s : string) : string :=
  match before_last sep s with
  | Some h => h
  | None => EmptyString
  end.

(** [s.split(sep)] for a one-character [sep]. *)
Fixpoint split (sep : ascii) (s : string) : list string :=
  match s with
  | EmptyString => [EmptyString]
  | String c s' =>
      if Ascii.eqb c sep then EmptyString :: split sep s'
      else match split sep s' with
           | x :: xs => String c x :: xs
           | [] => [chr c]
           end
  end.

(** *** Text

    A [str] is rendered by its UTF-8 encoding. [chars] lists the characters
    of a text, each with its code point and its encoding; it has no result
    on bytes that are not well-formed UTF-8. *)
Definition uchar : Type := N * string.

Definition byte_in (lo hi : N) (c : ascii) : bool :=
  ((lo <=? N_of_ascii c) && (N_of_ascii c <=? hi))%N.

(** The payload bits of a continuation byte. *)
Definition low6 (c : ascii) : N := N.land (N_of_ascii c) 63.

Fixpoint chars (s : bytes) : option (list uchar) :=
  match s with
  | EmptyString => Some []
  | String a s1 =>
      let na := N_of_ascii a in
      if (na <? 128)%N then option_map (cons (na, chr a)) (chars s1)
      else if byte_in 194 223 a then
        match s1 with
        | String b s2 =>
            if byte_in 128 191 b then
              option_map
                (cons (N.shiftl (N.land na 31) 6 + low6 b,
                       String a (chr b))%N)
                (chars s2)
            else None
        | _ => None
        end
      else if byte_in 224 239 a then
        match s1 with
        | String b (String c s3) =>
            if byte_in (if na =? 224 then 160 else 128)%N
                 (if na =? 237 then 159 else 191)%N b
               && byte_in 128 191 c
            then
              option_map
                (cons (N.shiftl (N.land na 15) 12 + N.shiftl (low6 b) 6
                       + low6 c,
                       String a (String b (chr c)))%N)
                (chars s3)
            else None
        | _ => None
        end
      else if byte_in 240 244 a then
        match s1 with
        | String b (String c (String d s4)) =>
            if byte_in (if na =? 240 then 144 else 128)%N
                 (if na =? 244 then 143 else 191)%N b
               && byte_in 128 191 c && byte_in 128 191 d
            then
              option_map
                (cons (N.shiftl (N.land na 7) 18 + N.shiftl (low6 b) 12
                       + N.shiftl (low6 c) 6 + low6 d,
                       String a (String b (String c (chr d))))%N)
                (chars s4)
            else None
        | _ => None
        end
      else None
  end.

(** [b.decode()]: strict UTF-8. *)
Definition decode (b : bytes) : outcome string :=
  match chars b with
  | Some _ => Return b
  | None => Raise UnicodeDecodeError
  end.

(** The code points of a text. *)
Definition code_points (s : string) : list N :=
  match chars s with
  | Some cs => map fst cs
  | None => []
  end.

Definition byte_of (n : N) : string := chr (ascii_of_N n).

(** The UTF-8 encoding of a code point. *)
Definition encode_char (cp : N) : string :=
  (if cp <? 128 then byte_of cp
   else if cp <? 2048 then
     byte_of (192 + N.shiftr cp 6) ++ byte_of (128 + N.land cp 63)
   else if cp <? 65536 then
     byte_of (224 + N.shiftr cp 12)
     ++ byte_of (128 + N.land (N.shiftr cp 6) 63)
     ++ byte_of (128 + N.land cp 63)
   else
     byte_of (240 + N.shiftr cp 18)
     ++ byte_of (128 + N.land (N.shiftr cp 12) 63)
     ++ byte_of (128 + N.land (N.shiftr cp 6) 63)
     ++ byte_of (128 + N.land cp 63))%N.

Definition text_of (l : list N) : string := concat (map encode_char l).

(** *** The character tables *)
Definition in_ranges (t : list (N * N)) (cp : N) : bool :=
  existsb (fun r => (fst r <=? cp) && (cp <=? snd r))%N t.

Fixpoint run_target (runs : list (N * N * N * N)) (cp : N) : N :=
  match runs with
  | [] => cp
  | (first, last, step, target) :: tl =>
      if ((first <=? cp) && (cp <=? last) && ((cp - first) mod step =? 0))%N
      then (target + (cp - first))%N
      else run_target tl cp
  end.

Fixpoint lookup_full (t : list (N * list N)) (cp : N) : option (list N) :=
  match t with
  | [] => None
  | (k, v) :: tl => if (k =? cp)%N then Some v else lookup_full tl cp
  end.

(** *** [str.lower]

    Every character is replaced by its lower case, but for the capital
    sigma, whose lower case depends on its place: the final form after a
    cased character (case-ignorable characters between them set aside)
    unless a cased character follows in the same way. *)
Definition to_lower (cp : N) : list N :=
  if (cp =? 304)%N then [105; 775]%N else [run_target Ucd.lower cp].

Fixpoint ends_word (tl : list N) : bool :=
  match tl with
  | [] => true
  | c :: tl' =>
      if in_ranges Ucd.case_ignorable c then ends_word tl'
      else negb (in_ranges Ucd.cased c)
  end.

(** [after_cased]: the last character before this place that is not
    case-ignorable is cased. *)
Fixpoint lower_chars (after_cased : bool) (cs : list N) : list N :=
  match cs with
  | [] => []
  | c :: tl =>
      ((if (c =? 931)%N
        then [if after_cased && ends_word tl then 962 else 963]%N
        else to_lower c)
       ++ lower_chars
            (if in_ranges Ucd.case_ignorable c then after_cased
             else in_ranges Ucd.cased c)
            tl)%list
  end.

Definition lower (s : string) : string :=
  text_of (lower_chars false (code_points s)).

(** *** [str.casefold] *)
Definition fold_char (cp : N) : list N :=
  match lookup_full Ucd.casefold_full cp with
  | Some l => l
  | None => [run_target Ucd.casefold cp]
  end.

Definition casefold (s : string) : string :=
  text_of (flat_map fold_char (code_points s)).

(** [str(n)] and [f"{n}"] for an [int]. *)
Definition str_of_int (n : Z) : string := NilZero.string_of_int (Z.to_int n).

(** [f"{b:d}"] for a [bool]. *)
Definition fmt_bool_d (b : bool) : string := if b then "1" else "0".

(** *** [int(s)] for a [str]

    The text is first brought to ASCII: a text that is not ASCII has its
    white space replaced by spaces and its decimal digits, of whatever
    script, by the ASCII ones, and is cut at the first other character from
    127 on, a ["?"] in its place. Of the ASCII text, the surrounding white
    space is skipped, one sign is allowed, and the digits may be grouped by
    single underscores; more than [max_str_digits] digits are refused. *)
Fixpoint is_ascii (s : string) : bool :=
  match s with
  | EmptyString => true
  | String c s' => (N_of_ascii c <? 128)%N && is_ascii s'
  end.

Fixpoint decimal_in (zeros : list N) (cp : N) : option N :=
  match zeros with
  | [] => None
  | z :: tl =>
      if ((z <=? cp) && (cp <=? z + 9))%N then Some (cp - z)%N
      else decimal_in tl cp
  end.

Fixpoint transform (cs : list N) : string :=
  match cs with
  | [] => EmptyString
  | cp :: tl =>
      if (cp <? 127)%N then String (ascii_of_N cp) (transform tl)
      else if in_ranges Ucd.space cp then String " " (transform tl)
      else
        match decimal_in Ucd.decimal_zero cp with
        | Some d => String (ascii_of_N (48 + d)) (transform tl)
        | None => "?"
        end
  end.

Definition to_ascii (s : string) : string :=
  if is_ascii s then s else transform (code_points s).

(** The white space that the parser skips: tab, line feed, vertical tab,
    form feed, carriage return and space. *)
Definition is_space (c : ascii) : bool :=
  let n := nat_of_ascii c in
  (((9 <=? n) && (n <=? 13)) || (n =? 32))%nat.

Fixpoint lstrip (s : string) : string :=
  match s with
  | String c s' => if is_space c then lstrip s' else s
  | EmptyString => EmptyString
  end.

Fixpoint rstrip (s : string) : string :=
  match s with
  | String c s' =>
      match rstrip s' with
      | EmptyString => if is_space c then EmptyString else chr c
      | r => String c r
      end
  | EmptyString => EmptyString
  end.

Definition strip (s : string) : string := rstrip (lstrip s).

Definition digit_val (c : ascii) : option Z :=
  let n := nat_of_ascii c in
  if ((48 <=? n) && (n <=? 57))%nat then Some (Z.of_nat (n - 48)) else None.

Fixpoint parse_digits (acc : Z) (after_digit : bool) (s : string) : option Z :=
  match s with
  | EmptyString => if after_digit then Some acc else None
  | String c s' =>
      if Ascii.eqb c "_"%char then
        if after_digit then parse_digits acc false s' else None
      else
        match digit_val c with
        | Some d => parse_digits (10 * acc + d) true s'
        | None => None
        end
  end.

(** The number of digits of a text of digits and underscores. *)
Fixpoint count_digits (s : string) : Z :=
  match s with
  | EmptyString => 0
  | String c s' =>
      (if Ascii.eqb c "_"%char then 0 else 1) + count_digits s'
  end.

(** [sys.int_info.default_max_str_digits] *)
Definition max_str_digits : Z := 4300.

Definition unsigned (s : string) : option Z :=
  match parse_digits 0 false s with
  | Some n => if max_str_digits <? count_digits s then None else Some n
  | None => None
  end.

Definition int_of_str (s : string) : outcome Z :=
  let parsed :=
    match strip (to_ascii s) with
    | String "+"%char s' => unsigned s'
    | String "-"%char s' => option_map Z.opp (unsigned s')
    | s' => unsigned s'
    end in
  match parsed with
  | Some n => Return n
  | None => Raise ValueError
  end.

(** [tuple(map(int, l))] *)
Fixpoint map_int (l : list string) : outcome (list Z) :=
  match l with
  | [] => Return []
  | x :: tl =>
      bind (int_of_str x) (fun n =>
      bind (map_int tl) (fun ns => Return (n :: ns)))
  end.

(** *** Comparison of tuples of integers: lexicographic, a proper prefix
    being smaller. *)
Fixpoint tuple_lt (t1 t2 : list Z) : bool :=
  match t1, t2 with
  | [], [] => false
  | [], _ :: _ => true
  | _ :: _, [] => false
  | x :: t1', y :: t2' => if x =? y then tuple_lt t1' t2' else x <? y
  end.

Definition tuple_gt (t1 t2 : list Z) : bool := tuple_lt t2 t1.
Definition tuple_ge (t1 t2 : list Z) : bool := negb (tuple_lt t1 t2).
Definition tuple_le (t1 t2 : list Z) : bool := negb (tuple_lt t2 t1).

(** [bool(t)] for a tuple. *)
Definition nonempty {A} (t : list A) : bool :=
  match t with
  | [] => false
  | _ :: _ => true
  end.

(** *** [base64.standard_b64encode] *)
Definition b64_alphabet : string :=
  "ABCDEFGHIJKLMNOPQRSTUVWXYZabcdefghijklmnopqrstuvwxyz0123456789+/".

Definition b64_char (n : N) : ascii :=
  match String.get (N.to_nat n) b64_alphabet with
  | Some c => c
  | None => "="%char
  end.

Fixpoint standard_b64encode (s : bytes) : bytes :=
  match s with
  | EmptyString => EmptyString
  | String x EmptyString =>
      let a := N_of_ascii x in
      String (b64_char (N.shiftr a 2))
        (String (b64_char (N.shiftl (N.land a 3) 4)) "==")
  | String x (String y EmptyString) =>
      let a := N_of_ascii x in
      let b := N_of_ascii y in
      String (b64_char (N.shiftr a 2))
        (String (b64_char (N.lor (N.shiftl (N.land a 3) 4) (N.shiftr b 4)))
           (String (b64_char (N.shiftl (N.land b 15) 2)) "="))
  | String x (String y (String z rest)) =>
      let a := N_of_ascii x in
      let b := N_of_ascii y in
      let c := N_of_ascii z in
      String (b64_char (N.shiftr a 2))
        (String (b64_char (N.lor (N.shiftl (N.land a 3) 4) (N.shiftr b 4)))
           (String (b64_char (N.lor (N.shiftl (N.land b 15) 2) (N.shiftr c 6)))
              (String (b64_char (N.land c 63)) (standard_b64encode rest))))
  end.

End Py.

(** ** The two regular expressions of the capability detection

    A backtracking matcher for the fragment of [re] that the two patterns
    use: literal characters, character classes, a greedy [+] over a class,
    a greedy [?], concatenation and capture groups. It runs over the
    characters of the text, a class being a set of code points. *)

Module Re.
Import Py.

Inductive regex :=
| Chr (c : ascii)        (* one literal (ASCII) character *)
| Cls (p : N -> bool)    (* one character of a class *)
| Plus (p : N -> bool)   (* class+, greedy *)
| Opt (r : regex)        (* r?, greedy *)
| Cat (r1 r2 : regex)
| Grp (r : regex).       (* ( r ) *)

(** Greedy repetition: take as many characters as possible, then give
    them back one at a time while the rest of the pattern fails. *)
Fixpoint plus_greedy {R} (p : N -> bool) (s : list uchar)
    (k : list uchar -> option R) : option R :=
  match s with
  | c :: s' =>
      if p (fst c) then
        match plus_greedy p s' k with
        | Some x => Some x
        | None => k s'
        end
      else None
  | [] => None
  end.

(** The text between the position [s] and the later position [rest]. *)
Definition consumed (s rest : list uchar) : string :=
  concat (map snd (firstn (List.length s - List.length rest) s)).

(** [run r s groups k]: match [r] at the start of [s], then continue with
    [k] on what is left; [groups] are the groups captured so far. *)
Fixpoint run {R} (r : regex) (s : list uchar) (groups : list string)
    (k : list uchar -> list string -> option R) : option R :=
  match r with
  | Chr c =>
      match s with
      | c' :: s' => if (fst c' =? N_of_ascii c)%N then k s' groups else None
      | [] => None
      end
  | Cls p =>
      match s with
      | c' :: s' => if p (fst c') then k s' groups else None
      | [] => None
      end
  | Plus p => plus_greedy p s (fun s' => k s' groups)
  | Opt r' =>
      match run r' s groups k with
      | Some x => Some x
      | None => k s groups
      end
  | Cat r1 r2 => run r1 s groups (fun s' groups' => run r2 s' groups' k)
  | Grp r' =>
      run r' s groups (fun s' groups' => k s' (groups' ++ [consumed s s'])%list)
  end.

(** [re.match(r, s).groups()] for a text [s], [None] when there is no
    match. *)
Definition match_ (r : regex) (s : string) : option (list string) :=
  match chars s with
  | Some cs => run r cs [] (fun _ groups => Some groups)
  | None => None
  end.

(** [re.fullmatch(r, s).groups()] *)
Definition fullmatch (r : regex) (s : string) : option (list string) :=
  match chars s with
  | Some cs =>
      run r cs []
        (fun rest groups => if nonempty rest then None else Some groups)
  | None => None
  end.

Definition in_range (lo hi : N) (c : N) : bool := ((lo <=? c) && (c <=? hi))%N.

(** The class of one ASCII character. *)
Definition is_char (c : ascii) (x : N) : bool := (x =? N_of_ascii c)%N.

(** [\w] under [re.ASCII] *)
Definition word_ascii (c : N) : bool :=
  in_range 97 122 c || in_range 65 90 c || in_range 48 57 c || is_char "_" c.

(** [\w] in a pattern for text: the alphanumeric characters and the
    underscore. *)
Definition word (c : N) : bool := word_ascii c || in_ranges Ucd.alnum c.

Fixpoint seq (l : list regex) (last : regex) : regex :=
  match l with
  | [] => last
  | r :: tl => Cat r (seq tl last)
  end.

End Re.

(** ** The terminal

    [query_terminal] and [read_tty] belong to [term_image/utils.py], which is
    not among the sources; they follow section 4.1 of the specification. *)

Module Tty.
Import Py.

(** Modelled from the spec: the terminal device behind [query_terminal] and
    [read_tty] (the I/O gate of section 4.1), as far as the detection can
    observe it. *)
Record tty := mk {
  replies : list bytes;  (* what the terminal answers, within the timeout,
                            to each of the queries to come; no entry or
                            an empty one: no answer *)
  pending : bytes;       (* received, not read yet *)
  written : list bytes   (* the queries written so far *)
}.

(** Modelled from the spec: the reading loop of [send_and_read], which
    "reads raw bytes until [stop_predicate(accumulated)] is true or
    [timeout] elapses": one byte at a time while [more] holds of what was
    read and bytes are there. *)
Fixpoint read_while (more : bytes -> bool) (acc input : bytes)
  : bytes * bytes :=
  match input with
  | EmptyString => (acc, EmptyString)
  | String c rest =>
      if more acc then read_while more (acc ++ chr c) rest
      else (acc, input)
  end.

(** Modelled from the spec: [query_terminal(request, more)], the
    [send_and_read(query_bytes, stop_predicate, timeout)] of section 4.1:
    it "writes [query_bytes] to the terminal, then reads raw bytes until
    [stop_predicate(accumulated)] is true or [timeout] elapses, returning
    whatever was accumulated (possibly empty on timeout)"; the remainder of
    the response stays queued. *)
Definition query_terminal (request : bytes) (more : bytes -> bool)
    (term : tty) : bytes * tty :=
  let reply := match replies term with [] => EmptyString | r :: _ => r end in
  let '(response, rest) := read_while more EmptyString (pending term ++ reply) in
  (response, mk (tl (replies term)) rest (written term ++ [request])%list).

(** Modelled from the spec: [read_tty()], which drains the "response
    remainder after a satisfied predicate" (section 4.1). *)
Definition read_tty (term : tty) : bytes * tty :=
  (pending term, mk (replies term) EmptyString (written term)).

End Tty.

(** The values that keyword arguments carry. *)
Inductive pyvalue :=
| VNone
| VInt (n : Z)
| VBool (b : bool)
| VStr (s : string).

(** The cached result of a capability detection: [None] (not known yet), a
    [bool], or the empty [bytes] response that [response and ...] leaves
    behind. *)
Inductive support :=
| SNone
| SBool (b : bool)
| SBytes (s : Py.bytes).

(** [bool(x)] *)
Definition support_truthy (x : support) : bool :=
  match x with
  | SNone => false
  | SBool b => b
  | SBytes s => Py.truthy s
  end.

(** ** [term_image/image/kitty.py] *)

Module Kitty.
Import Py.

Definition _START : string := String ESC "_G".
Definition _END : string := String ESC "\".

(** Values for control data keys with limited set of values. *)
Module a.
Definition TRANS : string := "t".
Definition TRANS_DISP : string := "T".
Definition QUERY : string := "q".
Definition PLACE : string := "p".
Definition DELETE : string := "d".
End a.

Module C.
Definition MOVE : Z := 0.
Definition STAY : Z := 1.
End C.

Module f.
Definition RGB : Z := 24.
Definition RGBA : Z := 32.
Definition PNG : Z := 100.
End f.

Module o.
Definition ZLIB : string := "z".
End o.

Module t.
Definition DIRECT : string := "d".
Definition FILE : string := "f".
Definition TEMP : string := "t".
Definition SHARED : string := "s".
End t.

Module z.
Definition BEHIND : Z := -1.
Definition IN_FRONT : Z := 0.
End z.

(** [x == y] on optional strings and optional integers. *)
Definition opt_str_eqb (x y : option string) : bool :=
  match x, y with
  | Some u, Some w => String.eqb u w
  | None, None => true
  | _, _ => false
  end.

Definition opt_int_eqb (x y : option Z) : bool :=
  match x, y with
  | Some u, Some w => Z.eqb u w
  | None, None => true
  | _, _ => false
  end.

(** *** [class ControlData] *)
Module ControlData.

Record ControlData := mk {
  a : option string;  (* action *)
  f : option Z;       (* data format *)
  t : option string;  (* transmission medium *)
  s : option Z;       (* image width *)
  v : option Z;       (* image height *)
  z : option Z;       (* z-index *)
  o : option string;  (* compression *)
  C : option Z;       (* cursor movement policy *)
  c : option Z;       (* columns *)
  r : option Z        (* rows *)
}.

Definition __post_init__ (self : ControlData) : ControlData :=
  if opt_int_eqb (f self) (Some Kitty.f.PNG) then
    mk (a self) (f self) (t self) None None (z self) (o self) (C self)
       (c self) (r self)
  else self.

(** [ControlData(a=.., f=.., ...)]: the generated [__init__] stores the
    arguments and then runs [__post_init__]. *)
Definition init (a : option string) (f : option Z) (t : option string)
    (s v z : option Z) (o : option string) (C c r : option Z) : ControlData :=
  __post_init__ (mk a f t s v z o C c r).

(** The defaults of the dataclass fields. *)
Definition default_a : option string := Some Kitty.a.TRANS_DISP.
Definition default_f : option Z := Some Kitty.f.RGBA.
Definition default_t : option string := Some Kitty.t.DIRECT.
Definition default_z : option Z := Some Kitty.z.IN_FRONT.
Definition default_o : option string := Some Kitty.o.ZLIB.
Definition default_C : option Z := Some Kitty.C.STAY.

Definition set_o (self : ControlData) (x : option string) : ControlData :=
  mk (a self) (f self) (t self) (s self) (v self) (z self) x (C self)
     (c self) (r self).

(** [vars(self).update(dict(v=.., r=..))] *)
Definition update_v_r (self : ControlData) (x y : option Z) : ControlData :=
  mk (a self) (f self) (t self) (s self) x (z self) (o self) (C self)
     (c self) y.

(** [f"{value}"] for the value of a field that is not [None]. *)
Definition fmt_int (x : option Z) : option string := option_map str_of_int x.

(** [asdict(self).items()]: the fields in declaration order, each value
    already formatted. *)
Definition asdict (self : ControlData) : list (string * option string) :=
  [ ("a", a self); ("f", fmt_int (f self)); ("t", t self);
    ("s", fmt_int (s self)); ("v", fmt_int (v self));
    ("z", fmt_int (z self)); ("o", o self); ("C", fmt_int (C self));
    ("c", fmt_int (c self)); ("r", fmt_int (r self)) ].

End ControlData.

(** *** [class Transmission] *)
Module Transmission.

Record Transmission := mk {
  control : ControlData.ControlData;
  payload : bytes;
  _compressed : bool
}.

Section Zlib.
(** [zlib.compress] and [zlib.decompress]. *)
Variables zlib_compress zlib_decompress : bytes -> bytes.

Definition compress (self : Transmission) : Transmission :=
  if opt_str_eqb (ControlData.t (control self)) (Some t.DIRECT)
     && negb (_compressed self)
  then mk (ControlData.set_o (control self) (Some o.ZLIB))
          (zlib_compress (payload self)) true
  else self.

Definition decompress (self : Transmission) : Transmission :=
  if opt_str_eqb (ControlData.t (control self)) (Some t.DIRECT)
     && _compressed self
  then mk (ControlData.set_o (control self) None)
          (zlib_decompress (payload self)) false
  else self.

Definition __post_init__ (self : Transmission) : Transmission :=
  let self := mk (control self) (payload self) false in
  if opt_str_eqb (ControlData.o (control self)) (Some o.ZLIB)
  then compress self
  else self.

(** [Transmission(control, payload)] *)
Definition init (control : ControlData.ControlData) (payload : bytes)
  : Transmission :=
  __post_init__ (mk control payload false).
End Zlib.

Definition encode (self : Transmission) : bytes :=
  standard_b64encode (payload self).

Definition get_payload (self : Transmission) : string := encode self.

Fixpoint present (items : list (string * option string))
  : list (string * string) :=
  match items with
  | [] => []
  | (key, Some value) :: tl => (key, value) :: present tl
  | (_, None) :: tl => present tl
  end.

Definition get_control_data (self : Transmission) : string :=
  join ","
    (map (fun kv => fst kv ++ "=" ++ snd kv)
       (present (ControlData.asdict (control self)))).

(** The [while next_chunk:] loop of [get_chunks] and the final
    [if chunk:]. *)
Equations? get_chunks_loop (size : Z) (chunk next_chunk payload : string)
  : list string
  by wf (String.length next_chunk + String.length payload)%nat lt :=
  get_chunks_loop size chunk EmptyString payload :=
    if truthy chunk then [_START ++ "m=0;" ++ chunk ++ _END] else [];
  get_chunks_loop size chunk (String x nc) payload :=
    (_START ++ "m=1;" ++ chunk ++ _END)
    :: get_chunks_loop size (String x nc)
         (fst (read size payload)) (snd (read size payload)).
Proof.
  pose proof (read_length size payload0). simpl. lia.
Qed.

Definition get_chunks (self : Transmission) (size : Z) : list string :=
  let payload := get_payload self in
  let '(chunk, payload) := read size payload in
  let '(next_chunk, payload) := read size payload in
  (_START ++ get_control_data self ++ ",m="
     ++ fmt_bool_d (truthy next_chunk) ++ ";" ++ chunk ++ _END)
  :: (let chunk := next_chunk in
      let '(next_chunk, payload) := read size payload in
      get_chunks_loop size chunk next_chunk payload).

Definition default_size : Z := 4096.

Definition get_chunked (self : Transmission) : string :=
  concat (get_chunks self default_size).

End Transmission.

(** *** [class KittyImage] *)

(** The class attributes that the detection reads and writes. *)
Record class_state := mk_class {
  _supported : support;
  _KITTY_VERSION : list Z;
  _KONSOLE_VERSION : list Z
}.

(** The attributes as the class body defines them. *)
Definition initial_class : class_state := mk_class SNone [] [].

(** The kitty graphics query followed by the terminal attribute query. *)
Definition probe_query : bytes :=
  _START ++ "a=q,t=d,i=31,f=24,s=1,v=1,C=1,c=1,r=1;AAAA" ++ _END
  ++ String ESC "[c".

Definition probe_ok : bytes := _START ++ "i=31;OK" ++ _END.

Definition name_version_query : bytes := String ESC "[>q".

(** [lambda s: not s.endswith(b"c")] *)
Definition probe_more (s : bytes) : bool := negb (endswith s "c").

(** [lambda s: not s.endswith(b"\033\\")] *)
Definition name_version_more (s : bytes) : bool := negb (endswith s _END).

(** [r"\033P>\|(\w+)[( ]?([^)\033]+)\)?\033\\"] with [re.ASCII] *)
Definition name_version_re : Re.regex :=
  Re.seq
    [ Re.Chr ESC; Re.Chr "P"; Re.Chr ">"; Re.Chr "|";
      Re.Grp (Re.Plus Re.word_ascii);
      Re.Opt (Re.Cls (fun x => Re.is_char "(" x || Re.is_char " " x));
      Re.Grp (Re.Plus (fun x => negb (Re.is_char ")" x || Re.is_char ESC x)));
      Re.Opt (Re.Chr ")");
      Re.Chr ESC ]
    (Re.Chr "\").

(** The body of [if match:] in [is_supported]. *)
Definition record_version (cls : class_state) (name version : string)
  : outcome class_state :=
  if String.eqb (casefold name) "kitty" then
    bind (map_int (split "." version)) (fun ver =>
    Return (mk_class (_supported cls) ver (_KONSOLE_VERSION cls)))
  else if String.eqb (casefold name) "konsole" then
    bind (map_int (split "." version)) (fun ver =>
    Return (mk_class (_supported cls) (_KITTY_VERSION cls) ver))
  else Return cls.

Definition set_supported (cls : class_state) (x : support) : class_state :=
  mk_class x (_KITTY_VERSION cls) (_KONSOLE_VERSION cls).

(** [KittyImage.is_supported()]: the value returned or the exception
    raised, the class attributes and the terminal afterwards. The answer to
    the probe is compared as [bytes]; the identification is decoded, and
    nothing catches what the decoding or the parsing of the version
    raises. *)
Definition is_supported (cls : class_state) (term : Tty.tty)
  : outcome support * class_state * Tty.tty :=
  match _supported cls with
  | SNone =>
      let '(response, term) :=
        Tty.query_terminal probe_query probe_more term in
      (* [response and (response.rpartition(b"\033")[0] == ...)] *)
      let cls :=
        set_supported cls
          (if truthy response
           then SBool (String.eqb (rpartition0 ESC response) probe_ok)
           else SBytes response) in
      if support_truthy (_supported cls) then
        let '(response, term) :=
          Tty.query_terminal name_version_query name_version_more term in
        let recorded :=
          bind (decode response) (fun response =>
          match Re.match_ name_version_re response with
          | Some [name; version] => record_version cls name version
          | _ => Return cls
          end) in
        match recorded with
        | Raise e => (Raise e, cls, term)
        | Return cls =>
            let cls :=
              set_supported cls
                (SBool (tuple_ge (_KITTY_VERSION cls) [0; 20; 0]
                        || tuple_ge (_KONSOLE_VERSION cls) [22; 4; 0])) in
            (Return (_supported cls), cls, term)
        end
      else (Return (_supported cls), cls, term)
  | _ => (Return (_supported cls), cls, term)
  end.

(** [_display_animated]: the keyword arguments handed on to
    [super()._display_animated]. *)
Definition _display_animated (cls : class_state)
    (kwargs : gmap string pyvalue) : gmap string pyvalue :=
  if tuple_gt (_KITTY_VERSION cls) [0; 25; 0]
  then <["z_index" := VNone]> kwargs
  else delete "z_index" kwargs.

(** The instance attributes that rendering reads. *)
Inductive render_method := LINES | WHOLE.

Record KittyImage := mk_image {
  rendered_size : Z * Z;
  _original_size : Z * Z;
  _render_method : render_method
}.

(** The pixel modes that [_get_render_data] hands back. *)
Inductive mode := RGB | RGBA.

(** [getattr(f, img.mode)] *)
Definition format_of (m : mode) : Z :=
  match m with
  | RGB => f.RGB
  | RGBA => f.RGBA
  end.

Definition mul (p : Z * Z) : Z := fst p * snd p.

Section Render.
Variable zlib_compress : bytes -> bytes.
(** [get_cell_size()] of [term_image/utils.py]: [None] when unknown. *)
Variable get_cell_size : option (Z * Z).
(** [_get_render_data(img, alpha, size=size)[0]] of the parent class:
    the mode of the image resized to [size] and its [tobytes()]. *)
Variable _get_render_data : Z * Z -> mode * bytes.

Definition _get_render_size (self : KittyImage) : Z * Z :=
  let cell := match get_cell_size with Some x => x | None => (1, 2) end in
  (fst (rendered_size self) * fst cell, snd (rendered_size self) * snd cell).

Definition delete_seq : string := _START ++ "a=d,d=c;" ++ _END.

Definition clear_seq (c : Z) : string :=
  delete_seq ++ String ESC "7" ++ String ESC "[" ++ str_of_int c ++ "C"
  ++ delete_seq ++ String ESC "8".

(** What is written for one line: the clearing sequence when the
    z-index is [None], then the chunked transmission. *)
Definition write_line (buffer : string) (trans : Transmission.Transmission)
    (c : Z) : string :=
  let control_data := Transmission.control trans in
  let buffer :=
    match ControlData.z control_data with
    | None => buffer ++ clear_seq c
    | Some _ => buffer
    end in
  buffer ++ Transmission.get_chunked trans.

(** The [for _ in range(r_height - 1)] loop of [_render_image_lines];
    [control_data] is the object that every transmission shares. *)
Fixpoint lines_loop (n : nat) (bytes_per_line c : Z) (fill : string)
    (buffer : string) (raw_image : bytes)
    (control_data : ControlData.ControlData) : string :=
  match n with
  | O => buffer
  | S n' =>
      let buffer := buffer ++ fill in
      let buffer := buffer ++ chr LF in
      let '(band, raw_image) := read bytes_per_line raw_image in
      let trans := Transmission.init zlib_compress control_data band in
      let control_data := Transmission.control trans in
      let buffer := write_line buffer trans c in
      lines_loop n' bytes_per_line c fill buffer raw_image control_data
  end.

Definition _render_image_lines (raw_image : bytes)
    (control_data : ControlData.ControlData) (height r_height : Z)
  : outcome string :=
  if r_height =? 0 then Raise ZeroDivisionError else
  let cell_height := height / r_height in
  match ControlData.s control_data, ControlData.f control_data with
  | Some s, Some f =>
      let bytes_per_line := s * cell_height * (f / 8) in
      let control_data :=
        ControlData.update_v_r control_data (Some cell_height) (Some 1) in
      match ControlData.c control_data with
      | Some c =>
          let fill := repeat " " c in
          let '(band, raw_image) := read bytes_per_line raw_image in
          let trans := Transmission.init zlib_compress control_data band in
          let control_data := Transmission.control trans in
          let buffer := write_line EmptyString trans c in
          let buffer :=
            lines_loop (Z.to_nat (r_height - 1)) bytes_per_line c fill
              buffer raw_image control_data in
          Return (buffer ++ fill)
      | None => Raise TypeError
      end
  | _, _ => Raise TypeError
  end.

Definition _render_image_whole (raw_image : bytes)
    (control_data : ControlData.ControlData) (height r_height : Z)
  : outcome string :=
  let control_data :=
    ControlData.update_v_r control_data (Some height) (Some r_height) in
  match ControlData.c control_data with
  | Some c =>
      let fill := repeat " " c in
      Return
        (write_line EmptyString
           (Transmission.init zlib_compress control_data raw_image) c
         ++ repeat (fill ++ chr LF) (r_height - 1) ++ fill)
  | None => Raise TypeError
  end.

Definition _render_image (self : KittyImage) (z_index : option Z)
  : outcome string :=
  let render_size := _get_render_size self in
  let '(r_width, r_height) := rendered_size self in
  let '(width, height) :=
    if mul render_size <? mul (_original_size self)
    then render_size else _original_size self in
  let extra := height mod (if r_height =? 0 then 1 else r_height) in
  let height := if extra =? 0 then height else height - extra + r_height in
  let '(img_mode, raw_image) := _get_render_data (width, height) in
  let format := format_of img_mode in
  let control_data :=
    ControlData.init ControlData.default_a (Some format)
      ControlData.default_t (Some width) None z_index
      ControlData.default_o ControlData.default_C (Some r_width) None in
  match _render_method self with
  | LINES => _render_image_lines raw_image control_data height r_height
  | WHOLE => _render_image_whole raw_image control_data height r_height
  end.
End Render.

End Kitty.

(** ** [term_image/image/iterm2.py] *)

Module ITerm2.
Import Py.

Record class_state := mk_class {
  _supported : support;
  _TERM : string;
  _TERM_VERSION : string
}.

Definition initial_class : class_state :=
  mk_class SNone EmptyString EmptyString.

(** The terminal name/version query followed by the attribute query. *)
Definition query : bytes := String ESC "[>q" ++ String ESC "[c".

(** [lambda s: not s.endswith(b"\033[?6")] *)
Definition query_more (s : bytes) : bool := negb (endswith s (String ESC "[?6")).

(** [r"\033P>\|(\w+)[( ]([^\033]+)\)?\033\\"] *)
Definition name_version_re : Re.regex :=
  Re.seq
    [ Re.Chr ESC; Re.Chr "P"; Re.Chr ">"; Re.Chr "|";
      Re.Grp (Re.Plus Re.word);
      Re.Cls (fun x => Re.is_char "(" x || Re.is_char " " x);
      Re.Grp (Re.Plus (fun x => negb (Re.is_char ESC x)));
      Re.Opt (Re.Chr ")");
      Re.Chr ESC ]
    (Re.Chr "\").

Definition supported_names : list string := ["iterm2"; "konsole"; "wezterm"].

Definition set_supported (cls : class_state) (x : support) : class_state :=
  mk_class x (_TERM cls) (_TERM_VERSION cls).

(** The [try] statement of [is_supported]. *)
Definition decide (cls : class_state) (name version : string)
  : outcome class_state :=
  let compared :=
    if String.eqb name "konsole" then
      bind (map_int (split "." version)) (fun ver =>
      Return (tuple_lt ver [22; 4; 0]))
    else Return false in
  match compared with
  | Return true => Return (set_supported cls (SBool false))
  | Return false => Return (mk_class (SBool true) name version)
  | Raise e =>
      if is_ValueError e then Return (set_supported cls (SBool false))
      else Raise e
  end.

(** [ITerm2Image.is_supported()]. The response is decoded before the rest
    of the reply is read, and outside the [try] statement. *)
Definition is_supported (cls : class_state) (term : Tty.tty)
  : outcome support * class_state * Tty.tty :=
  match _supported cls with
  | SNone =>
      let '(response, term) :=
        Tty.query_terminal query query_more term in
      match decode response with
      | Raise e => (Raise e, cls, term)
      | Return response =>
          let '(_, term) := Tty.read_tty term in
          if truthy response then
            match
              Re.fullmatch name_version_re (rpartition0 ESC response)
            with
            | Some [group1; group2] =>
                if existsb (String.eqb (lower group1)) supported_names then
                  match decide cls (lower group1) (lower group2) with
                  | Return cls => (Return (_supported cls), cls, term)
                  | Raise e => (Raise e, cls, term)
                  end
                else (Return (_supported cls), cls, term)
            | _ => (Return (_supported cls), cls, term)
            end
          else
            let cls := set_supported cls (SBool false) in
            (Return (_supported cls), cls, term)
      end
  | _ => (Return (_supported cls), cls, term)
  end.

End ITerm2.

(** ** The framing that the specification describes

    Section 4.3: the encoded text is split into fixed-size slices; the
    first chunk carries the full control-data header plus a continuation
    flag set whenever a further chunk exists, the interior chunks carry only
    the continuation flag, and the final chunk carries a terminating flag. *)

Module ChunkSpec.
Import Py.

(** One escape sequence: [ESC _ G <control> ; <data> ESC \], the control
    part being the header followed by the [m] key, or the [m] key alone. *)
Definition sequence (header : option string) (more : bool) (data : string)
  : string :=
  match header with
  | Some h =>
      Kitty._START ++ h ++ ",m=" ++ fmt_bool_d more ++ ";" ++ data
      ++ Kitty._END
  | None =>
      Kitty._START ++ "m=" ++ fmt_bool_d more ++ ";" ++ data ++ Kitty._END
  end.

Fixpoint frame_rest (slices : list string) : list string :=
  match slices with
  | [] => []
  | x :: tl => sequence None (nonempty tl) x :: frame_rest tl
  end.

Definition frame (header : string) (slices : list string) : list string :=
  match slices with
  | [] => []
  | x :: tl => sequence (Some header) (nonempty tl) x :: frame_rest tl
  end.

(** [slicing n text l]: [l] lists the successive [n]-character slices of
    [text], the last one possibly shorter, none of them empty. *)
Inductive slicing (n : nat) : string -> list string -> Prop :=
| slicing_done : slicing n EmptyString []
| slicing_step text l :
    text <> EmptyString ->
    slicing n (str_drop n text) l ->
    slicing n text (str_take n text :: l).

End ChunkSpec.

(** ** The serialization that the specification describes

    Section 4.3: [key=value] pairs joined by [","], in a fixed key order,
    skipping absent keys. *)

Module ControlSpec.
Import Py.

Definition key_order : list string :=
  ["a"; "f"; "t"; "s"; "v"; "z"; "o"; "C"; "c"; "r"].

(** The formatted value of a key, [None] when the key is absent. *)
Definition value_of (cd : Kitty.ControlData.ControlData) (key : string)
  : option string :=
  if String.eqb key "a" then Kitty.ControlData.a cd
  else if String.eqb key "f" then option_map str_of_int (Kitty.ControlData.f cd)
  else if String.eqb key "t" then Kitty.ControlData.t cd
  else if String.eqb key "s" then option_map str_of_int (Kitty.ControlData.s cd)
  else if String.eqb key "v" then option_map str_of_int (Kitty.ControlData.v cd)
  else if String.eqb key "z" then option_map str_of_int (Kitty.ControlData.z cd)
  else if String.eqb key "o" then Kitty.ControlData.o cd
  else if String.eqb key "C" then option_map str_of_int (Kitty.ControlData.C cd)
  else if String.eqb key "c" then option_map str_of_int (Kitty.ControlData.c cd)
  else if String.eqb key "r" then option_map str_of_int (Kitty.ControlData.r cd)
  else None.

Definition is_some {A} (x : option A) : bool :=
  match x with
  | Some _ => true
  | None => false
  end.

Definition pair_text (kv : string * string) : string :=
  fst kv ++ "=" ++ snd kv.

(** The calls that change the compression state of a transmission. *)
Inductive op := Compress | Decompress.

Definition apply_op (zlib_compress zlib_decompress : bytes -> bytes)
    (self : Kitty.Transmission.Transmission) (x : op)
  : Kitty.Transmission.Transmission :=
  match x with
  | Compress => Kitty.Transmission.compress zlib_compress self
  | Decompress => Kitty.Transmission.decompress zlib_decompress self
  end.

(** [self.control.t == t.DIRECT] *)
Definition direct (self : Kitty.Transmission.Transmission) : bool :=
  Kitty.opt_str_eqb
    (Kitty.ControlData.t (Kitty.Transmission.control self))
    (Some Kitty.t.DIRECT).

(** What the constructor and the two methods maintain for a transmission
    made from the payload [p] over the direct medium. *)
Definition holds_payload (zlib_compress : bytes -> bytes) (p : bytes)
    (self : Kitty.Transmission.Transmission) : Prop :=
  direct self = true
  /\ ((Kitty.Transmission._compressed self = false
       /\ Kitty.Transmission.payload self = p)
      \/ (Kitty.Transmission._compressed self = true
          /\ Kitty.Transmission.payload self = zlib_compress p)).

(** A stand-in for a lossless codec, for the examples: one marker byte in
    front of the data. *)
Definition toy_compress (b : bytes) : bytes := String "x" b.
Definition toy_decompress (b : bytes) : bytes := str_drop 1 b.

End ControlSpec.

(** ** Vocabulary for the capability detection *)

Module Detection.
Import Py.

(** [n] successive calls of [is_supported], with what each one returns. *)
Fixpoint calls {S : Type}
    (is_supported : S -> Tty.tty -> outcome support * S * Tty.tty)
    (n : nat) (cls : S) (term : Tty.tty)
  : list (outcome support) * S * Tty.tty :=
  match n with
  | O => ([], cls, term)
  | S n' =>
      let '(r, cls, term) := is_supported cls term in
      let '(rs, cls, term) := calls is_supported n' cls term in
      (r :: rs, cls, term)
  end.

(** Nothing is queued and the terminal sends nothing before the timeout. *)
Definition silent (term : Tty.tty) : Prop :=
  Tty.pending term = EmptyString
  /\ hd EmptyString (Tty.replies term) = EmptyString.

(** The identification reply [ESC P > | <text> ESC \]. *)
Definition identification (text : string) : bytes :=
  String ESC "P>|" ++ text ++ String ESC "\".

(** The answer to the attribute query [ESC [ c]. *)
Definition attributes : bytes := String ESC "[?62;c".

(** A terminal that has written nothing yet and answers the queries to come
    with [replies]. *)
Definition answering (replies : list bytes) : Tty.tty :=
  Tty.mk replies EmptyString [].

End Detection.

(** ** The line-wise rendering that the specification describes

    Section 4.4, Lines method: the pixel buffer is split into [r] equal
    horizontal bands, each band is wrapped in its own transmission, and the
    sequences for successive rows are joined by a single newline. *)

Module RenderSpec.
Import Py.

(** The first [count] bands of [bytes_per_line] bytes of a buffer. *)
Fixpoint bands (count : nat) (bytes_per_line : Z) (raw_image : bytes)
  : list bytes :=
  match count with
  | O => []
  | S count' =>
      fst (read bytes_per_line raw_image)
      :: bands count' bytes_per_line (snd (read bytes_per_line raw_image))
  end.

(** One line of the rendered output: the clearing sequence when the z-index
    is [None], the transmission of the band, and the fill. *)
Definition line (zlib_compress : bytes -> bytes)
    (control_data : Kitty.ControlData.ControlData) (c : Z) (band : bytes)
  : string :=
  match Kitty.ControlData.z control_data with
  | None => Kitty.clear_seq c
  | Some _ => EmptyString
  end
  ++ Kitty.Transmission.get_chunked
       (Kitty.Transmission.init zlib_compress control_data band)
  ++ repeat " " c.

(** The control data that [_render_image] builds and [_render_image_lines]
    completes. *)
Definition line_control (format width cell_height r_width : Z)
    (z_index : option Z) : Kitty.ControlData.ControlData :=
  Kitty.ControlData.update_v_r
    (Kitty.ControlData.init Kitty.ControlData.default_a (Some format)
       Kitty.ControlData.default_t (Some width) None z_index
       Kitty.ControlData.default_o Kitty.ControlData.default_C
       (Some r_width) None)
    (Some cell_height) (Some 1).

(** A resized image of one colour, for the examples. *)
Definition plain_image (size : Z * Z) : Kitty.mode * bytes :=
  (Kitty.RGB, repeat "A" (fst size * snd size * 3)).

End RenderSpec.

(** ** The rest of [class KittyImage] *)

Module KittyImage.
Import Py.

(** What was written to [sys.stdout.buffer], oldest first. *)
Definition stdout := list bytes.

(** [b"\033_Ga=d;\033\\"] *)
Definition delete_images : bytes := String ESC "_Ga=d;" ++ String ESC "\".

(** [_clear_images()] *)
Definition _clear_images (out : stdout) : bool * stdout :=
  (true, (out ++ [delete_images])%list).

(** [_clear_frame()] *)
Definition _clear_frame (cls : Kitty.class_state) (out : stdout)
  : bool * stdout :=
  if nonempty (Kitty._KITTY_VERSION cls)
     && tuple_le (Kitty._KITTY_VERSION cls) [0; 25; 0]
  then (true, snd (_clear_images out))
  else (false, out).

Section Geometry.
(** [get_cell_size()] of [term_image/utils.py]: [None] when unknown. *)
Variable get_cell_size : option (Z * Z).

(** [get_cell_size() or (1, 2)] *)
Definition cell_size : Z * Z :=
  match get_cell_size with
  | Some x => x
  | None => (1, 2)
  end.

(** [_pixels_cols(pixels=.., cols=..)]; [math.ceil] of an [int] is that
    [int]. *)
Definition _pixels_cols (pixels cols : option Z) : outcome Z :=
  match pixels with
  | Some p =>
      if fst cell_size =? 0 then Raise ZeroDivisionError
      else Return (p / fst cell_size)
  | None =>
      match cols with
      | Some c => Return (c * fst cell_size)
      | None => Raise TypeError
      end
  end.

(** [_pixels_lines(pixels=.., lines=..)] *)
Definition _pixels_lines (pixels lines : option Z) : outcome Z :=
  match pixels with
  | Some p =>
      if snd cell_size =? 0 then Raise ZeroDivisionError
      else Return (p / snd cell_size)
  | None =>
      match lines with
      | Some l => Return (l * snd cell_size)
      | None => Raise TypeError
      end
  end.
End Geometry.

End KittyImage.

(** ** The rest of [class ITerm2Image] *)

Module ITerm2Image.
Import Py.

Definition ST : string := String ESC "\".

(** [_clear_images()] *)
Definition _clear_images (cls : ITerm2.class_state)
    (out : KittyImage.stdout) : bool * KittyImage.stdout :=
  if String.eqb (ITerm2._TERM cls) "konsole"
  then (true, (out ++ [KittyImage.delete_images])%list)
  else (false, out).

(** [len(img.mode)] *)
Definition mode_len (m : Kitty.mode) : Z :=
  match m with
  | Kitty.RGB => 3
  | Kitty.RGBA => 4
  end.

(** The storage formats: ["jpeg" if img.mode == "RGB" else "png"]. *)
Inductive format := jpeg | png.

Definition format_of (m : Kitty.mode) : format :=
  match m with
  | Kitty.RGB => jpeg
  | Kitty.RGBA => png
  end.

Inductive render_method := LINES | WHOLE.

Record ITerm2Image := mk_image {
  rendered_size : Z * Z;
  _render_method : render_method
}.

Section Render.
(** [self._get_minimal_render_size()] of the parent class. *)
Variable _get_minimal_render_size : Z * Z.
(** [_get_render_data(img, alpha, size=size, pixel_data=False)[0]] of the
    parent class: the mode of the image resized to [size] and its
    [tobytes()]. *)
Variable _get_render_data : Z * Z -> Kitty.mode * bytes.
(** [PIL.Image.frombytes(mode, size, data)]: the pixel data of the image
    made, or the exception raised. *)
Variable frombytes : Kitty.mode -> Z * Z -> bytes -> outcome bytes.
(** [img.save(compressed_image, format)] on an emptied buffer, for an image
    of the given mode, size and pixel data: the buffer afterwards, whose
    length [compressed_image.tell()] then returns. *)
Variable save : Kitty.mode -> Z * Z -> bytes -> format -> bytes.

(** The control data of one line. *)
Definition line_control (r_width : Z) (is_on_konsole : bool) : string :=
  ";width=" ++ str_of_int r_width ++ ";height=1;preserveAspectRatio=0;inline=1"
  ++ (if is_on_konsole then ";doNotMoveCursor=1" else EmptyString) ++ ":".

Definition jump_right (r_width : Z) : string :=
  String ESC "[" ++ str_of_int r_width ++ "C".

(** The [for line in range(1, r_height + 1)] loop; [n] lines are still to
    be written. *)
Fixpoint lines_loop (n : nat) (img_mode : Kitty.mode) (width cell_height : Z)
    (bytes_per_line r_width : Z) (is_on_konsole : bool)
    (buffer : string) (raw_image : bytes) : outcome string :=
  match n with
  | O => Return buffer
  | S n' =>
      let '(band, raw_image) := read bytes_per_line raw_image in
      bind (frombytes img_mode (width, cell_height) band) (fun pixels =>
      let compressed_image :=
        save img_mode (width, cell_height) pixels (format_of img_mode) in
      let buffer :=
        buffer ++ String ESC "]1337;File=size="
        ++ str_of_int (len compressed_image) in
      let buffer := buffer ++ line_control r_width is_on_konsole in
      let buffer := buffer ++ standard_b64encode compressed_image in
      let buffer := buffer ++ ST in
      let buffer :=
        if is_on_konsole then buffer ++ jump_right r_width else buffer in
      let buffer :=
        match n' with
        | O => buffer
        | S _ => buffer ++ chr LF
        end in
      lines_loop n' img_mode width cell_height bytes_per_line r_width
        is_on_konsole buffer raw_image)
  end.

(** [_render_image(img, alpha)] *)
Definition _render_image (cls : ITerm2.class_state) (self : ITerm2Image)
  : outcome string :=
  let '(r_width, r_height) := rendered_size self in
  let '(width, height) := _get_minimal_render_size in
  let '(img_mode, raw_image) := _get_render_data (width, height) in
  let is_on_konsole := String.eqb (ITerm2._TERM cls) "konsole" in
  match _render_method self with
  | LINES =>
      if r_height =? 0 then Raise ZeroDivisionError else
      let cell_height := height / r_height in
      let bytes_per_line := width * cell_height * mode_len img_mode in
      lines_loop (Z.to_nat r_height) img_mode width cell_height
        bytes_per_line r_width is_on_konsole EmptyString raw_image
  | WHOLE =>
      let compressed_image :=
        save img_mode (width, height) raw_image (format_of img_mode) in
      Return
        (String ESC "]1337;File="
         ++ ("size=" ++ str_of_int (len compressed_image)
             ++ ";width=" ++ str_of_int r_width
             ++ ";height=" ++ str_of_int r_height
             ++ ";preserveAspectRatio=0;inline=1"
             ++ (if is_on_konsole then ";doNotMoveCursor=1" else EmptyString)
             ++ ":")
         ++ standard_b64encode compressed_image
         ++ ST
         ++ (if is_on_konsole
             then repeat (jump_right r_width ++ chr LF) (r_height - 1)
             else EmptyString)
         ++ (if is_on_konsole then jump_right r_width else EmptyString))
  end.
End Render.

End ITerm2Image.

(** ** One line of the iTerm2 rendering

    The escape sequence that [ITerm2Image._render_image] writes for one band
    with the lines method, followed by the jump to the right on konsole. *)

Module ITerm2Spec.
Import Py.

Definition line (save : Kitty.mode -> Z * Z -> bytes -> ITerm2Image.format -> bytes)
    (img_mode : Kitty.mode) (width cell_height r_width : Z)
    (is_on_konsole : bool) (band : bytes) : string :=
  let compressed_image :=
    save img_mode (width, cell_height) band (ITerm2Image.format_of img_mode) in
  String ESC "]1337;File=size=" ++ str_of_int (len compressed_image)
  ++ ";width=" ++ str_of_int r_width
  ++ ";height=1;preserveAspectRatio=0;inline=1"
  ++ (if is_on_konsole then ";doNotMoveCursor=1" else EmptyString) ++ ":"
  ++ standard_b64encode compressed_image
  ++ ITerm2Image.ST
  ++ (if is_on_konsole then ITerm2Image.jump_right r_width else EmptyString).

(** Stand-ins for the image library, for the examples: [frombytes] accepts
    data of exactly the size of the image, [save] stores the pixel data
    after a one-byte header. *)
Definition toy_frombytes (m : Kitty.mode) (size : Z * Z) (data : bytes)
  : outcome bytes :=
  if len data =? fst size * snd size * ITerm2Image.mode_len m
  then Return data else Raise ValueError.

Definition toy_save (m : Kitty.mode) (size : Z * Z) (data : bytes)
    (f : ITerm2Image.format) : bytes :=
  String "P" data.

End ITerm2Spec.

(** ** Lines of a rendered string

    The lines of a rendered image are separated by ["\n"]: a string has one
    line more than it has line feeds. *)

Module LineSpec.
Import Py.

(** [s.count(c)] for a single character [c]. *)
Fixpoint count (c : ascii) (s : string) : nat :=
  match s with
  | EmptyString => O
  | String x s' => ((if Ascii.eqb x c then 1 else 0) + count c s')%nat
  end.

Definition newlines (s : string) : nat := count LF s.

(** The number of places of [s] at which [sub] starts: [s.count(sub)] for a
    [sub] that cannot overlap itself. *)
Fixpoint occurrences (sub s : string) : nat :=
  match s with
  | EmptyString => O
  | String _ s' =>
      ((if String.prefix sub s then 1 else 0) + occurrences sub s')%nat
  end.

(** The escape sequences of the kitty graphics protocol in a rendered
    string: each starts with [ESC _ G]. *)
Definition sequences (s : string) : nat := occurrences Kitty._START s.

End LineSpec.

(** * Properties *)

(** ** Strings *)

Lemma str_length_app (s1 s2 : string) :
  String.length (s1 ++ s2) = (String.length s1 + String.length s2)%nat.
Proof. induction s1 as [|c s1 IH]; simpl; [reflexivity | now rewrite IH]. Qed.

Lemma app_empty_r (s : string) : s ++ "" = s.
Proof. induction s as [|c s IH]; simpl; [reflexivity | now rewrite IH]. Qed.

Lemma app_assoc_str (s1 s2 s3 : string) : (s1 ++ s2) ++ s3 = s1 ++ s2 ++ s3.
Proof. induction s1 as [|c s1 IH]; simpl; [reflexivity | now rewrite IH]. Qed.

Lemma take_drop (n : nat) (s : string) : Py.str_take n s ++ Py.str_drop n s = s.
Proof.
  revert s. induction n as [|n IH]; intros [|c s]; simpl; try reflexivity.
  now rewrite IH.
Qed.

Lemma length_take (n : nat) (s : string) :
  String.length (Py.str_take n s) = Nat.min n (String.length s).
Proof.
  revert s. induction n as [|n IH]; intros [|c s]; simpl; try reflexivity.
  now rewrite IH.
Qed.

Lemma length_drop (n : nat) (s : string) :
  String.length (Py.str_drop n s) = (String.length s - n)%nat.
Proof.
  revert s. induction n as [|n IH]; intros [|c s]; simpl; try reflexivity.
  now rewrite IH.
Qed.

Lemma length_zero (s : string) : String.length s = 0%nat -> s = "".
Proof. destruct s; [reflexivity | discriminate]. Qed.

Lemma take_all (n : nat) (s : string) :
  (String.length s <= n)%nat -> Py.str_take n s = s.
Proof.
  revert s. induction n as [|n IH]; intros [|c s]; simpl; intros H;
    try reflexivity; try lia.
  rewrite IH; [reflexivity | lia].
Qed.

Lemma drop_all (n : nat) (s : string) :
  (String.length s <= n)%nat -> Py.str_drop n s = "".
Proof. intros H. apply length_zero. rewrite length_drop. lia. Qed.

Lemma truthy_false (s : string) : Py.truthy s = false <-> s = "".
Proof. destruct s; simpl; split; congruence. Qed.

Lemma read_nonneg (size : Z) (stream : string) :
  0 <= size ->
  Py.read size stream
  = (Py.str_take (Z.to_nat size) stream, Py.str_drop (Z.to_nat size) stream).
Proof. intros H. unfold Py.read. destruct (Z.ltb_spec size 0); [lia | reflexivity]. Qed.

Lemma read_empty (size : Z) : Py.read size "" = ("", "").
Proof.
  unfold Py.read. destruct (size <? 0); [reflexivity|].
  destruct (Z.to_nat size); reflexivity.
Qed.

(** ** Slicing *)

Section Slicing.
Import Py ChunkSpec.
Variable n : nat.
Hypothesis n_pos : (0 < n)%nat.

Lemma slicing_exists (text : string) : exists l, slicing n text l.
Proof using n_pos.
  remember (String.length text) as k eqn:Hk. revert text Hk.
  induction k as [k IH] using lt_wf_ind. intros text Hk.
  destruct text as [|c text'].
  - exists []. constructor.
  - destruct (IH (String.length (str_drop n (String c text')))) with
      (text := str_drop n (String c text')) as [l Hl].
    + rewrite length_drop. subst k. simpl. lia.
    + reflexivity.
    + exists (str_take n (String c text') :: l). constructor; [discriminate | exact Hl].
Qed.

Lemma slicing_concat text l : slicing n text l -> concat l = text.
Proof. induction 1; simpl; [reflexivity|]. rewrite IHslicing. apply take_drop. Qed.

Lemma slicing_cons_nonempty text y l : slicing n text (y :: l) -> text <> "".
Proof. inversion 1; assumption. Qed.

Lemma slicing_empty l : slicing n "" l -> l = [].
Proof. inversion 1; congruence. Qed.

(** Every slice is non-empty and at most [n] long; all but the last are
    exactly [n] long. *)
Lemma slicing_bounds text l :
  slicing n text l ->
  Forall (fun x => (0 < String.length x <= n)%nat) l.
Proof using n_pos.
  induction 1; constructor; [|assumption].
  rewrite length_take. destruct text; [congruence|]. simpl. lia.
Qed.

Lemma slicing_interior text l i x :
  slicing n text l ->
  nth_error l i = Some x -> (S i < List.length l)%nat -> String.length x = n.
Proof.
  intros H. revert i. induction H as [|text l Hne H IH]; intros i Hx Hi.
  - destruct i; discriminate.
  - destruct i as [|i]; simpl in *.
    + injection Hx as <-. rewrite length_take.
      destruct l as [|y l]; [simpl in Hi; lia|].
      inversion H as [|? ? Hne' _ Heq]; subst.
      assert (String.length (str_drop n text) <> 0)%nat
        by (destruct (str_drop n text); [congruence | discriminate]).
      rewrite length_drop in *. lia.
    + apply (IH i Hx). lia.
Qed.

(** A text of [k * n] characters is cut into [k] slices of [n]. *)
Lemma slicing_multiple k text l :
  slicing n text l -> String.length text = (k * n)%nat ->
  List.length l = k /\ Forall (fun x => String.length x = n) l.
Proof using n_pos.
  intros H. revert k. induction H as [|text l Hne H IH]; intros k Hk.
  - simpl in Hk. destruct k; [split; [reflexivity | constructor]|]. simpl in Hk. lia.
  - destruct k as [|k].
    + simpl in Hk. apply length_zero in Hk. congruence.
    + destruct (IH k) as [Hl Hall].
      { rewrite length_drop, Hk. simpl. lia. }
      split; [simpl; now rewrite Hl|].
      constructor; [|assumption]. rewrite length_take, Hk. simpl. lia.
Qed.
End Slicing.

(** ** Chunking *)

Section Chunking.
Import Py ChunkSpec Kitty.Transmission.

Lemma take_empty (n : nat) : str_take n "" = "".
Proof. destruct n; reflexivity. Qed.

Lemma drop_empty (n : nat) : str_drop n "" = "".
Proof. destruct n; reflexivity. Qed.

Lemma take_nonempty (n : nat) (s : string) :
  (0 < n)%nat -> s <> "" -> str_take n s <> "".
Proof. destruct n, s; simpl; intros; try lia; congruence. Qed.

(** The loop frames the chunk in hand and the slices that are still to
    be read. *)
Lemma get_chunks_loop_frame (size : Z) (tail : string) (l : list string) :
  0 < size ->
  slicing (Z.to_nat size) tail l ->
  forall chunk, chunk <> "" ->
  get_chunks_loop size chunk (str_take (Z.to_nat size) tail)
    (str_drop (Z.to_nat size) tail)
  = frame_rest (chunk :: l).
Proof.
  intros Hsize H. induction H as [|tail l Hne H IH]; intros chunk Hchunk.
  - rewrite take_empty, drop_empty. simp get_chunks_loop.
    destruct chunk; [congruence | reflexivity].
  - assert (Hnext : str_take (Z.to_nat size) tail <> "")
      by (apply take_nonempty; [lia | assumption]).
    specialize (IH _ Hnext).
    destruct (str_take (Z.to_nat size) tail) as [|x nc] eqn:E; [congruence|].
    simp get_chunks_loop. rewrite read_nonneg by lia. simpl fst. simpl snd.
    rewrite IH. reflexivity.
Qed.

Lemma get_chunks_frame (self : Transmission) (size : Z) :
  0 < size ->
  exists l,
    slicing (Z.to_nat size) (str_drop (Z.to_nat size) (encode self)) l
    /\ get_chunks self size
       = frame (get_control_data self)
           (str_take (Z.to_nat size) (encode self) :: l).
Proof.
  intros Hsize.
  destruct (slicing_exists (Z.to_nat size) ltac:(lia)
              (str_drop (Z.to_nat size) (encode self))) as [l Hl].
  exists l. split; [exact Hl|].
  unfold get_chunks, get_payload.
  do 3 (rewrite read_nonneg by lia; cbv beta iota zeta).
  inversion Hl as [Hempty | tail l' Hne Hl' Htail]; subst.
  - rewrite !drop_empty, !take_empty. simp get_chunks_loop. reflexivity.
  - pose proof (take_nonempty (Z.to_nat size) _ ltac:(lia) Hne) as Hnext.
    rewrite (get_chunks_loop_frame size _ l' Hsize Hl' _ Hnext).
    destruct (str_take (Z.to_nat size) (str_drop (Z.to_nat size) (encode self)));
      [congruence | reflexivity].
Qed.

Lemma frame_rest_length l : List.length (frame_rest l) = List.length l.
Proof. induction l; simpl; congruence. Qed.

Lemma frame_length h l : List.length (frame h l) = List.length l.
Proof. destruct l; simpl; [reflexivity | now rewrite frame_rest_length]. Qed.

Lemma nonempty_ltb {A} (l : list A) (x : A) (tl : list A) :
  nonempty tl = (S (List.length l) <? List.length (l ++ x :: tl)%list)%nat.
Proof.
  rewrite List.length_app. destruct tl; simpl.
  - symmetry. apply Nat.ltb_ge. lia.
  - symmetry. apply Nat.ltb_lt. lia.
Qed.

Lemma frame_rest_nth (pre l : list string) (i : nat) (x : string) :
  nth_error l i = Some x ->
  nth_error (frame_rest l) i
  = Some (sequence None
            (S (List.length pre + i) <? List.length (pre ++ l)%list)%nat x).
Proof.
  revert pre i. induction l as [|y l IH]; intros pre i Hx.
  - destruct i; discriminate.
  - destruct i as [|i]; cbn [nth_error frame_rest] in *.
    + injection Hx as <-. do 2 f_equal.
      rewrite Nat.add_0_r. apply nonempty_ltb.
    + rewrite (IH (pre ++ [y])%list i Hx).
      rewrite <- List.app_assoc, List.length_app. cbn [List.length List.app].
      do 3 f_equal. lia.
Qed.

Lemma frame_nth (h : string) (l : list string) (i : nat) (x : string) :
  nth_error l i = Some x ->
  nth_error (frame h l) i
  = Some (sequence (match i with O => Some h | S _ => None end)
            (S i <? List.length l)%nat x).
Proof.
  destruct l as [|y l]; [destruct i; discriminate|].
  destruct i as [|i]; cbn [nth_error frame List.length]; intros Hx.
  - injection Hx as <-. do 2 f_equal. destruct l; reflexivity.
  - apply (frame_rest_nth [y] l i x Hx).
Qed.

Lemma frame_rest_last (l : list string) (d : string) :
  l <> [] -> last (frame_rest l) d = sequence None false (last l d).
Proof.
  induction l as [|y l IH]; [congruence|]. intros _.
  destruct l as [|y' l]; [reflexivity|].
  change (last (frame_rest (y' :: l)) d = sequence None false (last (y' :: l) d)).
  apply IH. discriminate.
Qed.

Lemma Forall_last {A} (P : A -> Prop) (l : list A) (d : A) :
  l <> [] -> Forall P l -> P (last l d).
Proof.
  induction l as [|y l IH]; [congruence|]. intros _ H.
  inversion H; subst. destruct l; [assumption|]. apply IH; [discriminate | assumption].
Qed.
End Chunking.

Lemma get_chunks_single (self : Kitty.Transmission.Transmission) (size : Z) :
  0 < size ->
  Py.len (Kitty.Transmission.encode self) <= size ->
  Kitty.Transmission.get_chunks self size
  = [ ChunkSpec.sequence (Some (Kitty.Transmission.get_control_data self))
        false (Kitty.Transmission.encode self) ].
Proof.
  intros Hsize Hfit. unfold Py.len in Hfit.
  destruct (get_chunks_frame self size Hsize) as [l [Hl Hframe]].
  rewrite drop_all in Hl by lia. apply slicing_empty in Hl. subst l.
  rewrite Hframe, take_all by lia. reflexivity.
Qed.

(** C1. For a positive chunk size, [Transmission.get_chunks] cuts the
    base64 text into consecutive slices (all of the chunk size but possibly
    the last) and emits one escape sequence per slice: the first one carries
    the full control data, the others only the [m] key, and [m] is 1 exactly
    on the sequences that are followed by another one, 0 on the last. A text
    that fits in one slice gives exactly one sequence with [m=0]; a text of
    [k] times the chunk size ([k] positive) gives [k] sequences, the last of
    which carries a full, non-empty slice and [m=0]. *)
Theorem get_chunks_continuation_flags
    (self : Kitty.Transmission.Transmission) (size : Z) :
  0 < size ->
  let text := Kitty.Transmission.encode self in
  let header := Kitty.Transmission.get_control_data self in
  let chunks := Kitty.Transmission.get_chunks self size in
  exists slices : list string,
    Py.concat slices = text
    /\ slices <> []
    /\ (forall i x, nth_error slices i = Some x ->
          (S i < List.length slices)%nat -> Py.len x = size)
    /\ (forall i x, nth_error slices i = Some x -> Py.len x <= size)
    /\ List.length chunks = List.length slices
    /\ (forall i x, nth_error slices i = Some x ->
          nth_error chunks i
          = Some (ChunkSpec.sequence
                    (match i with O => Some header | S _ => None end)
                    (S i <? List.length slices)%nat x))
    /\ (Py.len text <= size ->
          chunks = [ChunkSpec.sequence (Some header) false text])
    /\ (forall k, 0 < k -> Py.len text = k * size ->
          List.length chunks = Z.to_nat k
          /\ exists x,
               last slices "" = x /\ Py.len x = size /\ x <> ""
               /\ last chunks ""
                  = ChunkSpec.sequence
                      (if k =? 1 then Some header else None) false x).
Proof.
  intros Hsize text header chunks.
  destruct (get_chunks_frame self size Hsize) as [l [Hl Hframe]].
  fold text header chunks in Hl, Hframe.
  set (n := Z.to_nat size) in *.
  assert (Hn : (0 < n)%nat) by (subst n; lia).
  assert (Hsz : size = Z.of_nat n) by (subst n; lia).
  exists (Py.str_take n text :: l).
  split; [|split; [|split; [|split; [|split; [|split; [|split]]]]]].
  - simpl. rewrite (slicing_concat n _ _ Hl). apply take_drop.
  - discriminate.
  - intros [|i] x Hx Hi; simpl in Hx, Hi.
    + injection Hx as <-. unfold Py.len. rewrite length_take.
      destruct l as [|y l]; [simpl in Hi; lia|].
      pose proof (slicing_cons_nonempty n _ _ _ Hl) as Hne.
      assert (String.length (Py.str_drop n text) <> 0)%nat
        by (destruct (Py.str_drop n text); [congruence | discriminate]).
      rewrite length_drop in *. lia.
    + unfold Py.len. rewrite (slicing_interior n Hn _ _ _ _ Hl Hx); lia.
  - intros [|i] x Hx; simpl in Hx.
    + injection Hx as <-. unfold Py.len. rewrite length_take. lia.
    + pose proof (slicing_bounds n Hn _ _ Hl) as Hb.
      rewrite Forall_forall in Hb. apply nth_error_In in Hx.
      specialize (Hb _ Hx). unfold Py.len. lia.
  - rewrite Hframe. apply frame_length.
  - intros i x Hx. rewrite Hframe. now apply frame_nth.
  - intros Hfit. unfold Py.len in Hfit.
    rewrite drop_all in Hl by lia. apply slicing_empty in Hl. subst l.
    rewrite Hframe, take_all by lia. reflexivity.
  - intros k Hk Hlen. unfold Py.len in Hlen.
    assert (Hlen' : String.length text = (S (Z.to_nat (k - 1)) * n)%nat) by nia.
    destruct (slicing_multiple n Hn (Z.to_nat (k - 1)) _ _ Hl) as [Hcount Hall].
    { rewrite length_drop, Hlen'. nia. }
    assert (Htake : String.length (Py.str_take n text) = n)
      by (rewrite length_take, Hlen'; nia).
    split.
    { rewrite Hframe, frame_length. simpl. rewrite Hcount. lia. }
    exists (last (Py.str_take n text :: l) "").
    assert (Hlast : String.length (last (Py.str_take n text :: l) "") = n).
    { apply (Forall_last (fun x => String.length x = n)); [discriminate|].
      constructor; assumption. }
    split; [reflexivity|]. split; [unfold Py.len; lia|].
    split; [intros E; rewrite E in Hlast; simpl in Hlast; lia|].
    rewrite Hframe. destruct l as [|y l].
    + simpl in Hcount. replace (k =? 1) with true by (symmetry; apply Z.eqb_eq; lia).
      reflexivity.
    + simpl in Hcount. replace (k =? 1) with false by (symmetry; apply Z.eqb_neq; lia).
      change (last (ChunkSpec.frame_rest (y :: l)) ""
              = ChunkSpec.sequence None false (last (y :: l) "")).
      apply frame_rest_last. discriminate.
Qed.

Lemma get_chunks_continuation_flags_witness :
  0 < 4
  /\ exists slices : list string,
       Py.concat slices = "YWJjZGVm"
       /\ Kitty.Transmission.get_chunks
            (Kitty.Transmission.mk
               (Kitty.ControlData.init (Some "T") (Some 24) (Some "d") (Some 2)
                  (Some 1) None None (Some 1) (Some 4) (Some 1))
               "abcdef" false) 4
          = [ ChunkSpec.sequence (Some "a=T,f=24,t=d,s=2,v=1,C=1,c=4,r=1") true
                "YWJj";
              ChunkSpec.sequence None false "ZGVm" ].
Proof.
  split; [lia|].
  destruct (get_chunks_continuation_flags
              (Kitty.Transmission.mk
                 (Kitty.ControlData.init (Some "T") (Some 24) (Some "d") (Some 2)
                    (Some 1) None None (Some 1) (Some 4) (Some 1))
                 "abcdef" false) 4 ltac:(lia)) as [slices [Hc _]].
  exists slices. split; [exact Hc | reflexivity].
Defined.

(** C10. A transmission whose base64 text is empty still yields exactly one
    escape sequence: the full control data, [m=0] and an empty payload. *)
Theorem get_chunks_empty_payload
    (self : Kitty.Transmission.Transmission) (size : Z) :
  Kitty.Transmission.encode self = "" ->
  Kitty.Transmission.get_chunks self size
  = [ Kitty._START ++ Kitty.Transmission.get_control_data self ++ ",m=0;"
      ++ "" ++ Kitty._END ].
Proof.
  intros Hempty. unfold Kitty.Transmission.get_chunks, Kitty.Transmission.get_payload.
  rewrite Hempty, read_empty. cbv beta iota zeta. rewrite read_empty.
  cbv beta iota zeta. rewrite read_empty. cbv beta iota zeta.
  simp get_chunks_loop. reflexivity.
Qed.

Lemma get_chunks_empty_payload_witness :
  Kitty.Transmission.get_chunks
    (Kitty.Transmission.mk
       (Kitty.ControlData.init (Some "T") (Some 24) (Some "d") (Some 0) (Some 0)
          (Some 0) None (Some 1) (Some 4) (Some 1)) "" false) 4096
  = [ String Py.ESC "_Ga=T,f=24,t=d,s=0,v=0,z=0,C=1,c=4,r=1,m=0;"
      ++ String Py.ESC "\" ].
Proof.
  apply (get_chunks_empty_payload
           (Kitty.Transmission.mk
              (Kitty.ControlData.init (Some "T") (Some 24) (Some "d") (Some 0)
                 (Some 0) (Some 0) None (Some 1) (Some 4) (Some 1)) "" false)
           4096).
  reflexivity.
Defined.

(** ** Control data *)

Section ControlData.
Import Py ControlSpec Kitty.Transmission.

Lemma present_keys (g : string -> option string) (keys : list string) :
  map fst (present (map (fun k => (k, g k)) keys))
  = filter (fun k => is_some (g k)) keys.
Proof.
  induction keys as [|k keys IH]; [reflexivity|].
  simpl. destruct (g k); simpl; now rewrite IH.
Qed.

Lemma present_In (items : list (string * option string)) (k v : string) :
  In (k, v) (present items) <-> In (k, Some v) items.
Proof.
  induction items as [|[k' [v'|]] items IH]; simpl; [tauto| |].
  - rewrite IH. split; (intros [E|H]; [left; congruence | now right]).
  - rewrite IH. split; [now right | intros [E|H]; [discriminate | assumption]].
Qed.

Lemma asdict_value_of (cd : Kitty.ControlData.ControlData) :
  Kitty.ControlData.asdict cd = map (fun k => (k, value_of cd k)) key_order.
Proof. reflexivity. Qed.

Lemma value_of_known (cd : Kitty.ControlData.ControlData) (k v : string) :
  value_of cd k = Some v -> In k key_order.
Proof.
  unfold value_of, key_order.
  repeat match goal with
         | |- context [String.eqb k ?x] =>
             destruct (String.eqb_spec k x) as [->|_]; [simpl; tauto|]
         end.
  discriminate.
Qed.
End ControlData.

(** C7. [get_control_data] emits [key=value] pairs joined by [","]: the keys
    are those of the fixed order [a f t s v z o C c r] whose value is not
    [None], in that order, each with its own value; and a control data
    record constructed with the PNG format ([f=100]) has no [s] and no [v],
    whatever was passed for them, so neither key is emitted. *)
Theorem get_control_data_fixed_order :
  (forall self : Kitty.Transmission.Transmission,
     let cd := Kitty.Transmission.control self in
     exists pairs : list (string * string),
       Kitty.Transmission.get_control_data self
       = Py.join "," (map ControlSpec.pair_text pairs)
       /\ map fst pairs
          = filter (fun k => ControlSpec.is_some (ControlSpec.value_of cd k))
              ControlSpec.key_order
       /\ (forall k v, In (k, v) pairs <-> ControlSpec.value_of cd k = Some v))
  /\ (forall (a : option string) (t : option string) (s v z : option Z)
        (o : option string) (C c r : option Z)
        (payload : Py.bytes) (compressed : bool),
        let cd := Kitty.ControlData.init a (Some Kitty.f.PNG) t s v z o C c r in
        let self := Kitty.Transmission.mk cd payload compressed in
        Kitty.ControlData.s cd = None
        /\ Kitty.ControlData.v cd = None
        /\ exists pairs : list (string * string),
             Kitty.Transmission.get_control_data self
             = Py.join "," (map ControlSpec.pair_text pairs)
             /\ map fst pairs
                = filter
                    (fun k => ControlSpec.is_some (ControlSpec.value_of cd k))
                    ["a"; "f"; "t"; "z"; "o"; "C"; "c"; "r"]
             /\ ~ In "s" (map fst pairs) /\ ~ In "v" (map fst pairs)).
Proof.
  assert (Hgen : forall self : Kitty.Transmission.Transmission,
     let cd := Kitty.Transmission.control self in
     exists pairs : list (string * string),
       Kitty.Transmission.get_control_data self
       = Py.join "," (map ControlSpec.pair_text pairs)
       /\ map fst pairs
          = filter (fun k => ControlSpec.is_some (ControlSpec.value_of cd k))
              ControlSpec.key_order
       /\ (forall k v, In (k, v) pairs <-> ControlSpec.value_of cd k = Some v)).
  { intros self cd.
    exists (Kitty.Transmission.present (Kitty.ControlData.asdict cd)).
    split; [reflexivity|]. rewrite asdict_value_of. split.
    - apply present_keys.
    - intros k v. rewrite present_In, in_map_iff. split.
      + intros [k' [E _]]. injection E as -> E. exact E.
      + intros E. exists k. split; [now rewrite E|].
        exact (value_of_known cd k v E). }
  split; [exact Hgen|].
  intros a t s v z o C c r payload compressed cd self.
  split; [reflexivity|]. split; [reflexivity|].
  destruct (Hgen self) as [pairs [Htext [Hkeys Hin]]].
  exists pairs. split; [exact Htext|].
  assert (Hk : map fst pairs
               = filter
                   (fun k => ControlSpec.is_some (ControlSpec.value_of cd k))
                   ["a"; "f"; "t"; "z"; "o"; "C"; "c"; "r"])
    by (rewrite Hkeys; reflexivity).
  split; [exact Hk|].
  rewrite Hk. split; intros Hbad; apply filter_In in Hbad;
    destruct Hbad as [Hbad _]; simpl in Hbad;
    repeat (destruct Hbad as [Hbad|Hbad]; [discriminate|]); exact Hbad.
Qed.

(** ** Compression *)

Section Compression.
Import Py ControlSpec Kitty.Transmission.
Variables zc zd : bytes -> bytes.
Hypothesis lossless : forall b, zd (zc b) = b.

Lemma init_holds control p :
  Kitty.opt_str_eqb (Kitty.ControlData.t control) (Some Kitty.t.DIRECT) = true ->
  holds_payload zc p (init zc control p).
Proof.
  intros Hd. unfold init, __post_init__, compress, holds_payload, direct. simpl.
  destruct (Kitty.opt_str_eqb (Kitty.ControlData.o control) _); simpl.
  - rewrite Hd. simpl. split; [exact Hd | right; split; reflexivity].
  - split; [exact Hd | left; split; reflexivity].
Qed.

Lemma apply_op_holds p self x :
  holds_payload zc p self -> holds_payload zc p (apply_op zc zd self x).
Proof using lossless.
  intros [Hd [[Hc Hp]|[Hc Hp]]]; unfold direct in Hd;
    destruct x; unfold apply_op, compress, decompress, holds_payload, direct;
    rewrite Hd, Hc; simpl.
  - split; [exact Hd | right; split; [reflexivity | now rewrite Hp]].
  - split; [exact Hd | left; split; assumption].
  - split; [exact Hd | right; split; assumption].
  - split; [exact Hd | left; split; [reflexivity | now rewrite Hp, lossless]].
Qed.

Lemma fold_ops_holds p ops self :
  holds_payload zc p self -> holds_payload zc p (fold_left (apply_op zc zd) ops self).
Proof using lossless.
  revert self. induction ops as [|x ops IH]; intros self H; simpl; [exact H|].
  apply IH, apply_op_holds, H.
Qed.
End Compression.

(** C8. [compress] changes a transmission only when its medium is direct and
    it is not compressed yet, [decompress] only when the medium is direct
    and it is compressed; both do nothing otherwise, so each is idempotent.
    With a lossless codec, decompressing after compressing gives back the
    payload of a direct transmission that was not compressed, and, for any
    direct transmission obtained from the constructor by any calls of the
    two methods, the payload the transmission was constructed with. *)
Theorem compress_decompress_guards (zc zd : Py.bytes -> Py.bytes) :
  (forall b, zd (zc b) = b) ->
  forall self : Kitty.Transmission.Transmission,
    let compress := Kitty.Transmission.compress zc in
    let decompress := Kitty.Transmission.decompress zd in
    let control := Kitty.Transmission.control self in
    let payload := Kitty.Transmission.payload self in
    let compressed := Kitty.Transmission._compressed self in
    (ControlSpec.direct self = true -> compressed = false ->
       compress self
       = Kitty.Transmission.mk
           (Kitty.ControlData.set_o control (Some Kitty.o.ZLIB))
           (zc payload) true)
    /\ (ControlSpec.direct self = false \/ compressed = true ->
          compress self = self)
    /\ compress (compress self) = compress self
    /\ (ControlSpec.direct self = true -> compressed = true ->
          decompress self
          = Kitty.Transmission.mk (Kitty.ControlData.set_o control None)
              (zd payload) false)
    /\ (ControlSpec.direct self = false \/ compressed = false ->
          decompress self = self)
    /\ decompress (decompress self) = decompress self
    /\ (ControlSpec.direct self = true -> compressed = false ->
          Kitty.Transmission.payload (decompress (compress self)) = payload)
    /\ (forall (cd : Kitty.ControlData.ControlData) (p : Py.bytes)
          (ops : list ControlSpec.op),
          Kitty.ControlData.t cd = Some Kitty.t.DIRECT ->
          self = fold_left (ControlSpec.apply_op zc zd) ops
                   (Kitty.Transmission.init zc cd p) ->
          Kitty.Transmission.payload (decompress (compress self)) = p).
Proof.
  intros lossless self compress decompress control payload compressed.
  subst compress decompress control payload compressed.
  unfold ControlSpec.direct, Kitty.Transmission.compress,
    Kitty.Transmission.decompress.
  destruct self as [cd p b]. cbn [Kitty.Transmission.control
    Kitty.Transmission.payload Kitty.Transmission._compressed].
  repeat split.
  - intros -> ->. reflexivity.
  - intros [-> | ->]; [reflexivity|]. now rewrite andb_false_r.
  - destruct (Kitty.opt_str_eqb (Kitty.ControlData.t cd) _) eqn:Hd, b; simpl;
      rewrite ?Hd; reflexivity.
  - intros -> ->. reflexivity.
  - intros [-> | ->]; [reflexivity|]. now rewrite andb_false_r.
  - destruct (Kitty.opt_str_eqb (Kitty.ControlData.t cd) _) eqn:Hd, b; simpl;
      rewrite ?Hd; reflexivity.
  - intros Hd ->. rewrite Hd. simpl. rewrite Hd. simpl. apply lossless.
  - intros cd0 p0 ops Ht Hself.
    assert (H : ControlSpec.holds_payload zc p0 (Kitty.Transmission.mk cd p b)).
    { rewrite Hself. apply (fold_ops_holds zc zd lossless), init_holds.
      rewrite Ht. reflexivity. }
    destruct H as [Hd [[Hc Hp]|[Hc Hp]]]; unfold ControlSpec.direct in Hd;
      simpl in Hd, Hc, Hp; subst b; rewrite Hd; simpl; rewrite Hd; simpl;
      rewrite Hp; apply lossless.
Qed.

Lemma compress_decompress_guards_witness :
  (forall b, ControlSpec.toy_decompress (ControlSpec.toy_compress b) = b)
  /\ Kitty.Transmission.payload
       (Kitty.Transmission.decompress ControlSpec.toy_decompress
          (Kitty.Transmission.compress ControlSpec.toy_compress
             (Kitty.Transmission.init ControlSpec.toy_compress
                (Kitty.ControlData.init (Some "T") (Some 24) (Some "d")
                   (Some 1) (Some 1) (Some 0) (Some "z") (Some 1) (Some 1)
                   (Some 1))
                "abc")))
     = "abc".
Proof.
  split; [intros b; reflexivity|].
  pose proof (compress_decompress_guards ControlSpec.toy_compress
                ControlSpec.toy_decompress (fun b => eq_refl)
                (Kitty.Transmission.init ControlSpec.toy_compress
                   (Kitty.ControlData.init (Some "T") (Some 24) (Some "d")
                      (Some 1) (Some 1) (Some 0) (Some "z") (Some 1) (Some 1)
                      (Some 1))
                   "abc")) as H.
  cbv zeta in H. destruct H as (_ & _ & _ & _ & _ & _ & _ & H).
  apply (H (Kitty.ControlData.init (Some "T") (Some 24) (Some "d")
              (Some 1) (Some 1) (Some 0) (Some "z") (Some 1) (Some 1) (Some 1))
           "abc" []); reflexivity.
Defined.


(** ** Animation *)

(** C9. [_display_animated] hands [z_index=None] on exactly when the
    detected kitty version is greater than [(0, 25, 0)]; for any other
    version, also when none was detected, the [z_index] key is removed from
    the keyword arguments. The other arguments are left as they are. For a
    three-part version [(a, b, c)], greater means [a > 0], or [a = 0] and
    [b > 25], or [a = 0], [b = 25] and [c > 0]. *)
Theorem display_animated_z_index
    (cls : Kitty.class_state) (kwargs : gmap string pyvalue) :
  let version := Kitty._KITTY_VERSION cls in
  let passed := Kitty._display_animated cls kwargs in
  (passed !! "z_index" = Some VNone <-> Py.tuple_gt version [0; 25; 0] = true)
  /\ (passed !! "z_index" = None <-> Py.tuple_le version [0; 25; 0] = true)
  /\ (forall key : string, key <> "z_index" -> passed !! key = kwargs !! key)
  /\ (forall a b c : Z,
        version = [a; b; c] ->
        (Py.tuple_gt version [0; 25; 0] = true
         <-> 0 < a \/ (a = 0 /\ (25 < b \/ (b = 25 /\ 0 < c)))))
  /\ (version = [] -> passed !! "z_index" = None).
Proof.
  intros version passed. subst passed. unfold Kitty._display_animated.
  fold version. unfold Py.tuple_le, Py.tuple_gt.
  split; [|split; [|split; [|split]]].
  - destruct (Py.tuple_lt [0; 25; 0] version).
    + rewrite lookup_insert_eq. split; intros _; reflexivity.
    + rewrite lookup_delete_eq. split; intros H; discriminate H.
  - destruct (Py.tuple_lt [0; 25; 0] version).
    + rewrite lookup_insert_eq. split; intros H; discriminate H.
    + rewrite lookup_delete_eq. split; intros _; reflexivity.
  - intros key Hkey. destruct (Py.tuple_lt [0; 25; 0] version).
    + now apply lookup_insert_ne.
    + now apply lookup_delete_ne.
  - intros a b c ->. cbn [Py.tuple_lt].
    destruct (Z.eqb_spec 0 a), (Z.eqb_spec 25 b), (Z.eqb_spec 0 c);
      rewrite ?Z.ltb_lt; split; intros; try lia; try discriminate.
  - intros ->. simpl. apply lookup_delete_eq.
Qed.


(** ** Capability detection *)

Ltac break_match :=
  match goal with
  | |- context [match ?x with _ => _ end] => destruct x eqn:?
  end.

Lemma query_written (request : Py.bytes) (more : Py.bytes -> bool) (term : Tty.tty) :
  Tty.written (snd (Tty.query_terminal request more term))
  = (Tty.written term ++ [request])%list.
Proof. unfold Tty.query_terminal. destruct (Tty.read_while _ _ _). reflexivity. Qed.

Lemma kitty_returns_attribute cls term v cls' term' :
  Kitty.is_supported cls term = (Py.Return v, cls', term') ->
  Kitty._supported cls' = v.
Proof.
  unfold Kitty.is_supported.
  repeat (break_match; cbn [Kitty._supported Kitty.set_supported support_truthy] in * );
    intros H; inversion H; subst; solve [reflexivity | congruence].
Qed.

Lemma iterm2_returns_attribute cls term v cls' term' :
  ITerm2.is_supported cls term = (Py.Return v, cls', term') ->
  ITerm2._supported cls' = v.
Proof.
  unfold ITerm2.is_supported.
  repeat (break_match; cbn [ITerm2._supported ITerm2.set_supported] in * );
    intros H; inversion H; subst; solve [reflexivity | congruence].
Qed.

Lemma kitty_cached cls term :
  Kitty._supported cls <> SNone ->
  Kitty.is_supported cls term = (Py.Return (Kitty._supported cls), cls, term).
Proof.
  intros H. unfold Kitty.is_supported.
  destruct (Kitty._supported cls); [congruence | reflexivity | reflexivity].
Qed.

Lemma iterm2_cached cls term :
  ITerm2._supported cls <> SNone ->
  ITerm2.is_supported cls term = (Py.Return (ITerm2._supported cls), cls, term).
Proof.
  intros H. unfold ITerm2.is_supported.
  destruct (ITerm2._supported cls); [congruence | reflexivity | reflexivity].
Qed.

Lemma calls_cached {S : Type}
    (is_supported : S -> Tty.tty -> Py.outcome support * S * Tty.tty)
    (cls : S) (v : support) :
  (forall term, is_supported cls term = (Py.Return v, cls, term)) ->
  forall n term,
    Detection.calls is_supported n cls term
    = (List.repeat (Py.Return v) n, cls, term).
Proof.
  intros H n. induction n as [|n IH]; intros term; simpl; [reflexivity|].
  now rewrite H, IH.
Qed.

(** C3. Once the [_supported] attribute of either class holds a value other
    than [None], every further call of [is_supported] returns that value and
    leaves the class attributes and the terminal as they are: nothing is
    written. This is the situation after any call that returned a value
    other than [None]. When the attribute is reset to [None], the next call
    writes the probe again. *)
Theorem is_supported_cached (n : nat) :
  (forall cls term,
     Kitty._supported cls <> SNone ->
     Detection.calls Kitty.is_supported n cls term
     = (List.repeat (Py.Return (Kitty._supported cls)) n, cls, term))
  /\ (forall cls term,
        ITerm2._supported cls <> SNone ->
        Detection.calls ITerm2.is_supported n cls term
        = (List.repeat (Py.Return (ITerm2._supported cls)) n, cls, term))
  /\ (forall cls term v cls' term',
        Kitty.is_supported cls term = (Py.Return v, cls', term') ->
        v <> SNone ->
        forall term'',
          Detection.calls Kitty.is_supported n cls' term''
          = (List.repeat (Py.Return v) n, cls', term''))
  /\ (forall cls term v cls' term',
        ITerm2.is_supported cls term = (Py.Return v, cls', term') ->
        v <> SNone ->
        forall term'',
          Detection.calls ITerm2.is_supported n cls' term''
          = (List.repeat (Py.Return v) n, cls', term''))
  /\ (forall cls term,
        Kitty._supported cls = SNone ->
        exists more,
          Tty.written (snd (Kitty.is_supported cls term))
          = (Tty.written term ++ Kitty.probe_query :: more)%list)
  /\ (forall cls term,
        ITerm2._supported cls = SNone ->
        Tty.written (snd (ITerm2.is_supported cls term))
        = (Tty.written term ++ [ITerm2.query])%list).
Proof.
  split; [|split; [|split; [|split; [|split]]]].
  - intros cls term H. apply calls_cached. intros t. now apply kitty_cached.
  - intros cls term H. apply calls_cached. intros t. now apply iterm2_cached.
  - intros cls term v cls' term' Hcall Hv term''.
    apply kitty_returns_attribute in Hcall. subst v.
    apply calls_cached. intros t. now apply kitty_cached.
  - intros cls term v cls' term' Hcall Hv term''.
    apply iterm2_returns_attribute in Hcall. subst v.
    apply calls_cached. intros t. now apply iterm2_cached.
  - intros cls term H. unfold Kitty.is_supported. rewrite H.
    pose proof (query_written Kitty.probe_query Kitty.probe_more term) as W1.
    destruct (Tty.query_terminal Kitty.probe_query _ term) as [r1 t1].
    cbn [snd] in W1.
    destruct (support_truthy _); [|exists []; exact W1].
    pose proof (query_written Kitty.name_version_query
                  Kitty.name_version_more t1) as W2.
    destruct (Tty.query_terminal Kitty.name_version_query _ t1) as [r2 t2].
    cbn [snd] in W2. rewrite W1, <- List.app_assoc in W2.
    exists [Kitty.name_version_query].
    destruct (Py.bind (Py.decode r2) _); exact W2.
  - intros cls term H. unfold ITerm2.is_supported. rewrite H.
    pose proof (query_written ITerm2.query ITerm2.query_more term) as W1.
    destruct (Tty.query_terminal ITerm2.query _ term) as [r1 t1].
    cbn [snd] in W1. unfold Tty.read_tty.
    repeat (break_match; cbn [snd Tty.written] in * ); exact W1.
Qed.

Lemma query_silent (request : Py.bytes) (more : Py.bytes -> bool) (term : Tty.tty) :
  Detection.silent term ->
  Tty.query_terminal request more term
  = ("", Tty.mk (tl (Tty.replies term)) ""
           (Tty.written term ++ [request])%list).
Proof.
  intros [Hp Hr]. unfold Tty.query_terminal. rewrite Hp.
  destruct (Tty.replies term) as [|r rs]; simpl in *; [reflexivity|].
  subst r. reflexivity.
Qed.

(** C4, as the code has it: a probe that gets no response at all resolves to
    a false value, and that value is stored like any other result: the
    calls that follow return it without writing to the terminal, whatever
    the terminal would answer by then. For the kitty protocol a response
    that is not the expected acknowledgement is stored as [False] in the
    same way. *)
Theorem timeout_is_cached :
  (forall cls term,
     Kitty._supported cls = SNone -> Detection.silent term ->
     exists cls' term',
       Kitty.is_supported cls term = (Py.Return (SBytes ""), cls', term')
       /\ support_truthy (SBytes "") = false
       /\ Tty.written term' = (Tty.written term ++ [Kitty.probe_query])%list
       /\ forall n term'',
            Detection.calls Kitty.is_supported n cls' term''
            = (List.repeat (Py.Return (SBytes "")) n, cls', term''))
  /\ (forall cls term,
        ITerm2._supported cls = SNone -> Detection.silent term ->
        exists cls' term',
          ITerm2.is_supported cls term = (Py.Return (SBool false), cls', term')
          /\ Tty.written term' = (Tty.written term ++ [ITerm2.query])%list
          /\ forall n term'',
               Detection.calls ITerm2.is_supported n cls' term''
               = (List.repeat (Py.Return (SBool false)) n, cls', term''))
  /\ (forall cls term,
        Kitty._supported cls = SNone ->
        let response :=
          fst (Tty.query_terminal Kitty.probe_query Kitty.probe_more term) in
        response <> "" ->
        Py.rpartition0 Py.ESC response <> Kitty.probe_ok ->
        exists cls' term',
          Kitty.is_supported cls term = (Py.Return (SBool false), cls', term')
          /\ Tty.written term' = (Tty.written term ++ [Kitty.probe_query])%list
          /\ forall n term'',
               Detection.calls Kitty.is_supported n cls' term''
               = (List.repeat (Py.Return (SBool false)) n, cls', term'')).
Proof.
  split; [|split].
  - intros cls term Hnone Hsilent. unfold Kitty.is_supported.
    rewrite Hnone, (query_silent _ _ _ Hsilent). cbn.
    eexists _, _. split; [reflexivity|]. split; [reflexivity|].
    split; [reflexivity|]. intros n term''.
    apply (calls_cached Kitty.is_supported). intros t.
    apply (kitty_cached (Kitty.set_supported cls (SBytes ""))). discriminate.
  - intros cls term Hnone Hsilent. unfold ITerm2.is_supported.
    rewrite Hnone, (query_silent _ _ _ Hsilent). cbn.
    eexists _, _. split; [reflexivity|]. split; [reflexivity|].
    intros n term''.
    apply (calls_cached ITerm2.is_supported). intros t.
    apply (iterm2_cached (ITerm2.set_supported cls (SBool false))). discriminate.
  - intros cls term Hnone response Hne Hbad. subst response.
    unfold Kitty.is_supported. rewrite Hnone.
    pose proof (query_written Kitty.probe_query Kitty.probe_more term) as W1.
    destruct (Tty.query_terminal Kitty.probe_query _ term) as [r1 t1].
    cbn [fst snd] in *.
    destruct r1 as [|x r1]; [congruence|]. cbn [Py.truthy].
    apply String.eqb_neq in Hbad. rewrite Hbad. cbn.
    eexists _, _. split; [reflexivity|]. split; [exact W1|].
    intros n term''.
    apply (calls_cached Kitty.is_supported). intros t.
    apply (kitty_cached (Kitty.set_supported cls (SBool false))). discriminate.
Qed.

(** C4, as the claim has it, fails: after a probe that timed out, the next
    call does not probe again, although the terminal would answer now and a
    first call on that terminal would find the protocol supported. *)
Lemma timeout_not_retried :
  let silent := Detection.answering [] in
  let kitty_answers :=
    Detection.answering
      [ Kitty.probe_ok ++ Detection.attributes;
        Detection.identification "kitty(0.26.5)" ] in
  let iterm2_answers :=
    Detection.answering
      [ Detection.identification "iTerm2 3.4.16" ++ Detection.attributes ] in
  (exists cls1 term1,
     Kitty.is_supported Kitty.initial_class silent
     = (Py.Return (SBytes ""), cls1, term1)
     /\ Kitty.is_supported cls1 kitty_answers
        = (Py.Return (SBytes ""), cls1, kitty_answers)
     /\ Tty.written kitty_answers = []
     /\ fst (fst (Kitty.is_supported Kitty.initial_class kitty_answers))
        = Py.Return (SBool true))
  /\ (exists cls1 term1,
        ITerm2.is_supported ITerm2.initial_class silent
        = (Py.Return (SBool false), cls1, term1)
        /\ ITerm2.is_supported cls1 iterm2_answers
           = (Py.Return (SBool false), cls1, iterm2_answers)
        /\ Tty.written iterm2_answers = []
        /\ fst (fst (ITerm2.is_supported ITerm2.initial_class iterm2_answers))
           = Py.Return (SBool true)).
Proof.
  split; eexists _, _; repeat split; vm_compute; reflexivity.
Qed.

(** ** The konsole version floor *)

(** Once the version text is parsed, both detections apply the floor
    [(22, 4, 0)] to a terminal that names itself konsole. *)
Lemma kitty_konsole_floor cls term r1 t1 r2 t2 text name version ver :
  Kitty._supported cls = SNone ->
  Kitty._KITTY_VERSION cls = [] ->
  Tty.query_terminal Kitty.probe_query Kitty.probe_more term = (r1, t1) ->
  Py.rpartition0 Py.ESC r1 = Kitty.probe_ok ->
  Tty.query_terminal Kitty.name_version_query Kitty.name_version_more t1
  = (r2, t2) ->
  Py.decode r2 = Py.Return text ->
  Re.match_ Kitty.name_version_re text = Some [name; version] ->
  Py.casefold name = "konsole" ->
  Py.map_int (Py.split "." version) = Py.Return ver ->
  fst (fst (Kitty.is_supported cls term))
  = Py.Return (SBool (Py.tuple_ge ver [22; 4; 0])).
Proof.
  intros Hnone Hkitty Hq1 Hok Hq2 Hdec Hre Hname Hver.
  unfold Kitty.is_supported. rewrite Hnone, Hq1.
  destruct r1 as [|x r1]; [discriminate Hok|]. cbn [Py.truthy].
  rewrite Hok, String.eqb_refl.
  cbn [Kitty._supported Kitty.set_supported support_truthy].
  rewrite Hq2, Hdec. cbn [Py.bind]. rewrite Hre.
  unfold Kitty.record_version. rewrite Hname.
  cbn [String.eqb Ascii.eqb Bool.eqb]. rewrite Hver.
  cbn [Py.bind Kitty._KITTY_VERSION Kitty._KONSOLE_VERSION Kitty._supported
       Kitty.set_supported fst]. rewrite Hkitty. reflexivity.
Qed.

Lemma iterm2_konsole_floor cls term response term' text g1 g2 ver :
  ITerm2._supported cls = SNone ->
  Tty.query_terminal ITerm2.query ITerm2.query_more term = (response, term') ->
  Py.decode response = Py.Return text ->
  text <> "" ->
  Re.fullmatch ITerm2.name_version_re (Py.rpartition0 Py.ESC text)
  = Some [g1; g2] ->
  Py.lower g1 = "konsole" ->
  Py.map_int (Py.split "." (Py.lower g2)) = Py.Return ver ->
  fst (fst (ITerm2.is_supported cls term))
  = Py.Return (SBool (Py.tuple_ge ver [22; 4; 0])).
Proof.
  intros Hnone Hq Hdec Hne Hre Hname Hver.
  unfold ITerm2.is_supported, Tty.read_tty. rewrite Hnone, Hq, Hdec.
  destruct text as [|x text]; [congruence|]. cbn [Py.truthy].
  rewrite Hre, Hname. cbn [existsb ITerm2.supported_names String.eqb Ascii.eqb
    Bool.eqb orb]. unfold ITerm2.decide.
  cbn [String.eqb Ascii.eqb Bool.eqb]. rewrite Hver. cbn [Py.bind].
  unfold Py.tuple_ge. destruct (Py.tuple_lt ver [22; 4; 0]); reflexivity.
Qed.

(** C5. The same identification, konsole 22.04.0, is read differently by the
    two detections when the version is parenthesised: the kitty pattern
    captures [22.04.0] and finds the terminal supported, the iTerm2 pattern
    captures [22.04.0)], fails to parse it, and finds the terminal
    unsupported. With a space before the version both find 22.04.0
    supported, and 21.08.0 is unsupported in every case. With a space and
    parentheses the iTerm2 detection finds 22.04.0 unsupported and the kitty
    detection raises [ValueError]. *)
Theorem konsole_floor_parenthesised_version :
  let kitty_of text :=
    fst (fst (Kitty.is_supported Kitty.initial_class
                (Detection.answering
                   [ Kitty.probe_ok ++ Detection.attributes;
                     Detection.identification text ]))) in
  let iterm2_of text :=
    fst (fst (ITerm2.is_supported ITerm2.initial_class
                (Detection.answering
                   [ Detection.identification text ++ Detection.attributes ]))) in
  iterm2_of "konsole(22.04.0)" = Py.Return (SBool false)
  /\ Re.fullmatch ITerm2.name_version_re
       (Detection.identification "konsole(22.04.0)")
     = Some ["konsole"; "22.04.0)"]
  /\ Re.match_ Kitty.name_version_re
       (Detection.identification "konsole(22.04.0)")
     = Some ["konsole"; "22.04.0"]
  /\ kitty_of "konsole(22.04.0)" = Py.Return (SBool true)
  /\ kitty_of "konsole 22.04.0" = Py.Return (SBool true)
  /\ iterm2_of "konsole 22.04.0" = Py.Return (SBool true)
  /\ kitty_of "konsole(21.08.0)" = Py.Return (SBool false)
  /\ kitty_of "konsole 21.08.0" = Py.Return (SBool false)
  /\ iterm2_of "konsole 21.08.0" = Py.Return (SBool false)
  /\ iterm2_of "konsole(21.08.0)" = Py.Return (SBool false)
  /\ iterm2_of "konsole (22.04.0)" = Py.Return (SBool false)
  /\ kitty_of "konsole (22.04.0)" = Py.Raise Py.ValueError.
Proof. repeat split; vm_compute; reflexivity. Qed.

(** ** Version strings that do not parse *)

Lemma map_int_raises (l : list string) (e : Py.exn) :
  Py.map_int l = Py.Raise e -> e = Py.ValueError.
Proof.
  induction l as [|x l IH]; simpl; [discriminate|].
  unfold Py.int_of_str.
  destruct (match Py.strip _ with "" => _ | String _ _ => _ end); simpl.
  - destruct (Py.map_int l); simpl; [discriminate|].
    intros H. injection H as <-. now apply IH.
  - intros H. now injection H.
Qed.

(** C6, as the code has it, for the iTerm2 protocol and a reply that is
    text (it decodes as UTF-8): when the version of a terminal that names
    itself konsole does not parse as dot-separated integers, the detection
    returns [False] (and stores it) without raising; the version of a
    terminal that names itself iterm2 or wezterm is not parsed, and the
    detection returns [True] whatever that version is. *)
Theorem iterm2_unparsable_version cls term response term' text g1 g2 :
  ITerm2._supported cls = SNone ->
  Tty.query_terminal ITerm2.query ITerm2.query_more term = (response, term') ->
  Py.decode response = Py.Return text ->
  text <> "" ->
  Re.fullmatch ITerm2.name_version_re (Py.rpartition0 Py.ESC text)
  = Some [g1; g2] ->
  (forall ver, Py.map_int (Py.split "." (Py.lower g2)) <> Py.Return ver) ->
  (Py.lower g1 = "konsole" ->
     ITerm2.is_supported cls term
     = (Py.Return (SBool false), ITerm2.set_supported cls (SBool false),
        snd (Tty.read_tty term')))
  /\ (Py.lower g1 = "iterm2" \/ Py.lower g1 = "wezterm" ->
        ITerm2.is_supported cls term
        = (Py.Return (SBool true),
           ITerm2.mk_class (SBool true) (Py.lower g1) (Py.lower g2),
           snd (Tty.read_tty term'))).
Proof.
  intros Hnone Hq Hdec Hne Hre Hbad.
  unfold ITerm2.is_supported, Tty.read_tty. rewrite Hnone, Hq, Hdec.
  destruct text as [|x text]; [congruence|]. cbn [Py.truthy].
  rewrite Hre. split.
  - intros Hname. rewrite Hname.
    cbn [existsb ITerm2.supported_names String.eqb Ascii.eqb Bool.eqb orb].
    unfold ITerm2.decide. cbn [String.eqb Ascii.eqb Bool.eqb].
    destruct (Py.map_int (Py.split "." (Py.lower g2))) as [ver|e] eqn:E.
    + now destruct (Hbad ver).
    + apply map_int_raises in E. subst e. reflexivity.
  - intros [Hname | Hname]; rewrite Hname; reflexivity.
Qed.

Lemma iterm2_unparsable_version_witness :
  ITerm2.is_supported ITerm2.initial_class
    (Detection.answering
       [ Detection.identification "Konsole 22.x" ++ Detection.attributes ])
  = (Py.Return (SBool false),
     ITerm2.set_supported ITerm2.initial_class (SBool false),
     Tty.mk [] "" [ITerm2.query]).
Proof.
  refine (proj1 (iterm2_unparsable_version ITerm2.initial_class
            (Detection.answering
               [ Detection.identification "Konsole 22.x"
                 ++ Detection.attributes ])
            (Detection.identification "Konsole 22.x" ++ String Py.ESC "[?6")
            (Tty.mk [] "2;c" [ITerm2.query])
            (Detection.identification "Konsole 22.x" ++ String Py.ESC "[?6")
            "Konsole" "22.x" _ _ _ _ _ _) _).
  - reflexivity.
  - vm_compute. reflexivity.
  - vm_compute. reflexivity.
  - discriminate.
  - vm_compute. reflexivity.
  - intros ver. vm_compute. discriminate.
  - vm_compute. reflexivity.
Defined.

(** C6, as the claim has it, fails: the version that WezTerm reports is not
    a sequence of dot-separated integers, and the terminal is supported. *)
Lemma unparsable_version_supported :
  Py.map_int (Py.split "." "20220101-133340-7edc5b5a") = Py.Raise Py.ValueError
  /\ ITerm2.is_supported ITerm2.initial_class
       (Detection.answering
          [ Detection.identification "WezTerm 20220101-133340-7edc5b5a"
            ++ Detection.attributes ])
     = (Py.Return (SBool true),
        ITerm2.mk_class (SBool true) "wezterm" "20220101-133340-7edc5b5a",
        Tty.mk [] "" [ITerm2.query]).
Proof. split; vm_compute; reflexivity. Qed.

(** The kitty detection has no handler around the parsing: there the
    [ValueError] reaches the caller, and [_supported] is left at [True]. *)
Lemma kitty_unparsable_version_raises :
  Kitty.is_supported Kitty.initial_class
    (Detection.answering
       [ Kitty.probe_ok ++ Detection.attributes;
         Detection.identification "kitty(0.26.x)" ])
  = (Py.Raise Py.ValueError,
     Kitty.mk_class (SBool true) [] [],
     Tty.mk [] "" [Kitty.probe_query; Kitty.name_version_query]).
Proof. vm_compute. reflexivity. Qed.

(** ** Rendering line by line *)

Section Lines.
Import Py RenderSpec.
Variable zc : bytes -> bytes.

Lemma init_control (cd : Kitty.ControlData.ControlData) (band : bytes) :
  Kitty.Transmission.control (Kitty.Transmission.init zc cd band) = cd.
Proof.
  unfold Kitty.Transmission.init, Kitty.Transmission.__post_init__,
    Kitty.Transmission.compress.
  cbn [Kitty.Transmission.control Kitty.Transmission.payload
       Kitty.Transmission._compressed].
  destruct (Kitty.opt_str_eqb (Kitty.ControlData.o cd) _) eqn:Ho; [|reflexivity].
  destruct (Kitty.opt_str_eqb (Kitty.ControlData.t cd) _ && negb false);
    [|reflexivity].
  cbn [Kitty.Transmission.control]. destruct cd as [a f t s v z o C c r].
  cbn in *. destruct o as [o|]; [|discriminate].
  apply String.eqb_eq in Ho. now subst o.
Qed.

Lemma write_line_line (cd : Kitty.ControlData.ControlData) (c : Z)
    (buffer : string) (band : bytes) :
  Kitty.write_line buffer (Kitty.Transmission.init zc cd band) c
    ++ repeat " " c
  = buffer ++ line zc cd c band.
Proof.
  unfold Kitty.write_line, line. rewrite init_control.
  destruct (Kitty.ControlData.z cd); now rewrite ?app_assoc_str.
Qed.

Lemma lines_loop_bands (cd : Kitty.ControlData.ControlData)
    (bytes_per_line c : Z) (n : nat) :
  forall (band : bytes) (buffer : string) (raw_image : bytes),
    Kitty.lines_loop zc n bytes_per_line c (repeat " " c)
      (Kitty.write_line buffer (Kitty.Transmission.init zc cd band) c)
      raw_image cd
    ++ repeat " " c
    = buffer
      ++ join (chr LF)
           (map (line zc cd c) (band :: bands n bytes_per_line raw_image)).
Proof.
  induction n as [|n IH]; intros band buffer raw_image.
  - cbn [Kitty.lines_loop bands map join]. apply write_line_line.
  - cbn [Kitty.lines_loop bands].
    destruct (read bytes_per_line raw_image) as [next rest] eqn:E.
    cbn [fst snd]. rewrite init_control, IH.
    change (map (line zc cd c) (band :: next :: bands n bytes_per_line rest))
      with (line zc cd c band
            :: map (line zc cd c) (next :: bands n bytes_per_line rest)).
    cbn [join map]. rewrite write_line_line.
    now rewrite !app_assoc_str.
Qed.

Lemma bands_exact (count : nat) (bytes_per_line : Z) (raw_image : bytes) :
  0 <= bytes_per_line ->
  len raw_image = Z.of_nat count * bytes_per_line ->
  List.length (bands count bytes_per_line raw_image) = count
  /\ concat (bands count bytes_per_line raw_image) = raw_image
  /\ Forall (fun b => len b = bytes_per_line)
       (bands count bytes_per_line raw_image).
Proof.
  intros Hb. revert raw_image. unfold len.
  induction count as [|count IH]; intros raw_image Hlen.
  - cbn [bands]. repeat split; [|constructor].
    destruct raw_image; [reflexivity | simpl in Hlen; lia].
  - cbn [bands]. rewrite read_nonneg by lia. cbn [fst snd].
    destruct (IH (str_drop (Z.to_nat bytes_per_line) raw_image)) as [H1 [H2 H3]].
    { rewrite length_drop. lia. }
    repeat split.
    + simpl. now rewrite H1.
    + cbn [concat]. rewrite H2. apply take_drop.
    + constructor; [|exact H3]. rewrite length_take. lia.
Qed.

Lemma render_image_lines_bands (raw_image : bytes)
    (cd : Kitty.ControlData.ControlData) (height r_height s f c : Z) :
  1 <= r_height ->
  Kitty.ControlData.s cd = Some s ->
  Kitty.ControlData.f cd = Some f ->
  Kitty.ControlData.c cd = Some c ->
  let bytes_per_line := s * (height / r_height) * (f / 8) in
  let cd' :=
    Kitty.ControlData.update_v_r cd (Some (height / r_height)) (Some 1) in
  0 <= bytes_per_line ->
  len raw_image = r_height * bytes_per_line ->
  exists l : list bytes,
    List.length l = Z.to_nat r_height
    /\ concat l = raw_image
    /\ Forall (fun b => len b = bytes_per_line) l
    /\ Kitty._render_image_lines zc raw_image cd height r_height
       = Return (join (chr LF) (map (line zc cd' c) l)).
Proof.
  intros Hr Hs Hf Hc bytes_per_line cd' Hb Hlen.
  exists (bands (Z.to_nat r_height) bytes_per_line raw_image).
  destruct (bands_exact (Z.to_nat r_height) bytes_per_line raw_image Hb)
    as [H1 [H2 H3]]; [rewrite Hlen; lia|].
  split; [exact H1|]. split; [exact H2|]. split; [exact H3|].
  unfold Kitty._render_image_lines.
  destruct (Z.eqb_spec r_height 0) as [E|_]; [lia|].
  rewrite Hs, Hf. fold bytes_per_line. fold cd'.
  assert (Hc' : Kitty.ControlData.c cd' = Some c) by exact Hc.
  rewrite Hc'.
  replace (Z.to_nat r_height) with (S (Z.to_nat (r_height - 1))) by lia.
  cbn [bands].
  destruct (read bytes_per_line raw_image) as [band rest] eqn:E.
  cbn [fst snd]. rewrite init_control. f_equal.
  apply (lines_loop_bands cd' bytes_per_line c _ band "" rest).
Qed.
End Lines.

Lemma padded_height (height r_height : Z) :
  1 <= r_height ->
  let extra := height mod r_height in
  let padded := if extra =? 0 then height else height - extra + r_height in
  height <= padded < height + r_height
  /\ padded mod r_height = 0
  /\ padded = r_height * (padded / r_height).
Proof.
  intros Hr extra padded.
  pose proof (Z.mod_pos_bound height r_height ltac:(lia)) as Hb.
  pose proof (Z.div_mod height r_height ltac:(lia)) as Hd.
  fold extra in Hb, Hd.
  assert (Hm : padded mod r_height = 0).
  { subst padded. destruct (Z.eqb_spec extra 0) as [E|E]; [exact E|].
    replace (height - extra + r_height)
      with ((height / r_height + 1) * r_height) by lia.
    apply Z.mod_mul. lia. }
  split; [subst padded; destruct (Z.eqb_spec extra 0); lia|].
  split; [exact Hm|].
  pose proof (Z.div_mod padded r_height ltac:(lia)). lia.
Qed.

Lemma bytes_per_pixel (m : Kitty.mode) :
  Kitty.format_of m / 8 = match m with Kitty.RGB => 3 | Kitty.RGBA => 4 end.
Proof. destruct m; reflexivity. Qed.

Lemma repeat_char_length (x : ascii) (n : nat) :
  String.length (Py.repeat_nat (String x "") n) = n.
Proof. induction n as [|n IH]; simpl; [reflexivity | now rewrite IH]. Qed.

(** C2, as the code has it. An image rendered with the lines method at
    [r_width] columns and [r_height >= 1] lines. The height that is transmitted is the chosen
    pixel height padded up to the next multiple of [r_height]. The pixel
    buffer is cut into exactly [r_height] bands, each of
    [width * (height / r_height) * (format / 8)] bytes, [width] being the
    width declared in the [s] key; the output consists of one line per band,
    the lines joined by a newline, and each line holds one image
    transmission (the chunked escape code of [Transmission]) whose payload
    is made from that band; that transmission is a single escape sequence
    whenever the base64 text of the band fits in one chunk. *)
Theorem render_lines_bands
    (zlib_compress : Py.bytes -> Py.bytes) (get_cell_size : option (Z * Z))
    (_get_render_data : Z * Z -> Kitty.mode * Py.bytes)
    (self : Kitty.KittyImage) (z_index : option Z) :
  let r_width := fst (Kitty.rendered_size self) in
  let r_height := snd (Kitty.rendered_size self) in
  let render_size := Kitty._get_render_size get_cell_size self in
  let size :=
    if Kitty.mul render_size <? Kitty.mul (Kitty._original_size self)
    then render_size else Kitty._original_size self in
  let width := fst size in
  let extra := snd size mod r_height in
  let height := if extra =? 0 then snd size else snd size - extra + r_height in
  let format := Kitty.format_of (fst (_get_render_data (width, height))) in
  let raw_image := snd (_get_render_data (width, height)) in
  let control_data :=
    RenderSpec.line_control format width (height / r_height) r_width z_index in
  Kitty._render_method self = Kitty.LINES ->
  1 <= r_height ->
  0 <= r_width ->
  0 <= fst (Kitty._original_size self) ->
  0 <= snd (Kitty._original_size self) ->
  (forall cw ch, get_cell_size = Some (cw, ch) -> 0 <= cw /\ 0 <= ch) ->
  (forall w h, 0 <= w -> 0 <= h ->
     Py.len (snd (_get_render_data (w, h)))
     = w * h * (Kitty.format_of (fst (_get_render_data (w, h))) / 8)) ->
  (snd size <= height < snd size + r_height /\ height mod r_height = 0)
  /\ Kitty.ControlData.s control_data = Some width
  /\ exists bands : list Py.bytes,
       List.length bands = Z.to_nat r_height
       /\ Py.concat bands = raw_image
       /\ Forall
            (fun band =>
               Py.len band = width * (height / r_height) * (format / 8))
            bands
       /\ Kitty._render_image zlib_compress get_cell_size _get_render_data
            self z_index
          = Py.Return
              (Py.join (Py.chr Py.LF)
                 (map (RenderSpec.line zlib_compress control_data r_width)
                    bands))
       /\ forall band, In band bands ->
            let trans :=
              Kitty.Transmission.init zlib_compress control_data band in
            Py.len (Kitty.Transmission.encode trans)
            <= Kitty.Transmission.default_size ->
            Kitty.Transmission.get_chunked trans
            = ChunkSpec.sequence
                (Some (Kitty.Transmission.get_control_data trans)) false
                (Kitty.Transmission.encode trans).
Proof.
  intros r_width r_height render_size size width extra height format raw_image
    control_data Hmethod Hr Hw How Hoh Hcell Hdata.
  destruct (padded_height (snd size) r_height Hr) as [Hpad [Hmod Hexact]].
  fold extra in Hpad, Hmod, Hexact. fold height in Hpad, Hmod, Hexact.
  assert (Hsize : 0 <= width /\ 0 <= snd size).
  { subst width size render_size. unfold Kitty._get_render_size.
    fold r_width r_height.
    destruct (_ <? _); [|split; assumption]. cbn [fst snd].
    destruct get_cell_size as [[cw ch]|].
    - destruct (Hcell cw ch eq_refl). cbn [fst snd]. split; nia.
    - cbn [fst snd]. split; lia. }
  destruct Hsize as [Hwidth Hheight0].
  assert (Hheight : 0 <= height) by lia.
  assert (Hformat : 0 <= format / 8)
    by (subst format; rewrite bytes_per_pixel;
        destruct (fst (_get_render_data (width, height))); lia).
  assert (Hcells : 0 <= height / r_height) by (apply Z.div_pos; lia).
  split; [split; assumption|].
  assert (Hs : Kitty.ControlData.s control_data = Some width).
  { subst control_data format.
    destruct (fst (_get_render_data (width, height))); reflexivity. }
  split; [exact Hs|].
  set (cd0 := Kitty.ControlData.init Kitty.ControlData.default_a (Some format)
                Kitty.ControlData.default_t (Some width) None z_index
                Kitty.ControlData.default_o Kitty.ControlData.default_C
                (Some r_width) None).
  assert (Hcd0 : Kitty.ControlData.s cd0 = Some width
                 /\ Kitty.ControlData.f cd0 = Some format
                 /\ Kitty.ControlData.c cd0 = Some r_width).
  { subst cd0 format.
    destruct (fst (_get_render_data (width, height))); repeat split. }
  destruct Hcd0 as [Hs0 [Hf0 Hc0]].
  destruct (render_image_lines_bands zlib_compress raw_image cd0 height
              r_height width format r_width Hr Hs0 Hf0 Hc0)
    as [bands [H1 [H2 [H3 H4]]]].
  { apply Z.mul_nonneg_nonneg; [apply Z.mul_nonneg_nonneg|]; assumption. }
  { subst raw_image format. rewrite (Hdata width height Hwidth Hheight).
    rewrite Hexact at 1.
    generalize (Kitty.format_of (fst (_get_render_data (width, height))) / 8).
    intros bpp. ring. }
  exists bands. split; [exact H1|]. split; [exact H2|]. split; [exact H3|].
  split.
  2:{ intros band _ trans Hfit. unfold Kitty.Transmission.get_chunked.
      assert (Hpos : 0 < Kitty.Transmission.default_size) by reflexivity.
      rewrite (get_chunks_single trans _ Hpos Hfit).
      cbn [Py.concat]. apply app_empty_r. }
  unfold control_data, RenderSpec.line_control. fold cd0.
  rewrite <- H4. unfold Kitty._render_image.
  destruct self as [[rw rh] osize method]. cbn [Kitty.rendered_size
    Kitty._original_size Kitty._render_method fst snd] in *.
  subst method. fold render_size. fold size.
  destruct size as [w0 h0] eqn:Esize. cbn [fst snd] in *.
  destruct (Z.eqb_spec rh 0) as [E|_]; [subst r_height; lia|].
  fold r_height. fold extra. fold height. fold width.
  destruct (_get_render_data (width, height)) as [m raw] eqn:Edata.
  reflexivity.
Qed.

Lemma render_lines_bands_witness :
  exists bands : list Py.bytes,
    List.length bands = 2%nat
    /\ Forall (fun band => Py.len band = 27) bands
    /\ Kitty._render_image ControlSpec.toy_compress None RenderSpec.plain_image
         (Kitty.mk_image (4, 2) (3, 5) Kitty.LINES) (Some 0)
       = Py.Return
           (Py.join (Py.chr Py.LF)
              (map (RenderSpec.line ControlSpec.toy_compress
                      (RenderSpec.line_control 24 3 3 4 (Some 0)) 4)
                 bands)).
Proof.
  destruct (render_lines_bands ControlSpec.toy_compress None
              RenderSpec.plain_image
              (Kitty.mk_image (4, 2) (3, 5) Kitty.LINES) (Some 0))
    as [_ [_ [bands [H1 [_ [H3 [H4 _]]]]]]].
  - reflexivity.
  - cbn. lia.
  - cbn. lia.
  - cbn. lia.
  - cbn. lia.
  - intros cw ch H. discriminate H.
  - intros w h Hw Hh. unfold RenderSpec.plain_image, Py.len, Py.repeat.
    cbn [fst snd Kitty.format_of]. rewrite repeat_char_length.
    change (Kitty.f.RGB / 8) with 3. lia.
  - exists bands. split; [exact H1|]. split; [exact H3 | exact H4].
Defined.

(** C2, as the claim has it, fails: an image rendered on two lines whose
    bands are 3600 bytes each. The base64 text of a band does not fit in one
    chunk of 4096 characters, so the transmission of each band is continued
    in a second escape sequence: the output has two lines and four image
    escape sequences. *)
Lemma render_lines_more_sequences :
  exists out : string,
    Kitty._render_image ControlSpec.toy_compress (Some (1, 30))
      RenderSpec.plain_image (Kitty.mk_image (40, 2) (100, 100) Kitty.LINES)
      (Some 0)
    = Py.Return out
    /\ LineSpec.newlines out = 1%nat
    /\ LineSpec.sequences out = 4%nat.
Proof. eexists. repeat split; vm_compute; reflexivity. Qed.

(** ** Examples *)

Example standard_b64encode_padding :
  Py.standard_b64encode "Many hands" = "TWFueSBoYW5kcw=="
  /\ Py.standard_b64encode "ab" = "YWI="
  /\ Py.standard_b64encode "" = "".
Proof. repeat split; reflexivity. Qed.

Example decode_forms :
  Py.decode (Py.text_of [75; 8490; 1632]%N) = Py.Return (Py.text_of [75; 8490; 1632]%N)
  /\ Py.code_points (Py.text_of [75; 8490; 1632; 128512]%N) = [75; 8490; 1632; 128512]%N
  /\ Py.decode (String "255" "") = Py.Raise Py.UnicodeDecodeError
  /\ Py.decode (String "192" (String "128" "")) = Py.Raise Py.UnicodeDecodeError
  /\ Py.decode (String "237" (String "160" (String "128" "")))
     = Py.Raise Py.UnicodeDecodeError
  /\ Py.decode (String "226" (String "132" "")) = Py.Raise Py.UnicodeDecodeError.
Proof. repeat split; vm_compute; reflexivity. Qed.

(** The Kelvin sign is a word character and its lower case is [k]; the
    capital sigma ends a word or not; the capital I with a dot has a lower
    case of two characters. *)
Example lower_forms :
  Py.lower "Konsole 22.04.0" = "konsole 22.04.0"
  /\ Re.word 8490%N = true
  /\ Re.word_ascii 8490%N = false
  /\ Py.lower (Py.text_of [8490]%N ++ "onsole") = "konsole"
  /\ Py.lower (Py.text_of [913; 931]%N) = Py.text_of [945; 962]%N
  /\ Py.lower (Py.text_of [913; 931; 913]%N) = Py.text_of [945; 963; 945]%N
  /\ Py.lower (Py.text_of [931]%N) = Py.text_of [963]%N
  /\ Py.lower (Py.text_of [304]%N) = Py.text_of [105; 775]%N
  /\ Py.casefold "Kitty" = "kitty"
  /\ Py.casefold (Py.text_of [223]%N) = "ss".
Proof. repeat split; vm_compute; reflexivity. Qed.

(** [int]: the information separators are not white space for it, the
    digits of other scripts are digits, and 4300 digits are the most. *)
Example int_of_str_text :
  Py.int_of_str (String "028" "5") = Py.Raise Py.ValueError
  /\ Py.int_of_str (String "011" "5") = Py.Return 5
  /\ Py.int_of_str (Py.text_of [1634; 1638]%N) = Py.Return 26
  /\ Py.int_of_str (Py.text_of [160; 53; 8195]%N) = Py.Return 5
  /\ Py.int_of_str (Py.text_of [53; 178]%N) = Py.Raise Py.ValueError
  /\ Py.int_of_str (Py.repeat "0" 4299 ++ "7") = Py.Return 7
  /\ Py.int_of_str (Py.repeat "0" 4300 ++ "7") = Py.Raise Py.ValueError.
Proof. repeat split; vm_compute; reflexivity. Qed.

(** Replies outside ASCII. A terminal that spells its name with the Kelvin
    sign is konsole for the iTerm2 detection, and not for the kitty
    detection, whose pattern is compiled with [re.ASCII]; a version in
    Arabic-Indic digits is parsed; an information separator in the version
    makes it unparsable. *)
Example replies_outside_ascii :
  let kitty_of text :=
    Kitty.is_supported Kitty.initial_class
      (Detection.answering
         [ Kitty.probe_ok ++ Detection.attributes;
           Detection.identification text ]) in
  let iterm2_of text :=
    ITerm2.is_supported ITerm2.initial_class
      (Detection.answering
         [ Detection.identification text ++ Detection.attributes ]) in
  let asked := Tty.mk [] "" [Kitty.probe_query; Kitty.name_version_query] in
  iterm2_of (Py.text_of [8490]%N ++ "onsole 22.04.0")
  = (Py.Return (SBool true), ITerm2.mk_class (SBool true) "konsole" "22.04.0",
     Tty.mk [] "" [ITerm2.query])
  /\ kitty_of (Py.text_of [8490]%N ++ "onsole 22.04.0")
     = (Py.Return (SBool false), Kitty.mk_class (SBool false) [] [], asked)
  /\ kitty_of ("kitty(" ++ Py.text_of [1632; 46; 1634; 1638; 46; 1637]%N ++ ")")
     = (Py.Return (SBool true), Kitty.mk_class (SBool true) [0; 26; 5] [],
        asked)
  /\ kitty_of ("kitty(0.26." ++ String "028" "5)")
     = (Py.Raise Py.ValueError, Kitty.mk_class (SBool true) [] [], asked)
  /\ iterm2_of ("konsole 22.04." ++ String "028" "0")
     = (Py.Return (SBool false),
        ITerm2.set_supported ITerm2.initial_class (SBool false),
        Tty.mk [] "" [ITerm2.query])
  /\ iterm2_of ("konsole " ++ Py.repeat "1" 4301)
     = (Py.Return (SBool false),
        ITerm2.set_supported ITerm2.initial_class (SBool false),
        Tty.mk [] "" [ITerm2.query]).
Proof. repeat split; vm_compute; reflexivity. Qed.

Example int_of_str_forms :
  Py.int_of_str " 08 " = Py.Return 8
  /\ Py.int_of_str "-1_000" = Py.Return (-1000)
  /\ Py.int_of_str "0)" = Py.Raise Py.ValueError
  /\ Py.int_of_str "" = Py.Raise Py.ValueError
  /\ Py.int_of_str "1__0" = Py.Raise Py.ValueError.
Proof. repeat split; reflexivity. Qed.

Example split_and_compare :
  Py.split "." "22.04.0" = ["22"; "04"; "0"]
  /\ Py.split "." "" = [""]
  /\ Py.tuple_ge [22; 4; 0] [22; 4; 0] = true
  /\ Py.tuple_ge [22; 4] [22; 4; 0] = false
  /\ Py.tuple_ge [] [0; 20; 0] = false
  /\ Py.tuple_gt [0; 25; 0; 1] [0; 25; 0] = true.
Proof. repeat split; reflexivity. Qed.

Example kitty_identification_groups :
  Re.match_ Kitty.name_version_re (Detection.identification "kitty(0.26.5)")
  = Some ["kitty"; "0.26.5"]
  /\ Re.match_ Kitty.name_version_re (Detection.identification "Konsole 22.04.0")
     = Some ["Konsole"; "22.04.0"]
  /\ Re.match_ Kitty.name_version_re "konsole" = None.
Proof. repeat split; reflexivity. Qed.

Example get_chunks_two_slices :
  Kitty.Transmission.get_chunks
    (Kitty.Transmission.mk
       (Kitty.ControlData.init (Some "T") (Some 24) (Some "d") (Some 2) (Some 1)
          None None (Some 1) (Some 4) (Some 1)) "abcdef" false) 4
  = [ String Py.ESC "_Ga=T,f=24,t=d,s=2,v=1,C=1,c=4,r=1,m=1;YWJj"
      ++ String Py.ESC "\";
      String Py.ESC "_Gm=0;ZGVm" ++ String Py.ESC "\" ].
Proof. reflexivity. Qed.

Example render_two_lines :
  Kitty._render_image ControlSpec.toy_compress None RenderSpec.plain_image
    (Kitty.mk_image (2, 2) (1, 2) Kitty.LINES) (Some 0)
  = Py.Return
      (String Py.ESC "_Ga=T,f=24,t=d,s=1,v=1,z=0,o=z,C=1,c=2,r=1,m=0;eEFBQQ=="
       ++ String Py.ESC "\" ++ "  " ++ Py.chr Py.LF
       ++ String Py.ESC "_Ga=T,f=24,t=d,s=1,v=1,z=0,o=z,C=1,c=2,r=1,m=0;eEFBQQ=="
       ++ String Py.ESC "\" ++ "  ").
Proof. reflexivity. Qed.


(** * Further properties *)

(** ** How many chunks, and how long *)

Lemma slicing_count (n : nat) (text : string) (l : list string) :
  (0 < n)%nat ->
  ChunkSpec.slicing n text l ->
  Z.of_nat (List.length l)
  = (Z.of_nat (String.length text) + Z.of_nat n - 1) / Z.of_nat n.
Proof.
  intros Hn H. induction H as [|text l Hne H IH].
  - cbn [List.length String.length]. symmetry. apply Z.div_small. lia.
  - cbn [List.length]. rewrite Nat2Z.inj_succ, IH, length_drop.
    assert (Hlen : (0 < String.length text)%nat)
      by (destruct text; [congruence | simpl; lia]).
    destruct (Nat.le_gt_cases (String.length text) n) as [Hle | Hgt].
    + replace (String.length text - n)%nat with 0%nat by lia.
      rewrite (Z.div_small (Z.of_nat 0 + Z.of_nat n - 1)) by lia.
      apply (Z.div_unique _ _ _ (Z.of_nat (String.length text) - 1)); lia.
    + replace (Z.of_nat (String.length text) + Z.of_nat n - 1)
        with (Z.of_nat (String.length text - n) + Z.of_nat n - 1
              + 1 * Z.of_nat n) by lia.
      rewrite Z.div_add by lia. lia.
Qed.

(** X1. The number of escape sequences that [get_chunks] emits for a
    positive chunk size: the base64 text length divided by the size, rounded
    up, and one for an empty text. *)
Theorem get_chunks_count (self : Kitty.Transmission.Transmission) (size : Z) :
  0 < size ->
  Z.of_nat (List.length (Kitty.Transmission.get_chunks self size))
  = Z.max 1 ((Py.len (Kitty.Transmission.encode self) + size - 1) / size).
Proof.
  intros Hsize.
  destruct (get_chunks_frame self size Hsize) as [l [Hl Hframe]].
  rewrite Hframe, frame_length. cbn [List.length].
  assert (Hn : (0 < Z.to_nat size)%nat) by lia.
  rewrite Nat2Z.inj_succ, (slicing_count _ _ _ Hn Hl), length_drop.
  unfold Py.len. rewrite Z2Nat.id by lia.
  set (L := String.length (Kitty.Transmission.encode self)).
  destruct (Z.le_gt_cases (Z.of_nat L) size) as [Hle | Hgt].
  - replace (L - Z.to_nat size)%nat with 0%nat by lia.
    rewrite (Z.div_small (Z.of_nat 0 + size - 1)) by lia.
    assert (H1 : (Z.of_nat L + size - 1) / size < 2).
    { apply Z.div_lt_upper_bound; lia. }
    assert (H0 : 0 <= (Z.of_nat L + size - 1) / size)
      by (apply Z.div_pos; lia).
    lia.
  - replace (Z.of_nat L + size - 1)
      with (Z.of_nat (L - Z.to_nat size) + size - 1 + 1 * size) by lia.
    rewrite Z.div_add by lia.
    assert (0 <= (Z.of_nat (L - Z.to_nat size) + size - 1) / size)
      by (apply Z.div_pos; lia).
    lia.
Qed.

Lemma get_chunks_count_witness :
  Z.of_nat
    (List.length
       (Kitty.Transmission.get_chunks
          (Kitty.Transmission.mk
             (Kitty.ControlData.init (Some "T") (Some 24) (Some "d") (Some 2)
                (Some 1) None None (Some 1) (Some 4) (Some 1))
             "abcdefg" false) 5))
  = 3.
Proof.
  rewrite (get_chunks_count _ 5 ltac:(lia)). reflexivity.
Defined.

Lemma b64_length (s : Py.bytes) :
  String.length (Py.standard_b64encode s)
  = (4 * ((String.length s + 2) / 3))%nat.
Proof.
  remember (String.length s) as k eqn:Hk. revert s Hk.
  induction k as [k IH] using lt_wf_ind. intros s Hk.
  destruct s as [|a [|b [|c s]]]; subst k; try reflexivity.
  cbn [Py.standard_b64encode String.length].
  rewrite (IH (String.length s) ltac:(simpl; lia) s eq_refl).
  replace (S (S (S (String.length s))) + 2)%nat
    with (String.length s + 2 + 1 * 3)%nat by lia.
  rewrite Nat.div_add by lia. lia.
Qed.

Lemma slicing_divisible (d n : nat) (text : string) (l : list string) :
  ChunkSpec.slicing n text l ->
  (exists a, n = d * a)%nat ->
  (exists b, String.length text = d * b)%nat ->
  Forall (fun x => exists k, String.length x = d * k)%nat l.
Proof.
  intros H [a Ha]. induction H as [|text l Hne H IH]; intros [b Hb].
  - constructor.
  - constructor.
    + rewrite length_take, Ha, Hb. exists (Nat.min a b). nia.
    + apply IH. rewrite length_drop, Ha, Hb. exists (b - a)%nat. nia.
Qed.

(** X2. With a chunk size that is a multiple of four, as the default 4096
    is, the payload of every escape sequence that [get_chunks] emits is a
    multiple of four characters long and no longer than the chunk size;
    the payloads, in order, make up the base64 text. *)
Theorem chunk_payloads_multiple_of_four
    (self : Kitty.Transmission.Transmission) (size : Z) :
  0 < size ->
  size mod 4 = 0 ->
  exists slices : list string,
    Kitty.Transmission.get_chunks self size
    = ChunkSpec.frame (Kitty.Transmission.get_control_data self) slices
    /\ Py.concat slices = Kitty.Transmission.encode self
    /\ Forall (fun x => Py.len x mod 4 = 0 /\ Py.len x <= size) slices.
Proof.
  intros Hsize Hmod.
  destruct (get_chunks_frame self size Hsize) as [l [Hl Hframe]].
  set (n := Z.to_nat size) in *.
  set (text := Kitty.Transmission.encode self) in *.
  exists (Py.str_take n text :: l).
  split; [exact Hframe|]. split.
  { cbn [Py.concat]. rewrite (slicing_concat n _ _ Hl). apply take_drop. }
  assert (Hn : exists a, n = (4 * a)%nat).
  { exists (Z.to_nat (size / 4)).
    pose proof (Z.div_mod size 4 ltac:(lia)).
    assert (0 <= size / 4) by (apply Z.div_pos; lia). subst n. lia. }
  assert (Ht : exists b, String.length text = (4 * b)%nat).
  { eexists. subst text. unfold Kitty.Transmission.encode. apply b64_length. }
  assert (Hall : Forall (fun x => exists k, String.length x = 4 * k)%nat
                   (Py.str_take n text :: l)).
  { constructor.
    - destruct Hn as [a Ha], Ht as [b Hb].
      rewrite length_take, Ha, Hb. exists (Nat.min a b). nia.
    - apply (slicing_divisible 4 n _ _ Hl Hn).
      destruct Hn as [a Ha], Ht as [b Hb].
      rewrite length_drop, Ha, Hb. exists (b - a)%nat. nia. }
  assert (Hbound : Forall (fun x => (String.length x <= n)%nat)
                     (Py.str_take n text :: l)).
  { constructor; [rewrite length_take; lia|].
    assert (Hpos : (0 < n)%nat) by (subst n; lia).
    eapply Forall_impl; [|apply (slicing_bounds n Hpos _ _ Hl)].
    cbv beta. intros x Hx. lia. }
  rewrite Forall_forall in *. intros x Hx.
  destruct (Hall x Hx) as [k Hk]. specialize (Hbound x Hx).
  unfold Py.len. split; [|lia].
  rewrite Hk, Nat2Z.inj_mul, Z.mul_comm. apply Z.mod_mul. lia.
Qed.

Lemma chunk_payloads_multiple_of_four_witness :
  exists slices : list string,
    Kitty.Transmission.get_chunks
      (Kitty.Transmission.mk
         (Kitty.ControlData.init (Some "T") (Some 24) (Some "d") (Some 2)
            (Some 1) None None (Some 1) (Some 4) (Some 1))
         "abcdefg" false) Kitty.Transmission.default_size
    = ChunkSpec.frame "a=T,f=24,t=d,s=2,v=1,C=1,c=4,r=1" slices
    /\ Forall (fun x => Py.len x mod 4 = 0 /\ Py.len x <= 4096) slices.
Proof.
  destruct (chunk_payloads_multiple_of_four
              (Kitty.Transmission.mk
                 (Kitty.ControlData.init (Some "T") (Some 24) (Some "d")
                    (Some 2) (Some 1) None None (Some 1) (Some 4) (Some 1))
                 "abcdefg" false) Kitty.Transmission.default_size)
    as [slices [H1 [_ H3]]]; [reflexivity | reflexivity |].
  exists slices. split; [exact H1 | exact H3].
Defined.

(** X3. The chunk sizes that are not positive: with a negative size
    [get_chunks] reads the whole base64 text at once and emits it in one
    sequence with [m=0]; with size zero every read is empty, so it emits one
    sequence with [m=0] and no payload, whatever the text is. *)
Theorem get_chunks_nonpositive_size
    (self : Kitty.Transmission.Transmission) (size : Z) :
  size <= 0 ->
  Kitty.Transmission.get_chunks self size
  = [ ChunkSpec.sequence (Some (Kitty.Transmission.get_control_data self))
        false
        (if size =? 0 then "" else Kitty.Transmission.encode self) ].
Proof.
  intros Hsize. unfold Kitty.Transmission.get_chunks,
    Kitty.Transmission.get_payload.
  destruct (Z.eqb_spec size 0) as [-> | Hne].
  - cbn [Py.read Z.ltb Z.compare Z.to_nat Py.str_take Py.str_drop].
    simp get_chunks_loop. reflexivity.
  - assert (Hneg : (size <? 0) = true) by (apply Z.ltb_lt; lia).
    unfold Py.read. rewrite Hneg. cbv beta iota zeta.
    simp get_chunks_loop. reflexivity.
Qed.

Lemma get_chunks_nonpositive_size_witness :
  Kitty.Transmission.get_chunks
    (Kitty.Transmission.mk
       (Kitty.ControlData.init (Some "T") (Some 24) (Some "d") (Some 2) (Some 1)
          None None (Some 1) (Some 4) (Some 1)) "abcdef" false) 0
  = [ String Py.ESC "_Ga=T,f=24,t=d,s=2,v=1,C=1,c=4,r=1,m=0;"
      ++ String Py.ESC "\" ].
Proof.
  rewrite (get_chunks_nonpositive_size _ 0 ltac:(lia)). reflexivity.
Defined.

(** ** The compression flag and the [o] key *)

Section CompressionState.
Import Py ControlSpec Kitty.Transmission.
Variables zc zd : bytes -> bytes.
Hypothesis lossless : forall b, zd (zc b) = b.

(** What holds of a transmission made from [cd] and [p], however
    [compress] and [decompress] were called on it since. *)
Lemma compression_state (cd : Kitty.ControlData.ControlData) (p : bytes)
    (ops : list op) :
  let self := fold_left (apply_op zc zd) ops (init zc cd p) in
  (exists x, control self = Kitty.ControlData.set_o cd x)
  /\ (direct self = false -> self = mk cd p false)
  /\ (direct self = true ->
      if _compressed self
      then Kitty.ControlData.o (control self) = Some Kitty.o.ZLIB
           /\ payload self = zc p
      else Kitty.ControlData.o (control self) <> Some Kitty.o.ZLIB
           /\ payload self = p).
Proof using lossless.
  assert (Heta : forall c : Kitty.ControlData.ControlData,
             Kitty.ControlData.set_o c (Kitty.ControlData.o c) = c)
    by (intros []; reflexivity).
  assert (Hset : forall (c : Kitty.ControlData.ControlData) x y,
             Kitty.ControlData.set_o (Kitty.ControlData.set_o c x) y
             = Kitty.ControlData.set_o c y) by reflexivity.
  assert (Hinit : init zc cd p
                  = if Kitty.opt_str_eqb (Kitty.ControlData.o cd)
                         (Some Kitty.o.ZLIB)
                       && Kitty.opt_str_eqb (Kitty.ControlData.t cd)
                            (Some Kitty.t.DIRECT)
                    then mk (Kitty.ControlData.set_o cd (Some Kitty.o.ZLIB))
                           (zc p) true
                    else mk cd p false).
  { unfold init, __post_init__, compress.
    cbn [control payload _compressed negb].
    destruct (Kitty.opt_str_eqb (Kitty.ControlData.o cd) _);
      destruct (Kitty.opt_str_eqb (Kitty.ControlData.t cd) _); reflexivity. }
  induction ops as [|x ops IH] using rev_ind; intros self.
  - subst self. cbn [fold_left]. rewrite Hinit. unfold direct.
    destruct (Kitty.opt_str_eqb (Kitty.ControlData.o cd) _) eqn:Ho;
      destruct (Kitty.opt_str_eqb (Kitty.ControlData.t cd) _) eqn:Ht;
      cbn [andb control payload _compressed Kitty.ControlData.t
           Kitty.ControlData.set_o Kitty.ControlData.o]; rewrite ?Ht.
    + split; [now exists (Some Kitty.o.ZLIB)|].
      split; [intros H; discriminate H|]. intros _. split; reflexivity.
    + split; [exists (Kitty.ControlData.o cd); now rewrite Heta|].
      split; [intros _; reflexivity | intros H; discriminate H].
    + split; [exists (Kitty.ControlData.o cd); now rewrite Heta|].
      split; [intros H; discriminate H|]. intros _. split; [|reflexivity].
      intros E. rewrite E in Ho. cbn in Ho. discriminate Ho.
    + split; [exists (Kitty.ControlData.o cd); now rewrite Heta|].
      split; [intros _; reflexivity | intros H; discriminate H].
  - subst self. rewrite fold_left_app. cbn [fold_left].
    set (prev := fold_left (apply_op zc zd) ops (init zc cd p)) in *.
    cbv zeta in IH. destruct IH as [[y Hy] [Hnd Hd]].
    unfold direct in *.
    destruct (Kitty.opt_str_eqb (Kitty.ControlData.t (control prev)) _) eqn:Ht.
    + specialize (Hd eq_refl). clear Hnd.
      assert (Ht' : forall w,
                 Kitty.opt_str_eqb
                   (Kitty.ControlData.t (Kitty.ControlData.set_o (control prev) w))
                   (Some Kitty.t.DIRECT) = true) by (intros w; exact Ht).
      destruct x; unfold apply_op, compress, decompress;
        destruct (_compressed prev) eqn:Hc; rewrite Ht;
        cbn [andb negb control payload _compressed].
      * rewrite Ht, Hc. split; [now exists y|].
        split; [intros H; discriminate H | intros _; exact Hd].
      * rewrite Ht'. split; [exists (Some Kitty.o.ZLIB); now rewrite Hy, Hset|].
        split; [intros H; discriminate H|]. intros _. destruct Hd as [_ Hp].
        split; [reflexivity | now rewrite Hp].
      * rewrite Ht'. split; [exists None; now rewrite Hy, Hset|].
        split; [intros H; discriminate H|]. intros _. destruct Hd as [_ Hp].
        split; [intros H; discriminate H | now rewrite Hp, lossless].
      * rewrite Ht, Hc. split; [now exists y|].
        split; [intros H; discriminate H | intros _; exact Hd].
    + specialize (Hnd eq_refl).
      assert (Hsame : apply_op zc zd prev x = prev).
      { destruct x; unfold apply_op, compress, decompress; now rewrite Ht. }
      rewrite Hsame, Ht. split; [now exists y|].
      split; [intros _; exact Hnd | intros H; discriminate H].
Qed.
End CompressionState.

(** X4. A transmission made by the constructor and then changed only through
    [compress] and [decompress], the codec being lossless. Over the direct
    medium it is flagged compressed exactly when its control data carry
    [o=z], and its payload is then the compressed form of the payload it was
    made with, which it holds unchanged otherwise. Over any other medium it
    is exactly as it was made. Only the [o] key of the control data is ever
    changed. *)
Theorem compression_flag_matches_payload
    (zc zd : Py.bytes -> Py.bytes) (cd : Kitty.ControlData.ControlData)
    (p : Py.bytes) (ops : list ControlSpec.op) :
  (forall b, zd (zc b) = b) ->
  let self :=
    fold_left (ControlSpec.apply_op zc zd) ops
      (Kitty.Transmission.init zc cd p) in
  let control := Kitty.Transmission.control self in
  (Kitty.ControlData.t cd = Some Kitty.t.DIRECT ->
     (Kitty.Transmission._compressed self = true
      <-> Kitty.ControlData.o control = Some Kitty.o.ZLIB)
     /\ Kitty.Transmission.payload self
        = if Kitty.Transmission._compressed self then zc p else p)
  /\ (Kitty.ControlData.t cd <> Some Kitty.t.DIRECT ->
        self = Kitty.Transmission.mk cd p false)
  /\ (forall key, key <> "o" ->
        ControlSpec.value_of control key = ControlSpec.value_of cd key).
Proof.
  intros lossless self control.
  destruct (compression_state zc zd lossless cd p ops) as [[x Hx] [Hnd Hd]].
  fold self in Hx, Hnd, Hd. unfold ControlSpec.direct in Hnd, Hd.
  assert (Ht : Kitty.ControlData.t (Kitty.Transmission.control self)
               = Kitty.ControlData.t cd) by (rewrite Hx; reflexivity).
  rewrite Ht in Hnd, Hd.
  split; [|split].
  - intros Hdirect. rewrite Hdirect in Hd.
    specialize (Hd (String.eqb_refl _)). subst control.
    destruct (Kitty.Transmission._compressed self).
    + destruct Hd as [Ho Hp].
      split; [split; intros _; [exact Ho | reflexivity] | exact Hp].
    + destruct Hd as [Ho Hp].
      split; [split; [intros H; discriminate H | intros H; contradiction]
             | exact Hp].
  - intros Hmedium. apply Hnd.
    destruct (Kitty.ControlData.t cd) as [m|]; [|reflexivity].
    cbn. apply String.eqb_neq. intros ->. now apply Hmedium.
  - intros key Hkey. subst control. rewrite Hx.
    unfold ControlSpec.value_of.
    repeat match goal with
           | |- context [String.eqb key ?k] =>
               destruct (String.eqb_spec key k) as [E|_];
               [try reflexivity; congruence|]
           end.
    reflexivity.
Qed.

Lemma compression_flag_matches_payload_witness :
  let self :=
    fold_left
      (ControlSpec.apply_op ControlSpec.toy_compress ControlSpec.toy_decompress)
      [ControlSpec.Decompress; ControlSpec.Compress; ControlSpec.Compress]
      (Kitty.Transmission.init ControlSpec.toy_compress
         (Kitty.ControlData.init (Some "T") (Some 24) (Some "d") (Some 1)
            (Some 1) (Some 0) (Some "z") (Some 1) (Some 1) (Some 1))
         "abc") in
  (Kitty.Transmission._compressed self = true
   <-> Kitty.ControlData.o (Kitty.Transmission.control self) = Some "z")
  /\ Kitty.Transmission.payload self
     = if Kitty.Transmission._compressed self then "xabc" else "abc".
Proof.
  apply (compression_flag_matches_payload ControlSpec.toy_compress
           ControlSpec.toy_decompress
           (Kitty.ControlData.init (Some "T") (Some 24) (Some "d") (Some 1)
              (Some 1) (Some 0) (Some "z") (Some 1) (Some 1) (Some 1))
           "abc"
           [ControlSpec.Decompress; ControlSpec.Compress; ControlSpec.Compress]
           (fun b => eq_refl)).
  reflexivity.
Defined.

(** ** More on the capability detection *)

(** X5. iTerm2: an answer that is text (it decodes as UTF-8) and does not
    identify a supported terminal (the pattern does not match what precedes
    the last escape character, or the lower-cased name is not one of iterm2,
    konsole, wezterm) makes [is_supported] return [None] and leaves the
    class attributes as they were, so that the next call writes the query
    again. *)
Theorem iterm2_unidentified_not_cached cls term response term' text :
  ITerm2._supported cls = SNone ->
  Tty.query_terminal ITerm2.query ITerm2.query_more term = (response, term') ->
  Py.decode response = Py.Return text ->
  text <> "" ->
  match Re.fullmatch ITerm2.name_version_re (Py.rpartition0 Py.ESC text) with
  | Some [g1; g2] =>
      existsb (String.eqb (Py.lower g1)) ITerm2.supported_names = false
  | _ => True
  end ->
  ITerm2.is_supported cls term
  = (Py.Return SNone, cls, snd (Tty.read_tty term'))
  /\ forall term2,
       Tty.written (snd (ITerm2.is_supported cls term2))
       = (Tty.written term2 ++ [ITerm2.query])%list.
Proof.
  intros Hnone Hq Hdec Hne Hre. split.
  - unfold ITerm2.is_supported, Tty.read_tty. rewrite Hnone, Hq, Hdec.
    destruct text as [|x text]; [congruence|]. cbn [Py.truthy].
    destruct (Re.fullmatch _ _) as [[|g1 [|g2 [|g3 l]]]|];
      rewrite ?Hre, ?Hnone; reflexivity.
  - intros term2. unfold ITerm2.is_supported. rewrite Hnone.
    pose proof (query_written ITerm2.query ITerm2.query_more term2) as W1.
    destruct (Tty.query_terminal ITerm2.query _ term2) as [r1 t1].
    cbn [snd] in W1. unfold Tty.read_tty.
    repeat (break_match; cbn [snd Tty.written] in * ); exact W1.
Qed.

Lemma iterm2_unidentified_not_cached_witness :
  ITerm2.is_supported ITerm2.initial_class
    (Detection.answering
       [ Detection.identification "xterm(370)" ++ Detection.attributes ])
  = (Py.Return SNone, ITerm2.initial_class, Tty.mk [] "" [ITerm2.query]).
Proof.
  refine (proj1 (iterm2_unidentified_not_cached ITerm2.initial_class
            (Detection.answering
               [ Detection.identification "xterm(370)"
                 ++ Detection.attributes ])
            (Detection.identification "xterm(370)" ++ String Py.ESC "[?6")
            (Tty.mk [] "2;c" [ITerm2.query])
            (Detection.identification "xterm(370)" ++ String Py.ESC "[?6")
            _ _ _ _ _)).
  - reflexivity.
  - vm_compute. reflexivity.
  - vm_compute. reflexivity.
  - discriminate.
  - vm_compute. reflexivity.
Defined.

(** X6. kitty: what [is_supported] decides once the probe was acknowledged
    and the identification, which is text, parsed. A terminal named kitty has its version
    stored in [_KITTY_VERSION], one named konsole in [_KONSOLE_VERSION]; the
    other attribute keeps the value it had, and the result, which is stored,
    is whether the kitty version is at least (0, 20, 0) or the konsole
    version at least (22, 4, 0). *)
Theorem kitty_version_floors cls term r1 t1 r2 t2 text name version ver :
  Kitty._supported cls = SNone ->
  Tty.query_terminal Kitty.probe_query Kitty.probe_more term = (r1, t1) ->
  Py.rpartition0 Py.ESC r1 = Kitty.probe_ok ->
  Tty.query_terminal Kitty.name_version_query Kitty.name_version_more t1
  = (r2, t2) ->
  Py.decode r2 = Py.Return text ->
  Re.match_ Kitty.name_version_re text = Some [name; version] ->
  Py.map_int (Py.split "." version) = Py.Return ver ->
  (Py.casefold name = "kitty" ->
     let result :=
       Py.tuple_ge ver [0; 20; 0]
       || Py.tuple_ge (Kitty._KONSOLE_VERSION cls) [22; 4; 0] in
     Kitty.is_supported cls term
     = (Py.Return (SBool result),
        Kitty.mk_class (SBool result) ver (Kitty._KONSOLE_VERSION cls), t2))
  /\ (Py.casefold name = "konsole" ->
        let result :=
          Py.tuple_ge (Kitty._KITTY_VERSION cls) [0; 20; 0]
          || Py.tuple_ge ver [22; 4; 0] in
        Kitty.is_supported cls term
        = (Py.Return (SBool result),
           Kitty.mk_class (SBool result) (Kitty._KITTY_VERSION cls) ver, t2)).
Proof.
  intros Hnone Hq1 Hok Hq2 Hdec Hre Hver.
  unfold Kitty.is_supported. rewrite Hnone, Hq1.
  destruct r1 as [|x r1]; [discriminate Hok|]. cbn [Py.truthy].
  rewrite Hok, String.eqb_refl.
  cbn [Kitty._supported Kitty.set_supported support_truthy].
  rewrite Hq2, Hdec. cbn [Py.bind]. rewrite Hre.
  unfold Kitty.record_version.
  split; intros Hname; cbv zeta; rewrite Hname;
    cbn [String.eqb Ascii.eqb Bool.eqb]; rewrite Hver; reflexivity.
Qed.

Lemma kitty_version_floors_witness :
  Kitty.is_supported (Kitty.mk_class SNone [] [])
    (Detection.answering
       [ Kitty.probe_ok ++ Detection.attributes;
         Detection.identification "kitty(0.19.3)" ])
  = (Py.Return (SBool false), Kitty.mk_class (SBool false) [0; 19; 3] [],
     Tty.mk [] "" [Kitty.probe_query; Kitty.name_version_query]).
Proof.
  refine (proj1 (kitty_version_floors (Kitty.mk_class SNone [] [])
            (Detection.answering
               [ Kitty.probe_ok ++ Detection.attributes;
                 Detection.identification "kitty(0.19.3)" ])
            (Kitty.probe_ok ++ Detection.attributes)
            (Tty.mk [Detection.identification "kitty(0.19.3)"] ""
               [Kitty.probe_query])
            (Detection.identification "kitty(0.19.3)")
            (Tty.mk [] "" [Kitty.probe_query; Kitty.name_version_query])
            (Detection.identification "kitty(0.19.3)")
            "kitty" "0.19.3" [0; 19; 3] _ _ _ _ _ _ _) _);
    vm_compute; reflexivity.
Defined.

(** X7. kitty: a terminal that acknowledges the probe but whose
    identification, which is text, does not match the pattern, or names neither kitty nor
    konsole, leaves both versions as they were; with no version recorded
    before, the detection returns and stores [False]. *)
Theorem kitty_unidentified_unsupported cls term r1 t1 r2 t2 text :
  Kitty._supported cls = SNone ->
  Kitty._KITTY_VERSION cls = [] ->
  Kitty._KONSOLE_VERSION cls = [] ->
  Tty.query_terminal Kitty.probe_query Kitty.probe_more term = (r1, t1) ->
  Py.rpartition0 Py.ESC r1 = Kitty.probe_ok ->
  Tty.query_terminal Kitty.name_version_query Kitty.name_version_more t1
  = (r2, t2) ->
  Py.decode r2 = Py.Return text ->
  match Re.match_ Kitty.name_version_re text with
  | Some [name; version] =>
      Py.casefold name <> "kitty" /\ Py.casefold name <> "konsole"
  | _ => True
  end ->
  Kitty.is_supported cls term
  = (Py.Return (SBool false), Kitty.mk_class (SBool false) [] [], t2).
Proof.
  intros Hnone Hkitty Hkonsole Hq1 Hok Hq2 Hdec Hre.
  unfold Kitty.is_supported. rewrite Hnone, Hq1.
  destruct r1 as [|x r1]; [discriminate Hok|]. cbn [Py.truthy].
  rewrite Hok, String.eqb_refl.
  cbn [Kitty._supported Kitty.set_supported support_truthy].
  rewrite Hq2, Hdec. cbn [Py.bind].
  assert (Hfinal : forall b,
    (let cls0 :=
       Kitty.set_supported (Kitty.mk_class (SBool b) (Kitty._KITTY_VERSION cls)
                              (Kitty._KONSOLE_VERSION cls))
         (SBool (Py.tuple_ge (Kitty._KITTY_VERSION cls) [0; 20; 0]
                 || Py.tuple_ge (Kitty._KONSOLE_VERSION cls) [22; 4; 0])) in
     (Py.Return (Kitty._supported cls0), cls0, t2))
    = (Py.Return (SBool false), Kitty.mk_class (SBool false) [] [], t2))
    by (intros b; rewrite Hkitty, Hkonsole; reflexivity).
  destruct (Re.match_ _ text) as [[|name [|version [|g3 l]]]|];
    try exact (Hfinal true).
  destruct Hre as [H1 H2]. unfold Kitty.record_version.
  apply String.eqb_neq in H1, H2. rewrite H1, H2. exact (Hfinal true).
Qed.

Lemma kitty_unidentified_unsupported_witness :
  Kitty.is_supported Kitty.initial_class
    (Detection.answering
       [ Kitty.probe_ok ++ Detection.attributes;
         Detection.identification "WezTerm 20220101-133340-7edc5b5a" ])
  = (Py.Return (SBool false), Kitty.mk_class (SBool false) [] [],
     Tty.mk [] "" [Kitty.probe_query; Kitty.name_version_query]).
Proof.
  refine (kitty_unidentified_unsupported Kitty.initial_class
            (Detection.answering
               [ Kitty.probe_ok ++ Detection.attributes;
                 Detection.identification "WezTerm 20220101-133340-7edc5b5a" ])
            (Kitty.probe_ok ++ Detection.attributes)
            (Tty.mk [Detection.identification
                       "WezTerm 20220101-133340-7edc5b5a"] ""
               [Kitty.probe_query])
            (Detection.identification "WezTerm 20220101-133340-7edc5b5a")
            (Tty.mk [] "" [Kitty.probe_query; Kitty.name_version_query])
            (Detection.identification "WezTerm 20220101-133340-7edc5b5a")
            _ _ _ _ _ _ _ _); vm_compute; try reflexivity.
  split; discriminate.
Defined.

(** X8. iTerm2: what a successful identification (the reply is text and
    the pattern matches) leaves behind, and what [_clear_images] does with
    it. A supported terminal has its lower-cased
    name and version stored in [_TERM] and [_TERM_VERSION]; konsole is
    supported when its version parses and is at least (22, 4, 0), and
    nothing is stored for it otherwise. After the detection [_clear_images]
    writes the delete sequence, once, exactly when a supported konsole was
    found; for iterm2 and wezterm it writes nothing and returns [False]. *)
Theorem iterm2_records_terminal cls term response term' text g1 g2 :
  ITerm2._supported cls = SNone ->
  ITerm2._TERM cls = "" ->
  Tty.query_terminal ITerm2.query ITerm2.query_more term = (response, term') ->
  Py.decode response = Py.Return text ->
  text <> "" ->
  Re.fullmatch ITerm2.name_version_re (Py.rpartition0 Py.ESC text)
  = Some [g1; g2] ->
  let cls' := snd (fst (ITerm2.is_supported cls term)) in
  (Py.lower g1 = "iterm2" \/ Py.lower g1 = "wezterm" ->
     cls' = ITerm2.mk_class (SBool true) (Py.lower g1) (Py.lower g2)
     /\ forall out, ITerm2Image._clear_images cls' out = (false, out))
  /\ (forall ver,
        Py.lower g1 = "konsole" ->
        Py.map_int (Py.split "." (Py.lower g2)) = Py.Return ver ->
        if Py.tuple_ge ver [22; 4; 0]
        then cls' = ITerm2.mk_class (SBool true) "konsole" (Py.lower g2)
             /\ forall out,
                  ITerm2Image._clear_images cls' out
                  = (true, (out ++ [KittyImage.delete_images])%list)
        else cls' = ITerm2.set_supported cls (SBool false)
             /\ forall out, ITerm2Image._clear_images cls' out = (false, out)).
Proof.
  intros Hnone Hterm Hq Hdec Hne Hre cls'. subst cls'.
  unfold ITerm2.is_supported, Tty.read_tty. rewrite Hnone, Hq, Hdec.
  destruct text as [|x text]; [congruence|]. cbn [Py.truthy].
  rewrite Hre. split.
  - intros [Hname | Hname]; rewrite Hname;
      cbn [existsb ITerm2.supported_names String.eqb Ascii.eqb Bool.eqb orb];
      unfold ITerm2.decide; cbn [String.eqb Ascii.eqb Bool.eqb fst snd];
      (split; [reflexivity|]); intros out; reflexivity.
  - intros ver Hname Hver. rewrite Hname.
    cbn [existsb ITerm2.supported_names String.eqb Ascii.eqb Bool.eqb orb].
    unfold ITerm2.decide. cbn [String.eqb Ascii.eqb Bool.eqb].
    rewrite Hver. cbn [Py.bind]. unfold Py.tuple_ge.
    destruct (Py.tuple_lt ver [22; 4; 0]); cbn [negb fst snd].
    + split; [reflexivity|]. intros out.
      unfold ITerm2Image._clear_images. cbn [ITerm2._TERM ITerm2.set_supported].
      rewrite Hterm. reflexivity.
    + split; reflexivity.
Qed.

Lemma iterm2_records_terminal_witness :
  snd (fst (ITerm2.is_supported ITerm2.initial_class
              (Detection.answering
                 [ Detection.identification "WezTerm 20220101-133340-7edc5b5a"
                   ++ Detection.attributes ])))
  = ITerm2.mk_class (SBool true) "wezterm" "20220101-133340-7edc5b5a".
Proof.
  refine (proj1 (proj1 (iterm2_records_terminal ITerm2.initial_class
            (Detection.answering
               [ Detection.identification "WezTerm 20220101-133340-7edc5b5a"
                 ++ Detection.attributes ])
            (Detection.identification "WezTerm 20220101-133340-7edc5b5a"
             ++ String Py.ESC "[?6")
            (Tty.mk [] "2;c" [ITerm2.query])
            (Detection.identification "WezTerm 20220101-133340-7edc5b5a"
             ++ String Py.ESC "[?6")
            "WezTerm" "20220101-133340-7edc5b5a" _ _ _ _ _ _) _)).
  - reflexivity.
  - reflexivity.
  - vm_compute. reflexivity.
  - vm_compute. reflexivity.
  - discriminate.
  - vm_compute. reflexivity.
  - right. vm_compute. reflexivity.
Defined.

(** ** Replacing the frame of an animation *)

(** X9. The two ways of replacing an animation frame exclude each other:
    [_clear_frame] deletes the images (one write of the delete sequence) and
    returns [True] exactly for a recorded kitty version up to (0, 25, 0),
    the versions for which [_display_animated] drops [z_index]; for a later
    version [_display_animated] passes [z_index=None] and [_clear_frame]
    writes nothing. When no kitty version is recorded neither is done. *)
Theorem frame_replacement_exclusive
    (cls : Kitty.class_state) (kwargs : gmap string pyvalue)
    (out : KittyImage.stdout) :
  let version := Kitty._KITTY_VERSION cls in
  let passed := Kitty._display_animated cls kwargs in
  let cleared := KittyImage._clear_frame cls out in
  (version = [] ->
     cleared = (false, out) /\ passed !! "z_index" = None)
  /\ (version <> [] ->
        (Py.tuple_le version [0; 25; 0] = true
         /\ cleared = (true, (out ++ [KittyImage.delete_images])%list)
         /\ passed !! "z_index" = None)
        \/ (Py.tuple_gt version [0; 25; 0] = true
            /\ cleared = (false, out)
            /\ passed !! "z_index" = Some VNone))
  /\ (fst cleared = true -> passed !! "z_index" = None).
Proof.
  intros version passed cleared. subst passed cleared.
  unfold Kitty._display_animated, KittyImage._clear_frame,
    KittyImage._clear_images. fold version.
  unfold Py.tuple_le, Py.tuple_gt.
  split; [|split].
  - intros ->. cbn. split; [reflexivity | apply lookup_delete_eq].
  - intros Hne. destruct version as [|x version]; [congruence|].
    cbn [Py.nonempty andb].
    destruct (Py.tuple_lt [0; 25; 0] (x :: version)); cbn [negb snd].
    + right. split; [reflexivity|]. split; [reflexivity|].
      apply lookup_insert_eq.
    + left. split; [reflexivity|]. split; [reflexivity|].
      apply lookup_delete_eq.
  - destruct (Py.tuple_lt [0; 25; 0] version); cbn [negb andb fst].
    + rewrite andb_false_r. cbn [fst]. discriminate.
    + intros _. apply lookup_delete_eq.
Qed.

(** ** Pixels and cells *)

(** X10. With a cell size of positive width and height (the default (1, 2)
    when the terminal does not tell), converting columns to pixels and back
    with [_pixels_cols] gives the columns again, converting pixels to
    columns rounds down to whole cells, and likewise for [_pixels_lines];
    [_get_render_size] is the rendered size converted to pixels by the
    two. *)
Theorem pixels_cells_round_trip (get_cell_size : option (Z * Z)) :
  0 < fst (KittyImage.cell_size get_cell_size) ->
  0 < snd (KittyImage.cell_size get_cell_size) ->
  let cw := fst (KittyImage.cell_size get_cell_size) in
  let ch := snd (KittyImage.cell_size get_cell_size) in
  let cols_of p := KittyImage._pixels_cols get_cell_size (Some p) None in
  let pixels_of_cols c := KittyImage._pixels_cols get_cell_size None (Some c) in
  let lines_of p := KittyImage._pixels_lines get_cell_size (Some p) None in
  let pixels_of_lines l := KittyImage._pixels_lines get_cell_size None (Some l) in
  (forall c, Py.bind (pixels_of_cols c) cols_of = Py.Return c)
  /\ (forall l, Py.bind (pixels_of_lines l) lines_of = Py.Return l)
  /\ (forall p, exists c back,
        cols_of p = Py.Return c /\ pixels_of_cols c = Py.Return back
        /\ back <= p < back + cw)
  /\ (forall p, exists l back,
        lines_of p = Py.Return l /\ pixels_of_lines l = Py.Return back
        /\ back <= p < back + ch)
  /\ (forall self : Kitty.KittyImage,
        pixels_of_cols (fst (Kitty.rendered_size self))
        = Py.Return (fst (Kitty._get_render_size get_cell_size self))
        /\ pixels_of_lines (snd (Kitty.rendered_size self))
           = Py.Return (snd (Kitty._get_render_size get_cell_size self))).
Proof.
  intros Hw Hh cw ch cols_of pixels_of_cols lines_of pixels_of_lines.
  subst cols_of pixels_of_cols lines_of pixels_of_lines.
  unfold KittyImage._pixels_cols, KittyImage._pixels_lines. fold cw ch.
  assert (Hcw : (cw =? 0) = false) by (apply Z.eqb_neq; subst cw; lia).
  assert (Hch : (ch =? 0) = false) by (apply Z.eqb_neq; subst ch; lia).
  rewrite Hcw, Hch. cbn [Py.bind].
  split; [|split; [|split; [|split]]].
  - intros c. rewrite Z.div_mul by (subst cw; lia). reflexivity.
  - intros l. rewrite Z.div_mul by (subst ch; lia). reflexivity.
  - intros p. exists (p / cw), (p / cw * cw).
    split; [reflexivity|]. split; [reflexivity|].
    pose proof (Z.div_mod p cw ltac:(subst cw; lia)).
    pose proof (Z.mod_pos_bound p cw ltac:(subst cw; lia)). lia.
  - intros p. exists (p / ch), (p / ch * ch).
    split; [reflexivity|]. split; [reflexivity|].
    pose proof (Z.div_mod p ch ltac:(subst ch; lia)).
    pose proof (Z.mod_pos_bound p ch ltac:(subst ch; lia)). lia.
  - intros self. unfold Kitty._get_render_size.
    subst cw ch. unfold KittyImage.cell_size. split; reflexivity.
Qed.

Lemma pixels_cells_round_trip_witness :
  Py.bind (KittyImage._pixels_lines None None (Some 7))
    (fun p => KittyImage._pixels_lines None (Some p) None)
  = Py.Return 7.
Proof.
  destruct (pixels_cells_round_trip None) as [_ [H _]];
    [reflexivity | reflexivity | exact (H 7)].
Defined.

(** ** Rendering all at once *)

Lemma fill_lines (first fill : string) (k : nat) :
  first ++ Py.repeat_nat (fill ++ Py.chr Py.LF) k ++ fill
  = Py.join (Py.chr Py.LF) ((first ++ fill) :: List.repeat fill k).
Proof.
  revert first. induction k as [|k IH]; intros first.
  - cbn. reflexivity.
  - cbn [Py.repeat_nat List.repeat].
    change (Py.join (Py.chr Py.LF) ((first ++ fill) :: fill :: List.repeat fill k))
      with ((first ++ fill) ++ Py.chr Py.LF
            ++ Py.join (Py.chr Py.LF) (fill :: List.repeat fill k)).
    specialize (IH ""). cbn [String.append] in IH. rewrite <- IH.
    now rewrite !app_assoc_str.
Qed.

(** X11. An image rendered with the whole method at [r_width] columns and
    [r_height >= 1] lines: the output has [r_height] lines; the first holds
    the one transmission of the whole pixel buffer, which is the buffer that
    the lines method cuts into bands (same width, same padded height), with
    control data that declare the padded height in [v] and [r_height] in
    [r]; the others hold the fill of [r_width] spaces only. *)
Theorem render_whole_lines
    (zlib_compress : Py.bytes -> Py.bytes) (get_cell_size : option (Z * Z))
    (_get_render_data : Z * Z -> Kitty.mode * Py.bytes)
    (self : Kitty.KittyImage) (z_index : option Z) :
  let r_width := fst (Kitty.rendered_size self) in
  let r_height := snd (Kitty.rendered_size self) in
  let render_size := Kitty._get_render_size get_cell_size self in
  let size :=
    if Kitty.mul render_size <? Kitty.mul (Kitty._original_size self)
    then render_size else Kitty._original_size self in
  let width := fst size in
  let extra := snd size mod r_height in
  let height := if extra =? 0 then snd size else snd size - extra + r_height in
  let format := Kitty.format_of (fst (_get_render_data (width, height))) in
  let raw_image := snd (_get_render_data (width, height)) in
  let control_data :=
    Kitty.ControlData.update_v_r
      (Kitty.ControlData.init Kitty.ControlData.default_a (Some format)
         Kitty.ControlData.default_t (Some width) None z_index
         Kitty.ControlData.default_o Kitty.ControlData.default_C
         (Some r_width) None)
      (Some height) (Some r_height) in
  Kitty._render_method self = Kitty.WHOLE ->
  1 <= r_height ->
  Kitty._render_image zlib_compress get_cell_size _get_render_data self z_index
  = Py.Return
      (Py.join (Py.chr Py.LF)
         (RenderSpec.line zlib_compress control_data r_width raw_image
          :: List.repeat (Py.repeat " " r_width) (Z.to_nat (r_height - 1))))
  /\ ControlSpec.value_of control_data "s" = Some (Py.str_of_int width)
  /\ ControlSpec.value_of control_data "v" = Some (Py.str_of_int height)
  /\ ControlSpec.value_of control_data "c" = Some (Py.str_of_int r_width)
  /\ ControlSpec.value_of control_data "r" = Some (Py.str_of_int r_height).
Proof.
  intros r_width r_height render_size size width extra height format raw_image
    control_data Hmethod Hr.
  assert (Hkeys : Kitty.ControlData.s control_data = Some width
                  /\ Kitty.ControlData.c control_data = Some r_width).
  { subst control_data format.
    destruct (fst (_get_render_data (width, height))); split; reflexivity. }
  destruct Hkeys as [Hs Hc].
  split.
  2:{ unfold ControlSpec.value_of. cbn [String.eqb Ascii.eqb Bool.eqb].
      rewrite Hs, Hc. repeat split. }
  change (RenderSpec.line zlib_compress control_data r_width raw_image)
    with ("" ++ RenderSpec.line zlib_compress control_data r_width raw_image).
  rewrite <- (write_line_line zlib_compress).
  rewrite <- (fill_lines _ (Py.repeat " " r_width) (Z.to_nat (r_height - 1))).
  unfold Kitty._render_image.
  destruct self as [[rw rh] osize method]. cbn [Kitty.rendered_size
    Kitty._original_size Kitty._render_method fst snd] in *.
  subst method. fold render_size. fold size.
  destruct size as [w0 h0] eqn:Esize. cbn [fst snd] in *.
  destruct (Z.eqb_spec rh 0) as [E|_]; [subst r_height; lia|].
  fold r_height. fold extra. fold height. fold width.
  destruct (_get_render_data (width, height)) as [m raw] eqn:Edata.
  cbn [fst snd] in *. unfold Kitty._render_image_whole.
  subst control_data format r_width raw_image. rewrite Hc. reflexivity.
Qed.

Lemma render_whole_lines_witness :
  Kitty._render_image ControlSpec.toy_compress None RenderSpec.plain_image
    (Kitty.mk_image (4, 2) (3, 5) Kitty.WHOLE) (Some 0)
  = Py.Return
      (Py.join (Py.chr Py.LF)
         [ RenderSpec.line ControlSpec.toy_compress
             (Kitty.ControlData.update_v_r
                (Kitty.ControlData.init (Some "T") (Some 24) (Some "d")
                   (Some 3) None (Some 0) (Some "z") (Some 1) (Some 4) None)
                (Some 6) (Some 2))
             4 (Py.repeat "A" 54);
           "    " ]).
Proof.
  apply (render_whole_lines ControlSpec.toy_compress None
           RenderSpec.plain_image (Kitty.mk_image (4, 2) (3, 5) Kitty.WHOLE)
           (Some 0)).
  - reflexivity.
  - cbn. lia.
Defined.

(** ** The iTerm2 rendering, line by line *)

Section ITerm2Lines.
Import Py RenderSpec.
Variable frombytes : Kitty.mode -> Z * Z -> bytes -> outcome bytes.
Variable save : Kitty.mode -> Z * Z -> bytes -> ITerm2Image.format -> bytes.

Lemma iterm2_lines_loop (m : Kitty.mode) (width cell_height bpl r_width : Z)
    (konsole : bool) (n : nat) :
  forall (buffer : string) (raw_image : bytes),
    Forall (fun band => frombytes m (width, cell_height) band = Return band)
      (bands n bpl raw_image) ->
    ITerm2Image.lines_loop frombytes save n m width cell_height bpl r_width
      konsole buffer raw_image
    = Return
        (buffer
         ++ join (chr LF)
              (map (ITerm2Spec.line save m width cell_height r_width konsole)
                 (bands n bpl raw_image))).
Proof.
  induction n as [|n IH]; intros buffer raw_image Hall.
  - cbn. now rewrite app_empty_r.
  - cbn [ITerm2Image.lines_loop bands] in *.
    destruct (read bpl raw_image) as [band rest] eqn:E. cbn [fst snd] in *.
    inversion Hall as [|? ? Hband Hrest]; subst.
    rewrite Hband. cbn [bind]. rewrite IH by exact Hrest.
    f_equal. unfold ITerm2Spec.line, ITerm2Image.line_control.
    destruct n as [|n]; destruct konsole; cbn [bands map join];
      rewrite ?app_assoc_str, ?app_empty_r; cbn [String.append];
      rewrite ?app_assoc_str, ?app_empty_r; reflexivity.
Qed.
End ITerm2Lines.

(** X12. The iTerm2 lines method at [r_width] columns and [r_height >= 1]
    lines, for an image of [width] by [height] pixels whose height is a
    multiple of [r_height]: the pixel buffer is cut into exactly [r_height]
    bands of [width * (height / r_height) * len(mode)] bytes, and the output
    is one line per band, the lines joined by a newline; each line is a
    single escape sequence that declares the byte size of the stored band,
    [width=r_width] and [height=1], followed on konsole by the jump to the
    right. *)
Theorem iterm2_render_lines
    (_get_minimal_render_size : Z * Z)
    (_get_render_data : Z * Z -> Kitty.mode * Py.bytes)
    (frombytes : Kitty.mode -> Z * Z -> Py.bytes -> Py.outcome Py.bytes)
    (save : Kitty.mode -> Z * Z -> Py.bytes -> ITerm2Image.format -> Py.bytes)
    (cls : ITerm2.class_state) (self : ITerm2Image.ITerm2Image) :
  let r_width := fst (ITerm2Image.rendered_size self) in
  let r_height := snd (ITerm2Image.rendered_size self) in
  let width := fst _get_minimal_render_size in
  let height := snd _get_minimal_render_size in
  let img_mode := fst (_get_render_data (width, height)) in
  let raw_image := snd (_get_render_data (width, height)) in
  let cell_height := height / r_height in
  let is_on_konsole := String.eqb (ITerm2._TERM cls) "konsole" in
  ITerm2Image._render_method self = ITerm2Image.LINES ->
  1 <= r_height ->
  0 <= width ->
  0 <= height ->
  height mod r_height = 0 ->
  Py.len raw_image = width * height * ITerm2Image.mode_len img_mode ->
  (forall data,
     Py.len data = width * cell_height * ITerm2Image.mode_len img_mode ->
     frombytes img_mode (width, cell_height) data = Py.Return data) ->
  exists bands : list Py.bytes,
    List.length bands = Z.to_nat r_height
    /\ Py.concat bands = raw_image
    /\ Forall
         (fun band =>
            Py.len band = width * cell_height * ITerm2Image.mode_len img_mode)
         bands
    /\ ITerm2Image._render_image _get_minimal_render_size _get_render_data
         frombytes save cls self
       = Py.Return
           (Py.join (Py.chr Py.LF)
              (map (ITerm2Spec.line save img_mode width cell_height r_width
                      is_on_konsole)
                 bands)).
Proof.
  intros r_width r_height width height img_mode raw_image cell_height
    is_on_konsole Hmethod Hr Hwidth Hheight Hmod Hlen Hfrom.
  unfold ITerm2Image._render_image.
  destruct self as [[rw rh] method].
  destruct _get_minimal_render_size as [w h].
  cbn [ITerm2Image.rendered_size ITerm2Image._render_method fst snd] in *.
  subst method width height r_width r_height.
  destruct (_get_render_data (w, h)) as [m raw]. cbn [fst snd] in *.
  subst img_mode raw_image. fold is_on_konsole.
  set (bpl := w * cell_height * ITerm2Image.mode_len m) in *.
  assert (Hcell : 0 <= cell_height) by (apply Z.div_pos; lia).
  assert (Hmode : 0 <= ITerm2Image.mode_len m) by (destruct m; cbn; lia).
  assert (Hbpl : 0 <= bpl)
    by (apply Z.mul_nonneg_nonneg; [apply Z.mul_nonneg_nonneg|]; assumption).
  assert (Hexact : h = rh * cell_height).
  { pose proof (Z.div_mod h rh ltac:(lia)). subst cell_height. lia. }
  destruct (bands_exact (Z.to_nat rh) bpl raw Hbpl) as [H1 [H2 H3]].
  { rewrite Hlen, Z2Nat.id by lia. subst bpl. rewrite Hexact at 1. ring. }
  exists (RenderSpec.bands (Z.to_nat rh) bpl raw).
  split; [exact H1|]. split; [exact H2|]. split; [exact H3|].
  destruct (Z.eqb_spec rh 0) as [E|_]; [lia|].
  fold cell_height. fold bpl.
  rewrite (iterm2_lines_loop frombytes save); [reflexivity|].
  eapply Forall_impl; [|exact H3]. cbv beta. intros band Hband.
  now apply Hfrom.
Qed.

Lemma iterm2_render_lines_witness :
  exists bands : list Py.bytes,
    List.length bands = 2%nat
    /\ ITerm2Image._render_image (3, 6) RenderSpec.plain_image
         ITerm2Spec.toy_frombytes ITerm2Spec.toy_save
         (ITerm2.mk_class (SBool true) "konsole" "22.04.0")
         (ITerm2Image.mk_image (4, 2) ITerm2Image.LINES)
       = Py.Return
           (Py.join (Py.chr Py.LF)
              (map (ITerm2Spec.line ITerm2Spec.toy_save Kitty.RGB 3 3 4 true)
                 bands)).
Proof.
  destruct (iterm2_render_lines (3, 6) RenderSpec.plain_image
              ITerm2Spec.toy_frombytes ITerm2Spec.toy_save
              (ITerm2.mk_class (SBool true) "konsole" "22.04.0")
              (ITerm2Image.mk_image (4, 2) ITerm2Image.LINES))
    as [bands [H1 [_ [_ H4]]]].
  - reflexivity.
  - cbn. lia.
  - cbn. lia.
  - cbn. lia.
  - reflexivity.
  - reflexivity.
  - intros data Hdata. unfold ITerm2Spec.toy_frombytes.
    cbn [fst snd] in *. rewrite Hdata. now rewrite Z.eqb_refl.
  - exists bands. split; [exact H1 | exact H4].
Defined.

(** ** Lines of the rendered output

    No escape sequence that the two styles write holds a line feed: the
    numbers are decimal, the payload is base64 text, the rest is fixed. The
    line feeds of a rendered image are those that separate its lines. *)

Section LineFeeds.
Import Py LineSpec.

Lemma newlines_app (s1 s2 : string) :
  newlines (s1 ++ s2) = (newlines s1 + newlines s2)%nat.
Proof.
  unfold newlines. induction s1 as [|x s1 IH]; cbn [count String.append];
    [reflexivity | rewrite IH; lia].
Qed.

Lemma newlines_take (n : nat) (s : string) :
  newlines s = O -> newlines (str_take n s) = O.
Proof.
  unfold newlines. revert s. induction n as [|n IH]; intros [|x s];
    cbn [count str_take]; try reflexivity.
  intros H. rewrite IH; lia.
Qed.

Lemma newlines_drop (n : nat) (s : string) :
  newlines s = O -> newlines (str_drop n s) = O.
Proof.
  unfold newlines. revert s. induction n as [|n IH]; intros [|x s];
    cbn [count str_drop]; try (intros H; exact H).
  intros H. apply IH. lia.
Qed.

Lemma newlines_uint (d : Decimal.uint) :
  newlines (NilEmpty.string_of_uint d) = O.
Proof. induction d; cbn; auto. Qed.

Lemma newlines_str_of_int (n : Z) : newlines (str_of_int n) = O.
Proof.
  unfold str_of_int, NilZero.string_of_int, NilZero.string_of_uint.
  destruct (Z.to_int n) as [d|d]; destruct d;
    try reflexivity; try apply newlines_uint;
    change (newlines (String "-" ?s)) with (newlines s);
    try reflexivity; apply newlines_uint.
Qed.

Lemma b64_char_not_lf (n : N) : Ascii.eqb (b64_char n) LF = false.
Proof.
  unfold b64_char. generalize (N.to_nat n) as k. intros k.
  do 64 (destruct k as [|k]; [reflexivity|]). destruct k; reflexivity.
Qed.

Lemma newlines_b64 (s : bytes) : newlines (standard_b64encode s) = O.
Proof.
  remember (String.length s) as k eqn:Hk. revert s Hk.
  induction k as [k IH] using lt_wf_ind. intros s Hk.
  unfold newlines in *.
  destruct s as [|a [|b [|c s]]]; subst k;
    cbn [standard_b64encode count]; rewrite ?b64_char_not_lf;
    try reflexivity.
  now rewrite (IH (String.length s) ltac:(simpl; lia) s eq_refl).
Qed.

Lemma newlines_repeat_nat (s : string) (k : nat) :
  newlines s = O -> newlines (repeat_nat s k) = O.
Proof.
  intros H. induction k as [|k IH]; cbn [repeat_nat]; [reflexivity|].
  rewrite newlines_app. lia.
Qed.

Lemma newlines_repeat_nat_mul (s : string) (k : nat) :
  newlines (repeat_nat s k) = (k * newlines s)%nat.
Proof.
  induction k as [|k IH]; cbn [repeat_nat]; [reflexivity|].
  rewrite newlines_app, IH. lia.
Qed.

Lemma newlines_concat (l : list string) :
  Forall (fun x => newlines x = O) l -> newlines (concat l) = O.
Proof.
  induction 1 as [|x l Hx _ IH]; cbn [concat]; [reflexivity|].
  cbv beta in Hx. rewrite newlines_app, Hx, IH. reflexivity.
Qed.

Lemma newlines_join (sep : string) (l : list string) :
  Forall (fun x => newlines x = O) l ->
  newlines (join sep l) = (Nat.pred (List.length l) * newlines sep)%nat.
Proof.
  induction 1 as [|x l Hx Hl IH]; [reflexivity|].
  cbv beta in Hx. destruct l as [|y l];
    [cbn [join]; rewrite Hx; reflexivity|].
  change (join sep (x :: y :: l)) with (x ++ sep ++ join sep (y :: l)).
  rewrite !newlines_app, IH, Hx. cbn [List.length Nat.pred]. lia.
Qed.

Lemma newlines_pairs (items : list (string * option string)) :
  Forall (fun kv => newlines (fst kv) = O
                    /\ forall x, snd kv = Some x -> newlines x = O) items ->
  Forall (fun x => newlines x = O)
    (map (fun kv => fst kv ++ "=" ++ snd kv)
       (Kitty.Transmission.present items)).
Proof.
  induction 1 as [|[key [value|]] items [Hk Hv] _ IH];
    cbn [Kitty.Transmission.present map]; [constructor | | exact IH].
  constructor; [|exact IH]. cbn [fst snd] in *.
  rewrite !newlines_app, Hk, (Hv value eq_refl). reflexivity.
Qed.

Lemma newlines_fmt_int (n : option Z) (x : string) :
  Kitty.ControlData.fmt_int n = Some x -> newlines x = O.
Proof.
  destruct n as [n|]; cbn; intros H; [|discriminate H].
  injection H as <-. apply newlines_str_of_int.
Qed.

Lemma newlines_control_data (self : Kitty.Transmission.Transmission) :
  let cd := Kitty.Transmission.control self in
  (forall x, Kitty.ControlData.a cd = Some x -> newlines x = O) ->
  (forall x, Kitty.ControlData.t cd = Some x -> newlines x = O) ->
  (forall x, Kitty.ControlData.o cd = Some x -> newlines x = O) ->
  newlines (Kitty.Transmission.get_control_data self) = O.
Proof.
  intros cd Ha Ht Ho. unfold Kitty.Transmission.get_control_data.
  rewrite newlines_join; [apply Nat.mul_0_r|].
  apply newlines_pairs. unfold Kitty.ControlData.asdict. fold cd.
  repeat constructor; cbn [fst snd]; try assumption;
    apply newlines_fmt_int.
Qed.

Lemma newlines_sequence (header : option string) (more : bool)
    (data : string) :
  (forall h, header = Some h -> newlines h = O) ->
  newlines data = O ->
  newlines (ChunkSpec.sequence header more data) = O.
Proof.
  intros Hh Hd. unfold ChunkSpec.sequence.
  destruct header as [h|].
  - rewrite !newlines_app, (Hh h eq_refl), Hd. destruct more; reflexivity.
  - rewrite !newlines_app, Hd. destruct more; reflexivity.
Qed.

Lemma newlines_frame_rest (slices : list string) :
  Forall (fun x => newlines x = O) slices ->
  Forall (fun x => newlines x = O) (ChunkSpec.frame_rest slices).
Proof.
  induction 1 as [|x l Hx _ IH]; cbn [ChunkSpec.frame_rest]; constructor;
    [|exact IH].
  apply newlines_sequence; [intros h H; discriminate H | exact Hx].
Qed.

Lemma newlines_frame (header : string) (slices : list string) :
  newlines header = O ->
  Forall (fun x => newlines x = O) slices ->
  Forall (fun x => newlines x = O) (ChunkSpec.frame header slices).
Proof.
  intros Hh H. destruct H as [|x l Hx Hl]; cbn [ChunkSpec.frame];
    constructor; [|now apply newlines_frame_rest].
  apply newlines_sequence; [intros h [= <-]; exact Hh | exact Hx].
Qed.

Lemma newlines_slicing (n : nat) (text : string) (l : list string) :
  ChunkSpec.slicing n text l ->
  newlines text = O ->
  Forall (fun x => newlines x = O) l.
Proof.
  induction 1 as [|text l _ _ IH]; intros H; constructor.
  - now apply newlines_take.
  - apply IH. now apply newlines_drop.
Qed.

Lemma newlines_get_chunked (self : Kitty.Transmission.Transmission) :
  newlines (Kitty.Transmission.get_control_data self) = O ->
  newlines (Kitty.Transmission.get_chunked self) = O.
Proof.
  intros Hh. unfold Kitty.Transmission.get_chunked.
  assert (Hpos : 0 < Kitty.Transmission.default_size) by reflexivity.
  destruct (get_chunks_frame self _ Hpos) as [l [Hl ->]].
  assert (He : newlines (Kitty.Transmission.encode self) = O)
    by apply newlines_b64.
  apply newlines_concat, newlines_frame; [exact Hh|].
  constructor; [now apply newlines_take|].
  eapply newlines_slicing; [exact Hl | now apply newlines_drop].
Qed.

Lemma newlines_line (zc : bytes -> bytes)
    (cd : Kitty.ControlData.ControlData) (c : Z) (band : bytes) :
  (forall x, Kitty.ControlData.a cd = Some x -> newlines x = O) ->
  (forall x, Kitty.ControlData.t cd = Some x -> newlines x = O) ->
  (forall x, Kitty.ControlData.o cd = Some x -> newlines x = O) ->
  newlines (RenderSpec.line zc cd c band) = O.
Proof.
  intros Ha Ht Ho. unfold RenderSpec.line. rewrite !newlines_app.
  rewrite newlines_get_chunked
    by (apply newlines_control_data; rewrite init_control; assumption).
  unfold repeat. rewrite newlines_repeat_nat by reflexivity.
  destruct (Kitty.ControlData.z cd); [reflexivity|].
  unfold Kitty.clear_seq. rewrite !newlines_app, newlines_str_of_int.
  reflexivity.
Qed.

Lemma bands_length (n : nat) (bytes_per_line : Z) (raw_image : bytes) :
  List.length (RenderSpec.bands n bytes_per_line raw_image) = n.
Proof.
  revert raw_image. induction n as [|n IH]; intros raw_image;
    cbn [RenderSpec.bands List.length]; [reflexivity | now rewrite IH].
Qed.

End LineFeeds.

(** X13. A kitty rendering at [r_height >= 1] lines returns, with either
    render method and whatever the image, the codec, the cell size and the
    z-index are, a string that holds exactly [r_height - 1] line feeds:
    [r_height] lines. *)
Theorem kitty_render_line_count
    (zlib_compress : Py.bytes -> Py.bytes) (get_cell_size : option (Z * Z))
    (_get_render_data : Z * Z -> Kitty.mode * Py.bytes)
    (self : Kitty.KittyImage) (z_index : option Z) :
  1 <= snd (Kitty.rendered_size self) ->
  exists out : string,
    Kitty._render_image zlib_compress get_cell_size _get_render_data self
      z_index
    = Py.Return out
    /\ Z.of_nat (LineSpec.newlines out) = snd (Kitty.rendered_size self) - 1.
Proof.
  intros Hr. unfold Kitty._render_image.
  destruct self as [[rw rh] osize method].
  cbn [Kitty.rendered_size Kitty._original_size Kitty._render_method
       fst snd] in *.
  destruct (if _ <? _ then _ else _) as [w h0].
  destruct (Z.eqb_spec rh 0) as [E|_]; [lia|].
  set (height := if _ =? 0 then h0 else _).
  destruct (_get_render_data (w, height)) as [m raw].
  set (cd := Kitty.ControlData.init _ _ _ _ _ _ _ _ _ _).
  assert (Hcd : Kitty.ControlData.a cd = Some "T"
                /\ Kitty.ControlData.t cd = Some "d"
                /\ Kitty.ControlData.o cd = Some "z"
                /\ Kitty.ControlData.s cd = Some w
                /\ Kitty.ControlData.f cd = Some (Kitty.format_of m)
                /\ Kitty.ControlData.c cd = Some rw)
    by (subst cd; destruct m; repeat split).
  destruct Hcd as (Ha & Ht & Ho & Hs & Hf & Hc).
  assert (Hline : forall x y band,
            LineSpec.newlines
              (RenderSpec.line zlib_compress
                 (Kitty.ControlData.update_v_r cd x y) rw band) = O).
  { intros x y band. apply newlines_line;
      cbn [Kitty.ControlData.update_v_r Kitty.ControlData.a
           Kitty.ControlData.t Kitty.ControlData.o];
      rewrite ?Ha, ?Ht, ?Ho; intros s [= <-]; reflexivity. }
  destruct method.
  - unfold Kitty._render_image_lines.
    destruct (Z.eqb_spec rh 0) as [E|_]; [lia|].
    rewrite Hs, Hf.
    cbn [Kitty.ControlData.update_v_r Kitty.ControlData.c]. rewrite Hc.
    destruct (Py.read _ raw) as [band rest].
    eexists. split; [reflexivity|].
    rewrite init_control, lines_loop_bands. cbn [String.append].
    rewrite newlines_join.
    + rewrite length_map. cbn [List.length]. rewrite bands_length.
      cbn. lia.
    + apply Forall_forall. intros x Hx. apply in_map_iff in Hx.
      destruct Hx as [band' [<- _]]. apply Hline.
  - unfold Kitty._render_image_whole.
    cbn [Kitty.ControlData.update_v_r Kitty.ControlData.c]. rewrite Hc.
    eexists. split; [reflexivity|].
    unfold Py.repeat at 1. rewrite fill_lines, write_line_line.
    cbn [String.append]. rewrite newlines_join.
    + cbn [List.length]. rewrite repeat_length. cbn. lia.
    + constructor; [apply Hline|].
      apply Forall_forall. intros x Hx. apply repeat_spec in Hx. subst x.
      unfold Py.repeat. now apply newlines_repeat_nat.
Qed.

Lemma kitty_render_line_count_witness :
  exists out : string,
    Kitty._render_image ControlSpec.toy_compress None RenderSpec.plain_image
      (Kitty.mk_image (4, 2) (3, 5) Kitty.LINES) None
    = Py.Return out
    /\ Z.of_nat (LineSpec.newlines out) = 1.
Proof.
  apply (kitty_render_line_count ControlSpec.toy_compress None
           RenderSpec.plain_image (Kitty.mk_image (4, 2) (3, 5) Kitty.LINES)
           None).
  cbn. lia.
Defined.

Section ITerm2LineFeeds.
Import Py LineSpec.
Variable frombytes : Kitty.mode -> Z * Z -> bytes -> outcome bytes.
Variable save : Kitty.mode -> Z * Z -> bytes -> ITerm2Image.format -> bytes.

Lemma newlines_jump_right (r_width : Z) :
  newlines (ITerm2Image.jump_right r_width) = O.
Proof.
  unfold ITerm2Image.jump_right.
  now rewrite !newlines_app, newlines_str_of_int.
Qed.

Lemma newlines_line_control (r_width : Z) (konsole : bool) :
  newlines (ITerm2Image.line_control r_width konsole) = O.
Proof.
  unfold ITerm2Image.line_control.
  rewrite !newlines_app, newlines_str_of_int. now destruct konsole.
Qed.

Lemma iterm2_lines_loop_count (m : Kitty.mode)
    (width cell_height bpl r_width : Z) (konsole : bool) (n : nat) :
  forall (buffer : string) (raw_image : bytes),
    Forall (fun band =>
              exists pixels,
                frombytes m (width, cell_height) band = Return pixels)
      (RenderSpec.bands n bpl raw_image) ->
    exists out : string,
      ITerm2Image.lines_loop frombytes save n m width cell_height bpl r_width
        konsole buffer raw_image
      = Return out
      /\ newlines out = (newlines buffer + Nat.pred n)%nat.
Proof.
  induction n as [|n IH]; intros buffer raw_image Hall.
  - exists buffer. split; [reflexivity | cbn [Nat.pred]; lia].
  - cbn [ITerm2Image.lines_loop RenderSpec.bands] in *.
    destruct (read bpl raw_image) as [band rest]. cbn [fst snd] in *.
    inversion Hall as [|? ? [pixels Hband] Hrest]; subst.
    rewrite Hband. cbn [bind]. cbv zeta.
    edestruct IH as [out [Hout Hcount]]; [exact Hrest|].
    exists out. split; [exact Hout|]. rewrite Hcount.
    destruct n as [|n]; destruct konsole;
      rewrite !newlines_app, ?newlines_str_of_int, ?newlines_b64,
        ?newlines_line_control, ?newlines_jump_right;
      cbn [newlines count Ascii.eqb Bool.eqb LF chr ITerm2Image.ST ESC
           String.append Nat.pred Nat.add]; lia.
Qed.
End ITerm2LineFeeds.

(** X14. An iTerm2 rendering at [r_height >= 1] lines. With the lines
    method, when the image library accepts every band that is read, the
    string returned holds exactly [r_height - 1] line feeds. With the whole
    method it holds [r_height - 1] line feeds on konsole, where the jumps to
    the right are written on lines of their own, and none at all on any
    other terminal: there the string is the escape sequence alone. *)
Theorem iterm2_render_line_count
    (_get_minimal_render_size : Z * Z)
    (_get_render_data : Z * Z -> Kitty.mode * Py.bytes)
    (frombytes : Kitty.mode -> Z * Z -> Py.bytes -> Py.outcome Py.bytes)
    (save : Kitty.mode -> Z * Z -> Py.bytes -> ITerm2Image.format -> Py.bytes)
    (cls : ITerm2.class_state) (self : ITerm2Image.ITerm2Image) :
  let r_height := snd (ITerm2Image.rendered_size self) in
  let width := fst _get_minimal_render_size in
  let height := snd _get_minimal_render_size in
  let img_mode := fst (_get_render_data (width, height)) in
  let raw_image := snd (_get_render_data (width, height)) in
  let cell_height := height / r_height in
  let bytes_per_line := width * cell_height * ITerm2Image.mode_len img_mode in
  1 <= r_height ->
  (ITerm2Image._render_method self = ITerm2Image.LINES ->
   Forall (fun band =>
             exists pixels,
               frombytes img_mode (width, cell_height) band
               = Py.Return pixels)
     (RenderSpec.bands (Z.to_nat r_height) bytes_per_line raw_image)) ->
  exists out : string,
    ITerm2Image._render_image _get_minimal_render_size _get_render_data
      frombytes save cls self
    = Py.Return out
    /\ Z.of_nat (LineSpec.newlines out)
       = match ITerm2Image._render_method self with
         | ITerm2Image.LINES => r_height - 1
         | ITerm2Image.WHOLE =>
             if String.eqb (ITerm2._TERM cls) "konsole"
             then r_height - 1 else 0
         end.
Proof.
  intros r_height width height img_mode raw_image cell_height bytes_per_line
    Hr Hfrom.
  unfold ITerm2Image._render_image.
  destruct self as [[rw rh] method].
  destruct _get_minimal_render_size as [w h].
  cbn [ITerm2Image.rendered_size ITerm2Image._render_method fst snd] in *.
  subst width height r_height.
  destruct (_get_render_data (w, h)) as [m raw]. cbn [fst snd] in *.
  subst img_mode raw_image.
  destruct method.
  - destruct (Z.eqb_spec rh 0) as [E|_]; [lia|].
    fold cell_height. fold bytes_per_line.
    destruct (iterm2_lines_loop_count frombytes save m w cell_height
                bytes_per_line rw (String.eqb (ITerm2._TERM cls) "konsole")
                (Z.to_nat rh) "" raw (Hfrom eq_refl))
      as [out [Hout Hcount]].
    exists out. split; [exact Hout|]. rewrite Hcount. cbn. lia.
  - eexists. split; [reflexivity|].
    rewrite !newlines_app, !newlines_str_of_int, newlines_b64.
    destruct (String.eqb (ITerm2._TERM cls) "konsole").
    + rewrite newlines_jump_right. unfold Py.repeat.
      rewrite newlines_repeat_nat_mul, newlines_app, newlines_jump_right.
      cbn. lia.
    + cbn. lia.
Qed.

Lemma iterm2_render_line_count_witness :
  exists out : string,
    ITerm2Image._render_image (3, 6) RenderSpec.plain_image
      ITerm2Spec.toy_frombytes ITerm2Spec.toy_save
      (ITerm2.mk_class (SBool true) "iterm2" "3.4.19")
      (ITerm2Image.mk_image (4, 2) ITerm2Image.LINES)
    = Py.Return out
    /\ Z.of_nat (LineSpec.newlines out) = 1.
Proof.
  apply (iterm2_render_line_count (3, 6) RenderSpec.plain_image
           ITerm2Spec.toy_frombytes ITerm2Spec.toy_save
           (ITerm2.mk_class (SBool true) "iterm2" "3.4.19")
           (ITerm2Image.mk_image (4, 2) ITerm2Image.LINES)).
  - cbn. lia.
  - intros _. vm_compute. repeat constructor; eexists; reflexivity.
Defined.

(** ** A version that does not parse, kitty protocol *)

(** X15. kitty: the probe is acknowledged and the terminal names itself,
    in a reply that is text, kitty or konsole, but its version does not
    parse as dot-separated integers. Nothing catches the [ValueError]: it reaches the caller of
    [is_supported], no version is recorded, and [_supported] stays at the
    [True] that the acknowledged probe stored, so every later call returns
    [True] without asking the terminal again. *)
Theorem kitty_unparsable_version_propagates
    cls term r1 t1 r2 t2 text name version :
  Kitty._supported cls = SNone ->
  Tty.query_terminal Kitty.probe_query Kitty.probe_more term = (r1, t1) ->
  Py.rpartition0 Py.ESC r1 = Kitty.probe_ok ->
  Tty.query_terminal Kitty.name_version_query Kitty.name_version_more t1
  = (r2, t2) ->
  Py.decode r2 = Py.Return text ->
  Re.match_ Kitty.name_version_re text = Some [name; version] ->
  Py.casefold name = "kitty" \/ Py.casefold name = "konsole" ->
  (forall ver, Py.map_int (Py.split "." version) <> Py.Return ver) ->
  let cls' := Kitty.set_supported cls (SBool true) in
  Kitty.is_supported cls term = (Py.Raise Py.ValueError, cls', t2)
  /\ forall n term',
       Detection.calls Kitty.is_supported n cls' term'
       = (List.repeat (Py.Return (SBool true)) n, cls', term').
Proof.
  intros Hnone Hq1 Hok Hq2 Hdec Hre Hname Hbad cls'. split.
  - unfold Kitty.is_supported. rewrite Hnone, Hq1.
    destruct r1 as [|x r1]; [discriminate Hok|]. cbn [Py.truthy].
    rewrite Hok, String.eqb_refl.
    cbn [Kitty._supported Kitty.set_supported support_truthy].
    rewrite Hq2, Hdec. cbn [Py.bind]. rewrite Hre.
    unfold Kitty.record_version.
    destruct (Py.map_int (Py.split "." version)) as [ver|e] eqn:E;
      [now destruct (Hbad ver)|].
    apply map_int_raises in E. subst e.
    destruct Hname as [Hname | Hname]; rewrite Hname; reflexivity.
  - intros n term'. apply (calls_cached Kitty.is_supported). intros t.
    apply (kitty_cached cls'). discriminate.
Qed.

Lemma kitty_unparsable_version_propagates_witness :
  Kitty.is_supported Kitty.initial_class
    (Detection.answering
       [ Kitty.probe_ok ++ Detection.attributes;
         Detection.identification "konsole 22.04.x" ])
  = (Py.Raise Py.ValueError, Kitty.mk_class (SBool true) [] [],
     Tty.mk [] "" [Kitty.probe_query; Kitty.name_version_query]).
Proof.
  refine (proj1 (kitty_unparsable_version_propagates Kitty.initial_class
            (Detection.answering
               [ Kitty.probe_ok ++ Detection.attributes;
                 Detection.identification "konsole 22.04.x" ])
            (Kitty.probe_ok ++ Detection.attributes)
            (Tty.mk [Detection.identification "konsole 22.04.x"] ""
               [Kitty.probe_query])
            (Detection.identification "konsole 22.04.x")
            (Tty.mk [] "" [Kitty.probe_query; Kitty.name_version_query])
            (Detection.identification "konsole 22.04.x")
            "konsole" "22.04.x" _ _ _ _ _ _ _ _)).
  - reflexivity.
  - vm_compute. reflexivity.
  - vm_compute. reflexivity.
  - vm_compute. reflexivity.
  - vm_compute. reflexivity.
  - vm_compute. reflexivity.
  - right. vm_compute. reflexivity.
  - intros ver H. vm_compute in H. discriminate H.
Defined.

(** ** A reply that is not text *)

Lemma decode_raises (b : Py.bytes) :
  (forall text, Py.decode b <> Py.Return text) ->
  Py.decode b = Py.Raise Py.UnicodeDecodeError.
Proof.
  intros H. unfold Py.decode in *.
  destruct (Py.chars b); [now destruct (H b) | reflexivity].
Qed.

(** X16. iTerm2: a reply that is not well-formed UTF-8 makes [is_supported]
    raise [UnicodeDecodeError]: the decoding is not inside the [try]
    statement. The class attributes stay as they were, nothing being stored,
    and the rest of the reply is not read. *)
Theorem iterm2_undecodable_reply cls term response term' :
  ITerm2._supported cls = SNone ->
  Tty.query_terminal ITerm2.query ITerm2.query_more term = (response, term') ->
  (forall text, Py.decode response <> Py.Return text) ->
  ITerm2.is_supported cls term = (Py.Raise Py.UnicodeDecodeError, cls, term').
Proof.
  intros Hnone Hq Hbad. unfold ITerm2.is_supported.
  rewrite Hnone, Hq, (decode_raises _ Hbad). reflexivity.
Qed.

Lemma iterm2_undecodable_reply_witness :
  ITerm2.is_supported ITerm2.initial_class
    (Detection.answering
       [ Detection.identification ("konsole 22." ++ String "255" "")
         ++ Detection.attributes ])
  = (Py.Raise Py.UnicodeDecodeError, ITerm2.initial_class,
     Tty.mk [] "2;c" [ITerm2.query]).
Proof.
  apply (iterm2_undecodable_reply ITerm2.initial_class
           (Detection.answering
              [ Detection.identification ("konsole 22." ++ String "255" "")
                ++ Detection.attributes ])
           (Detection.identification ("konsole 22." ++ String "255" "")
            ++ String Py.ESC "[?6")).
  - reflexivity.
  - vm_compute. reflexivity.
  - intros text H. vm_compute in H. discriminate H.
Defined.

(** X17. kitty: the probe is acknowledged and the identification that
    follows is not well-formed UTF-8. [is_supported] raises
    [UnicodeDecodeError]; [_supported] stays at the [True] that the
    acknowledged probe stored and no version is recorded, so every later
    call returns [True] without asking the terminal again. *)
Theorem kitty_undecodable_reply cls term r1 t1 r2 t2 :
  Kitty._supported cls = SNone ->
  Tty.query_terminal Kitty.probe_query Kitty.probe_more term = (r1, t1) ->
  Py.rpartition0 Py.ESC r1 = Kitty.probe_ok ->
  Tty.query_terminal Kitty.name_version_query Kitty.name_version_more t1
  = (r2, t2) ->
  (forall text, Py.decode r2 <> Py.Return text) ->
  let cls' := Kitty.set_supported cls (SBool true) in
  Kitty.is_supported cls term = (Py.Raise Py.UnicodeDecodeError, cls', t2)
  /\ forall n term',
       Detection.calls Kitty.is_supported n cls' term'
       = (List.repeat (Py.Return (SBool true)) n, cls', term').
Proof.
  intros Hnone Hq1 Hok Hq2 Hbad cls'. split.
  - unfold Kitty.is_supported. rewrite Hnone, Hq1.
    destruct r1 as [|x r1]; [discriminate Hok|]. cbn [Py.truthy].
    rewrite Hok, String.eqb_refl.
    cbn [Kitty._supported Kitty.set_supported support_truthy].
    rewrite Hq2, (decode_raises _ Hbad). reflexivity.
  - intros n term'. apply (calls_cached Kitty.is_supported). intros t.
    apply (kitty_cached cls'). discriminate.
Qed.

Lemma kitty_undecodable_reply_witness :
  Kitty.is_supported Kitty.initial_class
    (Detection.answering
       [ Kitty.probe_ok ++ Detection.attributes;
         Detection.identification ("WezTerm 2022" ++ String "255" "") ])
  = (Py.Raise Py.UnicodeDecodeError, Kitty.mk_class (SBool true) [] [],
     Tty.mk [] "" [Kitty.probe_query; Kitty.name_version_query]).
Proof.
  refine (proj1 (kitty_undecodable_reply Kitty.initial_class
            (Detection.answering
               [ Kitty.probe_ok ++ Detection.attributes;
                 Detection.identification
                   ("WezTerm 2022" ++ String "255" "") ])
            (Kitty.probe_ok ++ Detection.attributes)
            (Tty.mk [Detection.identification
                       ("WezTerm 2022" ++ String "255" "")] ""
               [Kitty.probe_query])
            (Detection.identification ("WezTerm 2022" ++ String "255" ""))
            (Tty.mk [] "" [Kitty.probe_query; Kitty.name_version_query])
            _ _ _ _ _)).
  - reflexivity.
  - vm_compute. reflexivity.
  - vm_compute. reflexivity.
  - vm_compute. reflexivity.
  - intros text H. vm_compute in H. discriminate H.
Defined.
